(** * Receipt validation, anti-fraud bookkeeping and access-code issuance
    of [bot.py], as a shallow embedding.

  Python [str] values are sequences of Unicode code points; the
  relational store is a record of tables (lists of rows); handlers run in
  a state-and-exception monad over the store, the tariff selection cache,
  a schedule of store faults and a trace of the calls they make. *)

From Stdlib Require Import ZArith NArith Lia Bool.
From Stdlib Require Import Ascii String Decimal.
From stdpp Require Import gmap list.

Local Open Scope Z_scope.

(** ** Python strings *)

Module Str.

(** A [str] is the list of its code points. *)
Definition str : Type := list N.

(** Literals are written as UTF-8 text and decoded to code points:
    [need] continuation bytes are still expected for the scalar [acc]. *)
Fixpoint utf8_decode (need : nat) (acc : N) (s : string) : str :=
  match s with
  | EmptyString => []
  | String a s' =>
      let b := N_of_ascii a in
      match need with
      | O =>
          if (b <? 128)%N then b :: utf8_decode 0 0%N s'
          else if (b <? 224)%N then utf8_decode 1 (b - 192)%N s'
          else if (b <? 240)%N then utf8_decode 2 (b - 224)%N s'
          else utf8_decode 3 (b - 240)%N s'
      | S O => (acc * 64 + (b - 128))%N :: utf8_decode 0 0%N s'
      | S n => utf8_decode n (acc * 64 + (b - 128))%N s'
      end
  end.

Definition py (s : string) : str := utf8_decode 0 0%N s.

Fixpoint str_eqb (a b : str) : bool :=
  match a, b with
  | [], [] => true
  | x :: a', y :: b' => (x =? y)%N && str_eqb a' b'
  | _, _ => false
  end.

(** [s.startswith(p)] *)
Fixpoint startswith (p s : str) : bool :=
  match p, s with
  | [], _ => true
  | _ :: _, [] => false
  | x :: p', y :: s' => (x =? y)%N && startswith p' s'
  end.

(** [needle in hay] on two [str]: substring containment. *)
Fixpoint str_in (needle hay : str) : bool :=
  startswith needle hay ||
  match hay with
  | [] => false
  | _ :: hay' => str_in needle hay'
  end.

(** [\d] of a [str] pattern: the decimal digits of every script.  Each
    script's digits are ten consecutive code points; these are the code
    points of the zeros (Unicode 14). *)
Definition decimal_zeros : list N :=
  [48; 1632; 1776; 1984; 2406; 2534; 2662; 2790; 2918; 3046; 3174; 3302;
   3430; 3558; 3664; 3792; 3872; 4160; 4240; 6112; 6160; 6470; 6608; 6784;
   6800; 6992; 7088; 7232; 7248; 42528; 43216; 43264; 43472; 43504; 43600;
   44016; 65296; 66720; 68912; 69734; 69872; 69942; 70096; 70384; 70736;
   70864; 71248; 71360; 71472; 71904; 72016; 72784; 73040; 73120; 92768;
   92864; 93008; 120782; 120792; 120802; 120812; 120822; 123200; 123632;
   125264; 130032]%N.

(** The value [int] gives a decimal digit, [None] for other characters. *)
Definition decimal_value (c : N) : option Z :=
  match List.find (fun z => (z <=? c)%N && (c <? z + 10)%N) decimal_zeros with
  | Some z => Some (Z.of_N (c - z))
  | None => None
  end.

Definition is_decimal (c : N) : bool :=
  match decimal_value c with Some _ => true | None => false end.

(** [\s] of a [str] pattern, which is [str.isspace]. *)
Definition is_space (c : N) : bool :=
  existsb (N.eqb c)
    [9; 10; 11; 12; 13; 28; 29; 30; 31; 32; 133; 160; 5760; 8192; 8193;
     8194; 8195; 8196; 8197; 8198; 8199; 8200; 8201; 8202; 8232; 8233;
     8239; 8287; 12288]%N.

Fixpoint uint_digits (u : Decimal.uint) : str :=
  match u with
  | Nil => []
  | D0 u => 48%N :: uint_digits u
  | D1 u => 49%N :: uint_digits u
  | D2 u => 50%N :: uint_digits u
  | D3 u => 51%N :: uint_digits u
  | D4 u => 52%N :: uint_digits u
  | D5 u => 53%N :: uint_digits u
  | D6 u => 54%N :: uint_digits u
  | D7 u => 55%N :: uint_digits u
  | D8 u => 56%N :: uint_digits u
  | D9 u => 57%N :: uint_digits u
  end.

(** [str(n)] of an [int]. *)
Definition str_of_int (n : Z) : str :=
  match Z.to_int n with
  | Decimal.Pos u => uint_digits u
  | Decimal.Neg u => 45%N :: uint_digits u
  end.

(** *** [re.findall(r'\d+', s)]

    The scan keeps the digits of the run it is in (most recent first) and
    emits the run when it meets a character that is not a digit or the end
    of the string: matches are leftmost, greedy and do not overlap. *)
Definition flush (cur : str) : list str :=
  match cur with
  | [] => []
  | _ :: _ => [rev cur]
  end.

Fixpoint findall_from (cur : str) (s : str) : list str :=
  match s with
  | [] => flush cur
  | c :: s' =>
      if is_decimal c then findall_from (c :: cur) s'
      else flush cur ++ findall_from [] s'
  end.

Definition findall_digits (s : str) : list str := findall_from [] s.

(** [max(l, key=len)] on a list that is not empty: the running maximum is
    replaced only by a strictly longer item, so the first of the longest
    items is returned. *)
Fixpoint max_from (best : str) (l : list str) : str :=
  match l with
  | [] => best
  | x :: l' =>
      if (length best <? length x)%nat then max_from x l' else max_from best l'
  end.

(** [None] stands for the [ValueError] of [max] on an empty list. *)
Definition max_key_len (l : list str) : option str :=
  match l with
  | [] => None
  | x :: l' => Some (max_from x l')
  end.

End Str.
Export Str.

(** ** Dates and times: [datetime], [timedelta], [re.search], [strptime] *)

Module Dates.

(** A naive [datetime]. *)
Record datetime : Type := mk_datetime {
  year : Z; month : Z; day : Z;
  hour : Z; minute : Z; second : Z; microsecond : Z
}.

Definition is_leap (y : Z) : bool :=
  (y mod 4 =? 0) && (negb (y mod 100 =? 0) || (y mod 400 =? 0)).

Definition days_in_month (y m : Z) : Z :=
  if (m =? 2) && is_leap y then 29
  else nth (Z.to_nat m) [0; 31; 28; 31; 30; 31; 30; 31; 31; 30; 31; 30; 31] 0.

Definition days_before_month (y m : Z) : Z :=
  nth (Z.to_nat m) [0; 0; 31; 59; 90; 120; 151; 181; 212; 243; 273; 304; 334] 0
  + (if (2 <? m) && is_leap y then 1 else 0).

Definition days_before_year (y : Z) : Z :=
  (y - 1) * 365 + (y - 1) / 4 - (y - 1) / 100 + (y - 1) / 400.

(** Proleptic Gregorian ordinal: 0001-01-01 is day 1. *)
Definition ymd2ord (y m d : Z) : Z :=
  days_before_year y + days_before_month y m + d.

(** The instant of a [datetime], in microseconds; differences and
    comparisons of [datetime] values are those of their instants. *)
Definition micros (t : datetime) : Z :=
  (((ymd2ord (year t) (month t) (day t) * 24 + hour t) * 60 + minute t) * 60
   + second t) * 1000000 + microsecond t.

(** [datetime(y, m, d, H, M)]: [None] stands for its [ValueError]. *)
Definition make_datetime (y m d H M : Z) : option datetime :=
  if (1 <=? y) && (y <=? 9999) && (1 <=? m) && (m <=? 12)
     && (1 <=? d) && (d <=? days_in_month y m)
     && (0 <=? H) && (H <=? 23) && (0 <=? M) && (M <=? 59)
  then Some (mk_datetime y m d H M 0 0)
  else None.

(** [timedelta(minutes=n)] in microseconds; [None] stands for the
    [OverflowError] raised when the day count leaves +-999999999. *)
Definition timedelta_minutes (n : Z) : option Z :=
  if (-999999999 <=? n / 1440) && (n / 1440 <=? 999999999)
  then Some (n * 60 * 1000000)
  else None.

(** One pattern position: [\d], [\s] or a literal character. *)
Inductive cclass : Type :=
| Digit
| Space
| Lit (c : N).

Definition cmatch (k : cclass) (c : N) : bool :=
  match k with
  | Digit => is_decimal c
  | Space => is_space c
  | Lit l => (c =? l)%N
  end.

(** Match of a pattern at the start of [s]; the matched text on success. *)
Fixpoint match_here (p : list cclass) (s : str) : option str :=
  match p, s with
  | [], _ => Some []
  | _ :: _, [] => None
  | k :: p', c :: s' =>
      if cmatch k c then
        match match_here p' s' with
        | Some m => Some (c :: m)
        | None => None
        end
      else None
  end.

(** [re.search(p, s)] for a pattern that is a sequence of single-character
    positions: [match.group()] of the leftmost match. *)
Fixpoint re_search (p : list cclass) (s : str) : option str :=
  match match_here p s with
  | Some m => Some m
  | None =>
      match s with
      | [] => None
      | _ :: s' => re_search p s'
      end
  end.

(** [(\d{2})\.(\d{2})\.(\d{4})\s(\d{2}):(\d{2})] *)
Definition pattern_dmY : list cclass :=
  [Digit; Digit; Lit 46; Digit; Digit; Lit 46; Digit; Digit; Digit; Digit;
   Space; Digit; Digit; Lit 58; Digit; Digit].

(** [(\d{4})-(\d{2})-(\d{2})T(\d{2}):(\d{2})] *)
Definition pattern_Ymd : list cclass :=
  [Digit; Digit; Digit; Digit; Lit 45; Digit; Digit; Lit 45; Digit; Digit;
   Lit 84; Digit; Digit; Lit 58; Digit; Digit].

(** The two formats given to [strptime]. *)
Inductive dt_format : Type :=
| Fmt_dmY   (* "%d.%m.%Y %H:%M" *)
| Fmt_Ymd.  (* "%Y-%m-%dT%H:%M" *)

Definition ascii_between (lo hi c : N) : bool := (lo <=? c)%N && (c <=? hi)%N.

Definition two (a : N) (b : Z) : Z := 10 * Z.of_N (a - 48) + b.

(** The directives of [strptime] on a two-character field that is followed
    by a separator.  [%d] is [3[0-1]|[1-2]\d|0[1-9]]: the leading character
    is an ASCII digit, the second one may be a digit of any script where
    the expression says [\d].  The one-character alternatives cannot
    apply to a field of two digits. *)
Definition directive_d (a b : N) : option Z :=
  if (a =? 51)%N && ascii_between 48 49 b then Some (two a (Z.of_N (b - 48)))
  else if ascii_between 49 50 a then
    match decimal_value b with Some v => Some (two a v) | None => None end
  else if (a =? 48)%N && ascii_between 49 57 b then Some (two a (Z.of_N (b - 48)))
  else None.

(** [%m] is [1[0-2]|0[1-9]]. *)
Definition directive_m (a b : N) : option Z :=
  if (a =? 49)%N && ascii_between 48 50 b then Some (two a (Z.of_N (b - 48)))
  else if (a =? 48)%N && ascii_between 49 57 b then Some (two a (Z.of_N (b - 48)))
  else None.

(** [%H] is [2[0-3]|[0-1]\d]. *)
Definition directive_H (a b : N) : option Z :=
  if (a =? 50)%N && ascii_between 48 51 b then Some (two a (Z.of_N (b - 48)))
  else if ascii_between 48 49 a then
    match decimal_value b with Some v => Some (two a v) | None => None end
  else None.

(** [%M] is [[0-5]\d]; a lone [\d] would leave the second digit
    unconverted. *)
Definition directive_M (a b : N) : option Z :=
  if ascii_between 48 53 a then
    match decimal_value b with Some v => Some (two a v) | None => None end
  else None.

(** [%Y] is [\d\d\d\d], read by [int]. *)
Definition directive_Y (a b c d : N) : option Z :=
  match decimal_value a, decimal_value b, decimal_value c, decimal_value d with
  | Some x, Some y, Some z, Some w => Some (1000 * x + 100 * y + 10 * z + w)
  | _, _, _, _ => None
  end.

Definition build (Y m d H M : option Z) : option datetime :=
  match Y, m, d, H, M with
  | Some Y, Some m, Some d, Some H, Some M => make_datetime Y m d H M
  | _, _, _, _, _ => None
  end.

(** [datetime.strptime(text, format)] on a text matched by the pattern
    that goes with the format (the only texts it is called on); [None]
    stands for [ValueError]. *)
Definition strptime (text : str) (f : dt_format) : option datetime :=
  match f, text with
  | Fmt_dmY, [d1; d2; p; m1; m2; q; y1; y2; y3; y4; w; h1; h2; r; n1; n2] =>
      if (p =? 46)%N && (q =? 46)%N && is_space w && (r =? 58)%N then
        build (directive_Y y1 y2 y3 y4) (directive_m m1 m2) (directive_d d1 d2)
              (directive_H h1 h2) (directive_M n1 n2)
      else None
  | Fmt_Ymd, [y1; y2; y3; y4; p; m1; m2; q; d1; d2; w; h1; h2; r; n1; n2] =>
      if (p =? 45)%N && (q =? 45)%N && (w =? 84)%N && (r =? 58)%N then
        build (directive_Y y1 y2 y3 y4) (directive_m m1 m2) (directive_d d1 d2)
              (directive_H h1 h2) (directive_M n1 n2)
      else None
  | _, _ => None
  end.

End Dates.
Export Dates.


(** ** The relational store *)

Module Store.

(** Rows of the tables the pipeline reads and writes.  Times of the store
    ([NOW()], [used_at], [expires_at]) are in seconds. *)
Record code_row : Type := mk_code {
  code : str; code_user_id : Z; session_id : str;
  duration_minutes : Z; expires_at : Z
}.

Record transaction_row : Type := mk_transaction {
  receipt_id : str; tx_user_id : Z; used_at : Z
}.

Record suspicious_row : Type := mk_suspicious {
  sr_user_id : Z; sr_username : str; file_name : str;
  receipt_count : Z; is_blocked : bool
}.

Record payment_row : Type := mk_payment {
  pay_user_id : Z; amount : Z; pay_tariff : str
}.

Record database : Type := mk_database {
  codes : list code_row;
  receipt_transactions : list transaction_row;
  suspicious_receipts : list suspicious_row;
  payments : list payment_row
}.

(** The SQL statements of the modelled functions, with their parameters. *)
Inductive statement : Type :=
| select_receipt (receipt : str)
    (* SELECT 1 FROM receipt_transactions WHERE receipt_id = %s *)
| upsert_suspicious (user_id : Z) (username file : str)
    (* INSERT INTO suspicious_receipts (user_id, username, file_name)
       VALUES (%s, %s, %s)
       ON DUPLICATE KEY UPDATE receipt_count = receipt_count + 1 *)
| select_receipt_count (user_id : Z) (file : str)
    (* SELECT receipt_count FROM suspicious_receipts
       WHERE user_id = %s AND file_name = %s *)
| upsert_transaction (receipt : str) (user_id : Z)
    (* INSERT INTO receipt_transactions (receipt_id, user_id)
       VALUES (%s, %s) ON DUPLICATE KEY UPDATE used_at = NOW() *)
| select_blocked (user_id : Z)
    (* SELECT 1 FROM suspicious_receipts
       WHERE user_id = %s AND is_blocked = TRUE LIMIT 1 *)
| select_codes (user_id : Z)
    (* SELECT 1 FROM codes WHERE user_id = %s LIMIT 1 *)
| select_recent_receipt (user_id : Z)
    (* SELECT 1 FROM receipt_transactions WHERE user_id = %s
       AND used_at > DATE_SUB(NOW(), INTERVAL 1 HOUR) *)
| select_sessions (user_id : Z)
    (* SELECT code, CASE WHEN expires_at > NOW() THEN 'active'
       ELSE 'expired' END as status, expires_at, duration_minutes
       FROM codes WHERE user_id = %s ORDER BY expires_at DESC *)
| insert_code (c : str) (user_id : Z) (session : str) (duration interval : Z)
    (* INSERT INTO codes (code, user_id, session_id, duration_minutes,
       expires_at)
       VALUES (%s, %s, %s, %s, DATE_ADD(NOW(), INTERVAL %s MINUTE)) *)
| insert_payment (user_id : Z) (amt : Z) (tariff : str).
    (* INSERT INTO payments (user_id, amount, tariff) VALUES (%s, %s, %s) *)

(** A fetched row is a dictionary from column names to values. *)
Inductive value : Type :=
| VInt (z : Z)
| VStr (s : str).

Definition row : Type := list (string * value).

Fixpoint row_get (column : string) (r : row) : option value :=
  match r with
  | [] => None
  | (k, v) :: r' => if String.eqb k column then Some v else row_get column r'
  end.

Definition one : row := [("1"%string, VInt 1)].

(** The key of a record of [suspicious_receipts]. *)
Definition same_suspicious_key (user_id : Z) (file : str) (r : suspicious_row) : bool :=
  (sr_user_id r =? user_id) && str_eqb (file_name r) file.

(** Modelled from the spec: the declaration of [suspicious_receipts] is not
    in the source; a record is created with count 1 and with its block
    flag unset (the columns the INSERT does not name). *)
Definition new_suspicious (user_id : Z) (username file : str) : suspicious_row :=
  mk_suspicious user_id username file 1 false.

(** [receipt_count = receipt_count + 1] *)
Definition bump_count (r : suspicious_row) : suspicious_row :=
  mk_suspicious (sr_user_id r) (sr_username r) (file_name r)
                (receipt_count r + 1) (is_blocked r).

(** Modelled from the spec: the declaration of [suspicious_receipts] is not
    in the source; the table is unique on (user id, filename), which is the
    key on which the INSERT turns into the UPDATE. *)
Definition run_upsert_suspicious (user_id : Z) (username file : str)
    (t : list suspicious_row) : list suspicious_row :=
  if existsb (same_suspicious_key user_id file) t
  then map (fun r => if same_suspicious_key user_id file r then bump_count r else r) t
  else t ++ [new_suspicious user_id username file].

(** The key of a record of [receipt_transactions]. *)
Definition same_receipt (receipt : str) (r : transaction_row) : bool :=
  str_eqb (receipt_id r) receipt.

(** [used_at = NOW()] *)
Definition touch (now : Z) (r : transaction_row) : transaction_row :=
  mk_transaction (receipt_id r) (tx_user_id r) now.

(** Modelled from the spec: the declaration of [receipt_transactions] is
    not in the source; the table is unique on the transaction id, and a new
    record takes the time of its insertion as consumption timestamp. *)
Definition run_upsert_transaction (now : Z) (receipt : str) (user_id : Z)
    (t : list transaction_row) : list transaction_row :=
  if existsb (same_receipt receipt) t
  then map (fun r => if same_receipt receipt r then touch now r else r) t
  else t ++ [mk_transaction receipt user_id now].

(** [ORDER BY expires_at DESC], by insertion. *)
Fixpoint insert_desc (c : code_row) (l : list code_row) : list code_row :=
  match l with
  | [] => [c]
  | x :: l' =>
      if expires_at x <? expires_at c then c :: x :: l'
      else x :: insert_desc c l'
  end.

Definition order_by_expires_desc (l : list code_row) : list code_row :=
  fold_right insert_desc [] l.

Definition status_of (now : Z) (c : code_row) : str :=
  if now <? expires_at c then py "active" else py "expired".

Definition session_row (now : Z) (c : code_row) : row :=
  [("code"%string, VStr (code c));
   ("status"%string, VStr (status_of now c));
   ("expires_at"%string, VInt (expires_at c));
   ("duration_minutes"%string, VInt (duration_minutes c))].

(** The effect of one statement at store time [now]: the new tables and
    the rows left in the cursor.  Text columns compare by exact equality. *)
Definition run (now : Z) (q : statement) (d : database) : database * list row :=
  match q with
  | select_receipt receipt =>
      (d, map (fun _ => one)
              (List.filter (same_receipt receipt) (receipt_transactions d)))
  | upsert_suspicious user_id username file =>
      (mk_database (codes d) (receipt_transactions d)
                   (run_upsert_suspicious user_id username file (suspicious_receipts d))
                   (payments d),
       [])
  | select_receipt_count user_id file =>
      (d, map (fun r => [("receipt_count"%string, VInt (receipt_count r))])
              (List.filter (same_suspicious_key user_id file) (suspicious_receipts d)))
  | upsert_transaction receipt user_id =>
      (mk_database (codes d)
                   (run_upsert_transaction now receipt user_id (receipt_transactions d))
                   (suspicious_receipts d) (payments d),
       [])
  | select_blocked user_id =>
      (d, firstn 1 (map (fun _ => one)
              (List.filter (fun r => (sr_user_id r =? user_id) && is_blocked r)
                      (suspicious_receipts d))))
  | select_codes user_id =>
      (d, firstn 1 (map (fun _ => one)
              (List.filter (fun c => code_user_id c =? user_id) (codes d))))
  | select_recent_receipt user_id =>
      (d, map (fun _ => one)
              (List.filter (fun r => (tx_user_id r =? user_id) && (now - 3600 <? used_at r))
                      (receipt_transactions d)))
  | select_sessions user_id =>
      (d, map (session_row now)
              (order_by_expires_desc
                 (List.filter (fun c => code_user_id c =? user_id) (codes d))))
  | insert_code c user_id session duration interval =>
      (mk_database (codes d ++ [mk_code c user_id session duration (now + interval * 60)])
                   (receipt_transactions d) (suspicious_receipts d) (payments d),
       [])
  | insert_payment user_id amt tariff =>
      (mk_database (codes d) (receipt_transactions d) (suspicious_receipts d)
                   (payments d ++ [mk_payment user_id amt tariff]),
       [])
  end.

End Store.
Export Store.

(** ** Handlers: state, exceptions and the calls they make *)

Module Run.

(** The reason returned by [validate_receipt] (its message text). *)
Inductive reason : Type :=
| AmountMismatch (price : Z)        (* "❌ Сумма в чеке не соответствует тарифу ({price}₸)" *)
| RecipientMismatch                 (* "❌ Получатель в чеке не соответствует указанному" *)
| TimeUnparsable                    (* "❌ Не удалось определить время в чеке" *)
| TimeTooOld (minutes : Z)          (* "❌ Чек слишком старый (более {minutes} минут)" *)
| TransactionIdMissingInFilename    (* "❌ Не удалось найти номер транзакции в чеке" *)
| TransactionIdNotInText            (* "❌ Номер транзакции из имени файла не найден в чеке" *)
| TransactionAlreadyUsed            (* "❌ Этот чек уже был использован" *)
| Accepted.                         (* "✅ Чек успешно прошел проверку" *)

(** One line of the sessions listing. *)
Record session_line : Type := mk_line {
  line_active : bool; line_minutes : Z; line_until : Z; line_code : option str
}.

(** What a handler sends back (the message it builds). *)
Inductive reply : Type :=
| AccessBlocked                     (* "⛔ Ваш доступ к боту заблокирован" *)
| ChooseTariffFirst                 (* "❌ Сначала выберите тариф через меню" *)
| SendPdf                           (* "❌ Отправьте чек в формате PDF" *)
| FileTooLarge (megabytes : Z)      (* "❌ Файл слишком большой. Максимум: {..}MB" *)
| Processing                        (* "⏳ Обрабатываю чек..." *)
| ReceiptAccepted                   (* "✅ Чек принят! Нажмите /checkpayment для кода" *)
| BlockedForSuspicious              (* "⛔ Вы заблокированы за подозрительные чеки" *)
| ValidationFailed (why : reason) (price : Z)
| ProcessingError                   (* "⚠️ Ошибка обработки чека. Попробуйте снова" *)
| FreeCode (c tariff : str) (minutes : Z)
| PaymentDetails (tariff : str) (price : Z)
| ReceiptNotFound                   (* "❌ Чек не найден или просрочен. Отправьте PDF-чек." *)
| AccessCode (c tariff : str) (minutes : Z)
| NoSessions                        (* "У вас ещё нет сессий." *)
| Sessions (lines : list session_line)
| TariffKeyboard (callbacks : list str).

(** Exceptions the modelled code can raise. *)
Inductive exn : Type :=
| KeyError
| TypeError
| ValueError
| OverflowError.

(** The calls a handler makes, in order. *)
Inductive action : Type :=
| Query (q : statement)             (* execute_db entered with this statement *)
| LogError                          (* logger.error *)
| Answer (r : reply)                (* message.answer *)
| EditText (r : reply)              (* callback.message.edit_text *)
| CallbackAnswer                    (* callback.answer *)
| GetFile                           (* bot.get_file *)
| DownloadFile                      (* bot.download_file *)
| ExtractText                       (* extract_text_from_pdf *)
| ValidateReceipt                   (* validate_receipt entered *)
| DeleteMessage                     (* bot.delete_message *)
| NotifyWebsite (user_id : Z) (session : str).

(** The mutable world of the process: the store, the tariff selection
    cache [user_tariffs], the outcomes of the coming store calls ([true]:
    the call raises; none left: the calls succeed) and the trace. *)
Record state : Type := mk_state {
  db : database;
  user_tariffs : gmap Z str;
  faults : list bool;
  trace : list action
}.

Inductive outcome (A : Type) : Type :=
| Return (a : A)
| Raise (e : exn).
Arguments Return {A} a.
Arguments Raise {A} e.

Definition M (A : Type) : Type := state -> outcome A * state.

Definition ret {A} (a : A) : M A := fun s => (Return a, s).

Definition raise {A} (e : exn) : M A := fun s => (Raise e, s).

Definition bind {A B} (m : M A) (k : A -> M B) : M B :=
  fun s =>
    match m s with
    | (Return a, s') => k a s'
    | (Raise e, s') => (Raise e, s')
    end.

(** [try: m except Exception: h] *)
Definition try_except {A} (m : M A) (h : M A) : M A :=
  fun s =>
    match m s with
    | (Return a, s') => (Return a, s')
    | (Raise _, s') => h s'
    end.

Definition emit (a : action) : M unit :=
  fun s => (Return tt, mk_state (db s) (user_tariffs s) (faults s) (trace s ++ [a])).

Definition get_db : M database := fun s => (Return (db s), s).

Definition put_db (d : database) : M unit :=
  fun s => (Return tt, mk_state d (user_tariffs s) (faults s) (trace s)).

Definition get_tariffs : M (gmap Z str) := fun s => (Return (user_tariffs s), s).

Definition put_tariffs (t : gmap Z str) : M unit :=
  fun s => (Return tt, mk_state (db s) t (faults s) (trace s)).

(** Whether the store call that starts now raises. *)
Definition next_fault : M bool :=
  fun s =>
    match faults s with
    | [] => (Return false, s)
    | b :: rest => (Return b, mk_state (db s) (user_tariffs s) rest (trace s))
    end.

(** [d[k]] of a dictionary literal. *)
Fixpoint dict_get {V} (k : str) (d : list (str * V)) : option V :=
  match d with
  | [] => None
  | (k', v) :: d' => if str_eqb k' k then Some v else dict_get k d'
  end.

Definition lookup_or_KeyError {V} (o : option V) : M V :=
  match o with
  | Some v => ret v
  | None => raise KeyError
  end.

End Run.
Export Run.

Declare Scope run_scope.
Delimit Scope run_scope with run.
Notation "x <- m ;; k" := (bind m (fun x => k))
(at level 100, m at next level, right associativity) : run_scope.
Notation "m ;; k" := (bind m (fun _ => k))
(at level 100, right associativity) : run_scope.

(** ** The bot *)

Module Bot.

Local Open Scope run_scope.

(** Options read from the environment (taken to be set). *)
Record config : Type := mk_config {
  SUSPICIOUS_RECEIPT_LIMIT : Z;
  MAX_PDF_SIZE : Z;
  RECEIPT_MAX_AGE_MINUTES : Z;
  recipient_name : str
}.

(** [PAYMENT_DETAILS["tariff_prices"]] *)
Definition tariff_prices : list (str * Z) :=
  [(py "2 минуты", 0); (py "1 час", 490); (py "2 часа", 790)].

(** [TARIFFS] *)
Definition TARIFFS : list (str * Z) :=
  [(py "2 минуты", 2); (py "1 час", 60); (py "2 часа", 120)].

(** What one run of a handler observes of its surroundings: the store's
    [NOW()], [datetime.now()], the text extracted from the uploaded
    document and the values of the two [secrets.token_hex] draws. *)
Record env : Type := mk_env {
  db_now : Z;
  py_now : datetime;
  pdf_text : str;
  token_hex_8 : str;
  token_hex_4 : str
}.

(** The result of [execute_db]. *)
Inductive db_result : Type :=
| PyNone
| PyTrue
| PyRow (r : row)
| PyRows (rs : list row).

(** Truth value of a result in [if result] / [if not result]. *)
Definition truthy (r : db_result) : bool :=
  match r with
  | PyNone => false
  | PyTrue => true
  | PyRow r => negb (Nat.eqb (length r) 0)
  | PyRows rs => negb (Nat.eqb (length rs) 0)
  end.

Definition is_None (r : db_result) : bool :=
  match r with PyNone => true | _ => false end.

(** What [execute_db] returns once the statement has run. *)
Definition fetched (fetch_one fetch_all commit : bool) (rows : list row) : db_result :=
  if fetch_one then
    match rows with
    | [] => PyNone           (* cur.fetchone() with no row left *)
    | r :: _ => PyRow r
    end
  else if fetch_all then PyRows rows
  else if commit then PyTrue
  else PyTrue.

(** [execute_db(query, params, fetch_one, fetch_all, commit)]: an
    exception of the store is logged and turned into [None]. *)
Definition execute_db (e : env) (q : statement)
    (fetch_one fetch_all commit : bool) : M db_result :=
  emit (Query q) ;;
  failed <- next_fault ;;
  if failed then
    emit LogError ;;
    ret PyNone
  else
    d <- get_db ;;
    let (d', rows) := run (db_now e) q d in
    put_db d' ;;
    ret (fetched fetch_one fetch_all commit rows).

(** The amount renderings looked for in the text. *)
Definition amount_patterns (price_str : str) : list str :=
  [price_str ++ py ",00"; price_str ++ py ".00";
   price_str ++ py " KZT"; price_str ++ py "₸";
   price_str ++ py " тг"; price_str ++ py " тенге"].

(** The loop over the two (pattern, format) pairs: a pattern with no match,
    or whose leftmost match [strptime] refuses, is passed over. *)
Fixpoint find_receipt_time (pairs : list (list cclass * dt_format)) (text : str)
    : option datetime :=
  match pairs with
  | [] => None
  | (pattern, dt_fmt) :: rest =>
      match re_search pattern text with
      | Some m =>
          match strptime m dt_fmt with
          | Some t => Some t
          | None => find_receipt_time rest text
          end
      | None => find_receipt_time rest text
      end
  end.

Definition time_patterns : list (list cclass * dt_format) :=
  [(pattern_dmY, Fmt_dmY); (pattern_Ymd, Fmt_Ymd)].

(** [price > 0 and not any(pattern in text for pattern in [...])] *)
Definition amount_mismatch (price : Z) (text : str) : bool :=
  (0 <? price) && negb (existsb (fun pattern => str_in pattern text)
                                (amount_patterns (str_of_int price))).

(** [PAYMENT_DETAILS["recipient_name"] not in text] *)
Definition recipient_mismatch (cfg : config) (text : str) : bool :=
  negb (str_in (recipient_name cfg) text).

(** [max(re.findall(r'\d+', filename), key=len)], [None] when the file
    name has no digit. *)
Definition transaction_id_of (filename : str) : option str :=
  max_key_len (findall_digits filename).

Definition validate_receipt (cfg : config) (e : env)
    (filename text tariff : str) : M (bool * reason) :=
  emit ValidateReceipt ;;
  (* 1. amount *)
  price <- lookup_or_KeyError (dict_get tariff tariff_prices) ;;
  if amount_mismatch price text
  then ret (false, AmountMismatch price)
  (* 2. recipient *)
  else if recipient_mismatch cfg text
  then ret (false, RecipientMismatch)
  else
    (* 3. time *)
    match find_receipt_time time_patterns text with
    | None => ret (false, TimeUnparsable)
    | Some receipt_time =>
        match timedelta_minutes (RECEIPT_MAX_AGE_MINUTES cfg) with
        | None => raise OverflowError
        | Some max_age =>
            if max_age <? micros (py_now e) - micros receipt_time
            then ret (false, TimeTooOld (RECEIPT_MAX_AGE_MINUTES cfg))
            else
              (* 4. transaction number *)
              match transaction_id_of filename with
              | None => ret (false, TransactionIdMissingInFilename)
              | Some transaction_id =>
                  if negb (str_in transaction_id text)
                  then ret (false, TransactionIdNotInText)
                  else
                    used <- execute_db e (select_receipt transaction_id) true false false ;;
                    if truthy used then ret (false, TransactionAlreadyUsed)
                    else ret (true, Accepted)
              end
        end
    end.

Definition log_suspicious_receipt (e : env) (user_id : Z)
    (username file : str) : M Z :=
  execute_db e (upsert_suspicious user_id username file) false false true ;;
  result <- execute_db e (select_receipt_count user_id file) true false false ;;
  if truthy result then
    match result with
    | PyRow r =>
        match row_get "receipt_count" r with
        | Some (VInt n) => ret n
        | Some (VStr _) => raise TypeError
        | None => raise KeyError
        end
    | _ => raise TypeError
    end
  else ret 1.

Definition log_transaction (e : env) (transaction_id : str) (user_id : Z) : M unit :=
  execute_db e (upsert_transaction transaction_id user_id) false false true ;;
  ret tt.

Definition is_user_blocked (e : env) (user_id : Z) : M bool :=
  result <- execute_db e (select_blocked user_id) true false false ;;
  ret (negb (is_None result)).

Definition is_new_user (e : env) (user_id : Z) : M bool :=
  result <- execute_db e (select_codes user_id) true false false ;;
  ret (is_None result).

Definition log_payment (e : env) (user_id amt : Z) (tariff : str) : M unit :=
  execute_db e (insert_payment user_id amt tariff) false false true ;;
  ret tt.

Definition generate_code (e : env) (user_id : Z) (tariff : str) : M (str * str) :=
  let session := token_hex_8 e in
  let c := token_hex_4 e in
  duration <- lookup_or_KeyError (dict_get tariff TARIFFS) ;;
  execute_db e (insert_code c user_id session duration duration) false false true ;;
  ret (c, session).

Definition get_tariff_keyboard (e : env) (user_id : Z) : M (list str) :=
  new <- is_new_user e user_id ;;
  ret ((if new then [py "tariff_2 минуты"] else [])
       ++ [py "tariff_1 час"; py "tariff_2 часа"]).

(** Handler of the "choose a tariff" button. *)
Definition show_tariffs (e : env) (user_id : Z) : M unit :=
  keyboard <- get_tariff_keyboard e user_id ;;
  emit (Answer (TariffKeyboard keyboard)).

(** [s.replace(old, "")]: [skip] characters of an occurrence of [old] are
    still to be dropped. *)
Fixpoint remove_all (old : str) (skip : nat) (s : str) : str :=
  match s with
  | [] => []
  | c :: s' =>
      match skip with
      | S n => remove_all old n s'
      | O =>
          match old with
          | [] => c :: remove_all old 0 s'
          | _ :: old' =>
              if startswith old s then remove_all old (length old') s'
              else c :: remove_all old 0 s'
          end
      end
  end.

(** Handler of a callback whose data starts with "tariff_". *)
Definition process_tariff (e : env) (user_id : Z) (data : str) : M unit :=
  emit CallbackAnswer ;;
  let tariff := remove_all (py "tariff_") 0 data in
  t <- get_tariffs ;;
  put_tariffs (<[user_id := tariff]> t) ;;
  if str_eqb tariff (py "2 минуты") then
    p <- generate_code e user_id tariff ;;
    minutes <- lookup_or_KeyError (dict_get tariff TARIFFS) ;;
    emit (EditText (FreeCode (fst p) tariff minutes)) ;;
    emit (NotifyWebsite user_id (snd p))
  else
    price <- lookup_or_KeyError (dict_get tariff tariff_prices) ;;
    emit (EditText (PaymentDetails tariff price)).

(** An uploaded document and its sender (the optional fields of the
    transport are taken to be present, the user name apart). *)
Record message : Type := mk_message {
  from_user_id : Z;
  from_username : option str;
  doc_file_name : str;
  doc_mime_type : str;
  doc_file_size : Z
}.

(** [message.from_user.username or "нет_username"] *)
Definition username_of (m : message) : str :=
  match from_username m with
  | Some (c :: u) => c :: u
  | _ => py "нет_username"
  end.

(** The steps of the upload handler once the document has passed the
    format and size checks: download, text extraction, validation, then
    the ledger commit or the failure record. *)
Definition check_receipt (cfg : config) (e : env) (m : message) (tariff : str) : M unit :=
  let user_id := from_user_id m in
  let username := username_of m in
  emit (Answer Processing) ;;
  emit GetFile ;;
  emit DownloadFile ;;
  emit ExtractText ;;
  let text := pdf_text e in
  v <- validate_receipt cfg e (doc_file_name m) text tariff ;;
  (if fst v then
     match transaction_id_of (doc_file_name m) with
     | None => raise ValueError
     | Some transaction_id =>
         log_transaction e transaction_id user_id ;;
         emit (Answer ReceiptAccepted)
     end
   else
     count <- log_suspicious_receipt e user_id username (doc_file_name m) ;;
     if SUSPICIOUS_RECEIPT_LIMIT cfg <=? count
     then emit (Answer BlockedForSuspicious)
     else
       price <- lookup_or_KeyError (dict_get tariff tariff_prices) ;;
       emit (Answer (ValidationFailed (snd v) price))) ;;
  emit DeleteMessage.

(** Handler of a document upload. *)
Definition handle_payment_proof (cfg : config) (e : env) (m : message) : M unit :=
  let user_id := from_user_id m in
  blocked <- is_user_blocked e user_id ;;
  if blocked then emit (Answer AccessBlocked)
  else
    t <- get_tariffs ;;
    match t !! user_id with
    | None => emit (Answer ChooseTariffFirst)
    | Some tariff =>
        try_except
          (if negb (str_eqb (doc_mime_type m) (py "application/pdf"))
           then emit (Answer SendPdf)
           else if MAX_PDF_SIZE cfg <? doc_file_size m
           then emit (Answer (FileTooLarge (MAX_PDF_SIZE cfg / 1024 / 1024)))
           else check_receipt cfg e m tariff)
          (emit LogError ;;
           emit (Answer ProcessingError))
    end.

(** Handler of [/checkpayment]. *)
Definition cmd_check_payment (e : env) (user_id : Z) : M unit :=
  t <- get_tariffs ;;
  match t !! user_id with
  | None => emit (Answer ChooseTariffFirst)
  | Some tariff =>
      if str_eqb tariff (py "2 минуты") then
        p <- generate_code e user_id tariff ;;
        minutes <- lookup_or_KeyError (dict_get tariff TARIFFS) ;;
        emit (Answer (AccessCode (fst p) tariff minutes))
      else
        has_valid_receipt <- execute_db e (select_recent_receipt user_id) true false false ;;
        if negb (truthy has_valid_receipt) then emit (Answer ReceiptNotFound)
        else
          p <- generate_code e user_id tariff ;;
          amt <- lookup_or_KeyError (dict_get tariff tariff_prices) ;;
          (if 0 <? amt then log_payment e user_id amt tariff else ret tt) ;;
          minutes <- lookup_or_KeyError (dict_get tariff TARIFFS) ;;
          emit (Answer (AccessCode (fst p) tariff minutes)) ;;
          t' <- get_tariffs ;;
          put_tariffs (delete user_id t') ;;
          emit (NotifyWebsite user_id (snd p))
  end.

(** One fetched session as a listing line; the code is shown for an
    active session only. *)
Definition line_of (r : row) : M session_line :=
  match row_get "status" r, row_get "duration_minutes" r,
        row_get "expires_at" r, row_get "code" r with
  | Some (VStr status), Some (VInt minutes), Some (VInt until), Some (VStr c) =>
      let active := str_eqb status (py "active") in
      ret (mk_line active minutes until (if active then Some c else None))
  | None, _, _, _ | _, None, _, _ | _, _, None, _ | _, _, _, None => raise KeyError
  | _, _, _, _ => raise TypeError
  end.

Fixpoint lines_of (rs : list row) : M (list session_line) :=
  match rs with
  | [] => ret []
  | r :: rs' =>
      l <- line_of r ;;
      ls <- lines_of rs' ;;
      ret (l :: ls)
  end.

(** Handler of the "my sessions" button. *)
Definition handle_my_sessions (e : env) (user_id : Z) : M unit :=
  sessions <- execute_db e (select_sessions user_id) false true false ;;
  if negb (truthy sessions) then emit (Answer NoSessions)
  else
    match sessions with
    | PyRows rs =>
        ls <- lines_of rs ;;
        emit (Answer (Sessions ls))
    | _ => raise TypeError
    end.

End Bot.
Export Bot.

(** ** Notions the properties are stated with *)

Module Props.

(** [hay] contains [needle] as a contiguous piece. *)
Definition substring (needle hay : str) : Prop :=
  exists before after, hay = before ++ needle ++ after.

Definition not_decimal (c : N) : Prop := is_decimal c = false.

Definition decimal (c : N) : Prop := is_decimal c = true.

(** [s] is empty or starts with a character that is not a digit. *)
Definition run_ends_at (s : str) : Prop :=
  match s with
  | [] => True
  | c :: _ => not_decimal c
  end.

(** [runs] lists, in scan order, the maximal runs of decimal digits of a
    string: the string is a digit-free gap, then the first run, which is
    not empty and cannot be extended to the right, then a rest that
    holds the other runs. *)
Inductive maximal_runs : str -> list str -> Prop :=
| runs_none (gap : str) :
    Forall not_decimal gap -> maximal_runs gap []
| runs_next (gap r rest : str) (runs : list str) :
    Forall not_decimal gap ->
    r <> [] -> Forall decimal r ->
    run_ends_at rest ->
    maximal_runs rest runs ->
    maximal_runs (gap ++ r ++ rest) (r :: runs).

(** [x] is the first of the longest items of [l]. *)
Definition first_longest (x : str) (l : list str) : Prop :=
  exists before after,
    l = before ++ x :: after
    /\ Forall (fun y => (length y < length x)%nat) before
    /\ Forall (fun y => (length y <= length x)%nat) after.

(** The amount and recipient rules let the receipt through. *)
Definition passes_amount_and_recipient (cfg : config) (text tariff : str) : Prop :=
  exists price,
    dict_get tariff tariff_prices = Some price
    /\ amount_mismatch price text = false
    /\ recipient_mismatch cfg text = false.

(** The amount, recipient and time rules let the receipt through. *)
Definition passes_first_three (cfg : config) (e : env) (text tariff : str) : Prop :=
  passes_amount_and_recipient cfg text tariff
  /\ exists receipt_time max_age,
       find_receipt_time time_patterns text = Some receipt_time
       /\ timedelta_minutes (RECEIPT_MAX_AGE_MINUTES cfg) = Some max_age
       /\ micros (py_now e) - micros receipt_time <= max_age.

(** [s] after the calls [acts]. *)
Definition with_trace (s : state) (acts : list action) : state :=
  mk_state (db s) (user_tariffs s) (faults s) (trace s ++ acts).

(** The last step of [validate_receipt]: the ledger lookup for the
    transaction id, from the state [s1]. *)
Definition ledger_check (e : env) (transaction_id : str) (s1 : state)
    : outcome (bool * reason) * state :=
  let r := execute_db e (select_receipt transaction_id) true false false s1 in
  match fst r with
  | Return used =>
      (Return (if truthy used then (false, TransactionAlreadyUsed) else (true, Accepted)),
       snd r)
  | Raise x => (Raise x, snd r)
  end.

(** Some record of the user carries the block flag. *)
Definition blocked_in (d : database) (user_id : Z) : bool :=
  existsb (fun r => (sr_user_id r =? user_id) && is_blocked r) (suspicious_receipts d).

(** The failure count recorded for (user, file): that of the first record
    with this key, 0 when there is none. *)
Definition count_of (d : database) (user_id : Z) (file : str) : Z :=
  match List.filter (same_suspicious_key user_id file) (suspicious_receipts d) with
  | [] => 0
  | r :: _ => receipt_count r
  end.

(** The ledger holds a record for the transaction id. *)
Definition in_ledger (d : database) (transaction_id : str) : bool :=
  existsb (same_receipt transaction_id) (receipt_transactions d).

(** The user has a row in [codes]. *)
Definition has_codes (d : database) (user_id : Z) : bool :=
  existsb (fun c => code_user_id c =? user_id) (codes d).

(** The upload is a PDF within the size limit. *)
Definition well_formed_upload (cfg : config) (m : message) : Prop :=
  doc_mime_type m = py "application/pdf" /\ doc_file_size m <= MAX_PDF_SIZE cfg.

(** Validation refuses the receipt whenever the ledger is [ledger] and the
    store answers. *)
Definition refused_on (cfg : config) (e : env) (file tariff : str)
    (ledger : list transaction_row) : Prop :=
  forall s, faults s = [] -> receipt_transactions (db s) = ledger ->
    exists why,
      fst (validate_receipt cfg e file (pdf_text e) tariff s) = Return (false, why).

(** The listing line of a [codes] row at store time [now]. *)
Definition session_line_of (now : Z) (c : code_row) : session_line :=
  mk_line (now <? expires_at c) (duration_minutes c) (expires_at c)
          (if now <? expires_at c then Some (code c) else None).

(** The row that [generate_code] writes for a tariff of [minutes] minutes. *)
Definition issued_row (e : env) (user_id minutes : Z) : code_row :=
  mk_code (token_hex_4 e) user_id (token_hex_8 e) minutes (db_now e + minutes * 60).

(** The verdict of a run of [validate_receipt]. *)
Definition verdict (r : outcome (bool * reason) * state) : outcome (bool * reason) :=
  fst r.

End Props.
Export Props.

(** ** Sample inputs *)

Module Samples.

Definition sample_cfg : config :=
  mk_config 3 (3 * 1024 * 1024) 25 (py "IVANOV I.").

(** 2024-03-05 10:20:30 *)
Definition sample_now : datetime := mk_datetime 2024 3 5 10 20 30 0.

Definition sample_env (text : str) : env :=
  mk_env 1709634030 sample_now text (py "00112233aabbccdd") (py "a1b2c3d4").

Definition empty_db : database := mk_database [] [] [] [].

Definition fresh : state := mk_state empty_db ∅ [] [].

(** A state in which [user_id] has chosen [tariff]. *)
Definition chosen (user_id : Z) (tariff : str) : state :=
  mk_state empty_db {[ user_id := tariff ]} [] [].

Definition good_file : str := py "receipt_12_98765.pdf".

Definition good_text : str :=
  py "Перевод 490 KZT. Получатель: IVANOV I. Дата 05.03.2024 10:10. Квитанция 98765".

Definition wrong_recipient_text : str :=
  py "Перевод 490 KZT. Получатель: PETROV P. Дата 05.03.2024 10:10. Квитанция 98765".

(** The first pattern matches a text that is not a date. *)
Definition not_a_date_text : str :=
  py "490 KZT IVANOV I. 99.99.9999 99:99 98765".

(** As above, with a well-formed time in the second notation. *)
Definition two_notations_text : str :=
  py "490 KZT IVANOV I. 99.99.9999 99:99 2024-03-05T10:10 98765".

(** Users 7 and 8 have both chosen the one-hour tariff. *)
Definition two_users : state :=
  mk_state empty_db {[ 7 := py "1 час"; 8 := py "1 час" ]} [] [].

(** User 7 already holds a code and has the free tariff selected. *)
Definition returning_user : state :=
  mk_state
    (mk_database [mk_code (py "deadbeef") 7 (py "0011223344556677") 2 1709000000]
                 [] [] [])
    {[ 7 := py "2 минуты" ]} [] [].

(** User 7 carries the block flag, and the next store call raises. *)
Definition blocked_during_outage : state :=
  mk_state
    (mk_database [] [] [mk_suspicious 7 (py "user") (py "a.pdf") 3 true] [])
    ∅ [true] [].

Definition upload (user_id : Z) (file : str) : message :=
  mk_message user_id (Some (py "user")) file (py "application/pdf") 1000.

End Samples.
Export Samples.

(** ** Text extraction, event routing and what handlers keep *)

Module Pipeline.

(** What [page.extract_text()] gives for one page: a text, [None], or an
    exception. *)
Inductive page : Type :=
| PageText (t : str)
| PageNone
| PageError.

(** The texts appended to [text_parts]: those of the pages whose text is
    truthy (neither [None] nor empty). *)
Fixpoint text_parts (pages : list page) : list str :=
  match pages with
  | [] => []
  | PageText (c :: t) :: rest => (c :: t) :: text_parts rest
  | _ :: rest => text_parts rest
  end.

Definition page_raises (p : page) : bool :=
  match p with PageError => true | _ => false end.

(** [sep.join(parts)] *)
Fixpoint join (sep : str) (parts : list str) : str :=
  match parts with
  | [] => []
  | p :: rest =>
      match rest with
      | [] => p
      | _ :: _ => p ++ sep ++ join sep rest
      end
  end.

(** [extract_text_from_pdf_sync]: the document is [None] when
    [pdfplumber.open] raises; any exception gives the empty text. *)
Definition extract_text_from_pdf_sync (document : option (list page)) : str :=
  match document with
  | None => []
  | Some pages =>
      if existsb page_raises pages then []
      else join [10%N] (text_parts pages)
  end.

(** [callback.data.replace('tariff_', '')], the tariff [process_tariff]
    stores for a callback. *)
Definition tariff_of_callback (data : str) : str :=
  remove_all (py "tariff_") 0 data.

(** The events routed to the modelled handlers, by the filter that
    selects the handler. *)
Inductive event : Type :=
| Document (m : message)                 (* F.document *)
| TariffCallback (user_id : Z) (data : str)
                                         (* F.data.startswith("tariff_") *)
| CheckPayment (user_id : Z)             (* Command("checkpayment") *)
| MySessions (user_id : Z)               (* F.text == "🕒 Мои сессии" *)
| ChooseTariff (user_id : Z).            (* F.text == "💎 Выбрать тариф" *)

Definition event_user (ev : event) : Z :=
  match ev with
  | Document m => from_user_id m
  | TariffCallback u _ => u
  | CheckPayment u => u
  | MySessions u => u
  | ChooseTariff u => u
  end.

(** The handler an event is routed to. *)
Definition dispatch (cfg : config) (e : env) (ev : event) : M unit :=
  match ev with
  | Document m => handle_payment_proof cfg e m
  | TariffCallback u data => process_tariff e u data
  | CheckPayment u => cmd_check_payment e u
  | MySessions u => handle_my_sessions e u
  | ChooseTariff u => show_tariffs e u
  end.

(** The state after a sequence of events, each with what its run observes.
    An exception that leaves a handler ends that handler only. *)
Fixpoint run_events (cfg : config) (evs : list (env * event)) (s : state) : state :=
  match evs with
  | [] => s
  | (e, ev) :: rest => run_events cfg rest (snd (dispatch cfg e ev s))
  end.

(** [m] takes every state to one that is [R]-related to it. *)
Definition keeps {A} (R : state -> state -> Prop) (m : M A) : Prop :=
  forall s, R s (snd (m s)).

(** [m] never raises. *)
Definition returns {A} (m : M A) : Prop :=
  forall s, exists a, fst (m s) = Return a.

(** [R] is kept by every elementary change a handler run for [user_id]
    makes to the state: a call recorded, a fault consumed, the selection of
    that user set or cleared, a statement run on the store. *)
Record step_closed (user_id : Z) (R : state -> state -> Prop) : Prop := {
  sc_refl : forall s, R s s;
  sc_trans : forall a b c, R a b -> R b c -> R a c;
  sc_trace : forall s a,
    R s (mk_state (db s) (user_tariffs s) (faults s) (trace s ++ [a]));
  sc_faults : forall s fs,
    R s (mk_state (db s) (user_tariffs s) fs (trace s));
  sc_select : forall s tariff,
    R s (mk_state (db s) (<[user_id := tariff]> (user_tariffs s)) (faults s) (trace s));
  sc_clear : forall s,
    R s (mk_state (db s) (delete user_id (user_tariffs s)) (faults s) (trace s));
  sc_run : forall s now q,
    R s (mk_state (fst (run now q (db s))) (user_tariffs s) (faults s) (trace s))
}.

(** A relation between the stores before and after, as one on states. *)
Definition on_db (Rd : database -> database -> Prop) : state -> state -> Prop :=
  fun s s' => Rd (db s) (db s').

(** The id and the owner of a ledger record. *)
Definition id_and_owner (r : transaction_row) : str * Z := (receipt_id r, tx_user_id r).

(** The key of a failure record. *)
Definition key_of (r : suspicious_row) : Z * str := (sr_user_id r, file_name r).

(** No two ledger records carry the same transaction id. *)
Definition unique_ids (d : database) : Prop :=
  NoDup (map receipt_id (receipt_transactions d)).

(** No two failure records carry the same (user, file) key. *)
Definition unique_keys (d : database) : Prop :=
  NoDup (map key_of (suspicious_receipts d)).

(** The user has a ledger record stamped within the last hour. *)
Definition recent_receipt (d : database) (now user_id : Z) : bool :=
  existsb (fun r => (tx_user_id r =? user_id) && (now - 3600 <? used_at r))
          (receipt_transactions d).

(** [l] is in descending order of [f]. *)
Fixpoint descending {A} (f : A -> Z) (l : list A) : Prop :=
  match l with
  | [] => True
  | x :: l' => Forall (fun y => f y <= f x) l' /\ descending f l'
  end.

(** The store call that starts in [s] raises. *)
Definition next_call_fails (s : state) : bool := hd false (faults s).

(** The rows of [codes] of a user. *)
Definition sessions_of (d : database) (user_id : Z) : list code_row :=
  List.filter (fun c => code_user_id c =? user_id) (codes d).

(** The page has a text, and it is not empty. *)
Definition has_text (p : page) : bool :=
  match p with
  | PageText (_ :: _) => true
  | _ => false
  end.

(** The callback data of the button of the free tariff, and those of the
    paid ones. *)
Definition free_button : str := py "tariff_2 минуты".

Definition paid_buttons : list str := [py "tariff_1 час"; py "tariff_2 часа"].

(** The reply of the sessions listing for the rows fetched at store time
    [now]. *)
Definition listing (now : Z) (rows : list code_row) : reply :=
  match rows with
  | [] => NoSessions
  | _ :: _ => Sessions (map (session_line_of now) rows)
  end.

End Pipeline.
Export Pipeline.

(** * Checks of the definitions on concrete inputs *)

Example py_cyrillic : py "2 часа₸" = [50; 32; 1095; 1072; 1089; 1072; 8376]%N.
Proof. reflexivity. Qed.

Example str_of_int_490 : str_of_int 490 = py "490".
Proof. reflexivity. Qed.

Example findall_example :
  findall_digits (py "receipt_12_98765.pdf") = [py "12"; py "98765"].
Proof. reflexivity. Qed.

Example ordinal_2024_03_05 : ymd2ord 2024 3 5 = 738950.
Proof. reflexivity. Qed.

Example strptime_mixed_scripts :
  strptime (py "1٢.03.٢٠٢٤ 1٣:0٣") Fmt_dmY = Some (mk_datetime 2024 3 12 13 3 0 0).
Proof. reflexivity. Qed.

Example strptime_not_a_date :
  re_search pattern_dmY (py "on 99.99.9999 99:99") = Some (py "99.99.9999 99:99")
  /\ strptime (py "99.99.9999 99:99") Fmt_dmY = None
  /\ strptime (py "29.02.2023 10:00") Fmt_dmY = None
  /\ strptime (py "0000-01-01T10:00") Fmt_Ymd = None.
Proof. repeat split; reflexivity. Qed.

(** * Properties *)

(** ** Strings *)

Section StringFacts.

Lemma str_eqb_eq (a b : str) : str_eqb a b = true <-> a = b.
Proof.
  revert b; induction a as [|x a IH]; intros [|y b]; simpl; split;
    try congruence; try discriminate.
  - intros H. apply andb_true_iff in H as [Hx Hab].
    apply N.eqb_eq in Hx. apply IH in Hab. congruence.
  - intros H. injection H as -> ->.
    apply andb_true_iff. split; [apply N.eqb_refl | now apply IH].
Qed.

Lemma str_eqb_refl (a : str) : str_eqb a a = true.
Proof. now apply str_eqb_eq. Qed.

Lemma str_eqb_neq (a b : str) : str_eqb a b = false <-> a <> b.
Proof.
  split.
  - intros H Heq. apply str_eqb_eq in Heq. congruence.
  - intros H. destruct (str_eqb a b) eqn:E; [|reflexivity].
    apply str_eqb_eq in E. contradiction.
Qed.

Lemma startswith_spec (p s : str) :
  startswith p s = true <-> exists t, s = p ++ t.
Proof.
  revert s; induction p as [|x p IH]; intros s; simpl.
  - split; [intros _; now exists s | reflexivity].
  - destruct s as [|y s].
    + split; [discriminate | intros [t Ht]; discriminate].
    + rewrite andb_true_iff, N.eqb_eq, IH. split.
      * intros [-> [t ->]]. now exists t.
      * intros [t Ht]. injection Ht as -> ->. split; [reflexivity | now exists t].
Qed.

(** [needle in hay] is true exactly when [hay] holds [needle] as a
    contiguous piece. *)
Lemma str_in_spec (needle hay : str) :
  str_in needle hay = true <-> substring needle hay.
Proof.
  unfold substring. induction hay as [|c hay IH].
  - simpl. rewrite orb_false_r, startswith_spec. split.
    + intros [t Ht]. now exists [], t.
    + intros (b & a & H). destruct b; [now exists a | discriminate].
  - cbn [str_in]. rewrite orb_true_iff, startswith_spec, IH. split.
    + intros [[t Ht] | (b & a & H)].
      * now exists [], t.
      * exists (c :: b), a. now rewrite H.
    + intros (b & a & H). destruct b as [|c' b].
      * left. now exists a.
      * right. injection H as -> ->. now exists b, a.
Qed.

End StringFacts.

(** ** Digit runs of a file name *)

Section DigitRuns.

Lemma maximal_runs_skip (c : N) (s : str) (runs : list str) :
  not_decimal c -> maximal_runs s runs -> maximal_runs (c :: s) runs.
Proof.
  intros Hc H. inversion H as [gap Hgap | gap r rest runs' Hgap Hr Hd He Hrest]; subst.
  - now apply runs_none, Forall_cons.
  - change (maximal_runs ((c :: gap) ++ r ++ rest) (r :: runs')).
    apply runs_next; auto.
Qed.

Lemma flush_run (d cur : str) :
  d <> [] -> flush (rev d ++ cur) = [rev cur ++ d].
Proof.
  intros Hd. unfold flush.
  destruct (rev d ++ cur) eqn:E.
  - apply app_eq_nil in E as [E _].
    apply (f_equal (@rev N)) in E. rewrite rev_involutive in E. contradiction.
  - rewrite <- E, rev_app_distr, rev_involutive. reflexivity.
Qed.

(** The scan from an accumulator of digits: it reads the digits [d] that
    continue the current run, emits it, and lists the runs of the rest. *)
Lemma findall_from_spec (s cur : str) :
  exists d rest runs,
    s = d ++ rest /\ Forall decimal d /\ run_ends_at rest
    /\ maximal_runs rest runs
    /\ findall_from cur s = flush (rev d ++ cur) ++ runs.
Proof.
  revert cur; induction s as [|c s IH]; intros cur.
  - exists [], [], []. repeat split; auto using Forall_nil.
    + now apply runs_none.
    + simpl. now rewrite app_nil_r.
  - cbn [findall_from]. destruct (is_decimal c) eqn:Hc.
    + destruct (IH (c :: cur)) as (d & rest & runs & -> & Hd & He & Hr & Hf).
      exists (c :: d), rest, runs. repeat split; auto.
      rewrite Hf. simpl. now rewrite <- app_assoc.
    + destruct (IH []) as (d & rest & runs & -> & Hd & He & Hr & Hf).
      exists [], (c :: d ++ rest).
      destruct d as [|x d].
      * exists runs. simpl in *. repeat split; auto.
        -- now apply maximal_runs_skip.
        -- now rewrite Hf.
      * exists ((x :: d) :: runs). repeat split; auto.
        -- change (maximal_runs ([c] ++ (x :: d) ++ rest) ((x :: d) :: runs)).
           apply runs_next; auto.
        -- rewrite Hf, flush_run by discriminate. reflexivity.
Qed.

(** [re.findall(r'\d+', s)] lists the maximal digit runs of [s] in scan
    order. *)
Lemma findall_digits_maximal_runs (s : str) :
  maximal_runs s (findall_digits s).
Proof.
  unfold findall_digits.
  destruct (findall_from_spec s []) as (d & rest & runs & -> & Hd & He & Hr & Hf).
  rewrite Hf. destruct d as [|x d].
  - exact Hr.
  - rewrite flush_run by discriminate.
    change (maximal_runs ([] ++ (x :: d) ++ rest) ((x :: d) :: runs)).
    apply runs_next; auto.
Qed.

(** A run cannot end at two places, nor start at two. *)
Lemma digits_then_rest (r r' rest rest' : str) :
  Forall decimal r -> Forall decimal r' ->
  run_ends_at rest -> run_ends_at rest' ->
  r ++ rest = r' ++ rest' -> r = r' /\ rest = rest'.
Proof.
  unfold decimal, not_decimal.
  revert r'; induction r as [|x r IH]; intros [|y r'] Hr Hr' He He' Heq;
    cbn [app] in Heq.
  - now split.
  - subst rest. apply Forall_cons_1 in Hr' as [Hy _].
    cbn [run_ends_at] in He. unfold not_decimal in He. congruence.
  - subst rest'. apply Forall_cons_1 in Hr as [Hx _].
    cbn [run_ends_at] in He'. unfold not_decimal in He'. congruence.
  - injection Heq as -> Heq.
    apply Forall_cons_1 in Hr as [_ Hr]. apply Forall_cons_1 in Hr' as [_ Hr'].
    destruct (IH r' Hr Hr' He He' Heq) as [-> ->]. now split.
Qed.

Lemma gap_then_run (gap gap' r r' rest rest' : str) :
  Forall not_decimal gap -> Forall not_decimal gap' ->
  r <> [] -> r' <> [] -> Forall decimal r -> Forall decimal r' ->
  run_ends_at rest -> run_ends_at rest' ->
  gap ++ r ++ rest = gap' ++ r' ++ rest' ->
  gap = gap' /\ r = r' /\ rest = rest'.
Proof.
  unfold decimal, not_decimal.
  revert gap'; induction gap as [|c gap IH]; intros [|c' gap'] Hg Hg' Hn Hn' Hr Hr'
    He He' Heq; cbn [app] in Heq.
  - split; [reflexivity|]. now apply digits_then_rest.
  - destruct r as [|x r]; [contradiction|]. injection Heq as -> _.
    apply Forall_cons_1 in Hr as [Hx _]. apply Forall_cons_1 in Hg' as [Hc _].
    congruence.
  - destruct r' as [|x r']; [contradiction|]. injection Heq as -> _.
    apply Forall_cons_1 in Hr' as [Hx _]. apply Forall_cons_1 in Hg as [Hc _].
    congruence.
  - injection Heq as -> Heq.
    apply Forall_cons_1 in Hg as [_ Hg]. apply Forall_cons_1 in Hg' as [_ Hg'].
    destruct (IH gap' Hg Hg' Hn Hn' Hr Hr' He He' Heq) as (-> & -> & ->).
    now repeat split.
Qed.

(** A string has one list of maximal digit runs. *)
Lemma maximal_runs_unique (s : str) (l1 l2 : list str) :
  maximal_runs s l1 -> maximal_runs s l2 -> l1 = l2.
Proof.
  intros H1; revert l2.
  induction H1 as [gap Hgap | gap r rest runs Hgap Hn Hr He Hrest IH]; intros l2 H2.
  - inversion H2 as [gap' Hgap' | gap' r' rest' runs' Hgap' Hn' Hr' He' Hrest' Heq];
      [reflexivity|]. subst.
    destruct r' as [|x r']; [contradiction|].
    apply Forall_app in Hgap as [_ Hgap]. apply Forall_app in Hgap as [Hx _].
    apply Forall_cons_1 in Hx as [Hx _]. apply Forall_cons_1 in Hr' as [Hx' _].
    unfold decimal, not_decimal in *. congruence.
  - inversion H2 as [gap' Hgap' | gap' r' rest' runs' Hgap' Hn' Hr' He' Hrest' Heq].
    + subst. destruct r as [|x r]; [contradiction|].
      apply Forall_app in Hgap' as [_ Hgap']. apply Forall_app in Hgap' as [Hx _].
      apply Forall_cons_1 in Hx as [Hx _]. apply Forall_cons_1 in Hr as [Hx' _].
      unfold decimal, not_decimal in *. congruence.
    + destruct (gap_then_run gap' gap r' r rest' rest) as (-> & -> & ->); auto.
      f_equal. now apply IH.
Qed.

Lemma max_from_first_longest (l : list str) (best : str) :
  first_longest (max_from best l) (best :: l).
Proof.
  revert best; induction l as [|x l IH]; intros best.
  - exists [], []. repeat split; constructor.
  - cbn [max_from]. destruct (length best <? length x)%nat eqn:E.
    + apply Nat.ltb_lt in E.
      destruct (IH x) as (b & a & Hl & Hb & Ha).
      remember (max_from x l) as m eqn:Hm. clear Hm.
      exists (best :: b), a. split; [now rewrite Hl|]. split; [|exact Ha].
      constructor; [|exact Hb].
      destruct b as [|y b]; injection Hl as Hx Hl.
      * now subst m.
      * subst y. apply Forall_cons_1 in Hb as [Hy _]. lia.
    + apply Nat.ltb_ge in E.
      destruct (IH best) as (b & a & Hl & Hb & Ha).
      remember (max_from best l) as m eqn:Hm. clear Hm.
      destruct b as [|y b]; injection Hl as Hbest Hl.
      * subst m l. exists [], (x :: a).
        split; [reflexivity|]. split; constructor; auto.
      * subst y l. exists (best :: x :: b), a.
        split; [reflexivity|]. split; [|exact Ha].
        apply Forall_cons_1 in Hb as [Hy Hb].
        repeat constructor; auto. lia.
Qed.

Lemma transaction_id_of_none (filename : str) :
  transaction_id_of filename = None <-> findall_digits filename = [].
Proof.
  unfold transaction_id_of, max_key_len.
  destruct (findall_digits filename); split; congruence.
Qed.

Lemma transaction_id_of_first_longest (filename tid : str) :
  transaction_id_of filename = Some tid ->
  first_longest tid (findall_digits filename).
Proof.
  unfold transaction_id_of, max_key_len.
  destruct (findall_digits filename) as [|x l]; [discriminate|].
  intros H. injection H as <-. apply max_from_first_longest.
Qed.

End DigitRuns.

(** ** Running the store calls *)

Section StoreCalls.

Variable e : env.

Lemma with_trace_app (s : state) (a b : list action) :
  with_trace (with_trace s a) b = with_trace s (a ++ b).
Proof. unfold with_trace; simpl. now rewrite <- app_assoc. Qed.

(** A store call that does not raise. *)
Lemma execute_db_ok (q : statement) (f1 f2 f3 : bool) (s : state) :
  faults s = [] ->
  execute_db e q f1 f2 f3 s =
    (Return (fetched f1 f2 f3 (snd (run (db_now e) q (db s)))),
     mk_state (fst (run (db_now e) q (db s))) (user_tariffs s) []
              (trace s ++ [Query q])).
Proof.
  intros Hf. unfold execute_db, bind, emit, next_fault, get_db, put_db, ret.
  cbn [db user_tariffs faults trace]. rewrite Hf.
  cbn [db user_tariffs faults trace].
  destruct (run (db_now e) q (db s)) as [d' rows]. reflexivity.
Qed.

(** A store call that raises: nothing is written, the error is logged and
    the caller gets [None]. *)
Lemma execute_db_fault (q : statement) (f1 f2 f3 : bool) (s : state) (rest : list bool) :
  faults s = true :: rest ->
  execute_db e q f1 f2 f3 s =
    (Return PyNone,
     mk_state (db s) (user_tariffs s) rest (trace s ++ [Query q; LogError])).
Proof.
  intros Hf. unfold execute_db, bind, emit, next_fault, ret.
  cbn [db user_tariffs faults trace]. rewrite Hf.
  cbn [db user_tariffs faults trace]. now rewrite <- app_assoc.
Qed.

(** Whatever the store does, [execute_db] returns. *)
Lemma execute_db_returns (q : statement) (f1 f2 f3 : bool) (s : state) :
  exists r, fst (execute_db e q f1 f2 f3 s) = Return r.
Proof.
  unfold execute_db, bind, emit, next_fault, get_db, put_db, ret.
  cbn [db user_tariffs faults trace].
  destruct (faults s) as [|[] rest]; cbn [db user_tariffs faults trace];
    try destruct (run (db_now e) q (db s)); eexists; reflexivity.
Qed.

End StoreCalls.

(** ** The rule chain of [validate_receipt] *)

Section RuleChain.

Variables (cfg : config) (e : env).
Variables (filename text tariff : str).

(** [validate_receipt], rule by rule. *)
Lemma validate_receipt_chain (s : state) :
  validate_receipt cfg e filename text tariff s =
    let s1 := with_trace s [ValidateReceipt] in
    match dict_get tariff tariff_prices with
    | None => (Raise KeyError, s1)
    | Some price =>
        if amount_mismatch price text then (Return (false, AmountMismatch price), s1)
        else if recipient_mismatch cfg text then (Return (false, RecipientMismatch), s1)
        else
          match find_receipt_time time_patterns text with
          | None => (Return (false, TimeUnparsable), s1)
          | Some receipt_time =>
              match timedelta_minutes (RECEIPT_MAX_AGE_MINUTES cfg) with
              | None => (Raise OverflowError, s1)
              | Some max_age =>
                  if max_age <? micros (py_now e) - micros receipt_time
                  then (Return (false, TimeTooOld (RECEIPT_MAX_AGE_MINUTES cfg)), s1)
                  else
                    match transaction_id_of filename with
                    | None => (Return (false, TransactionIdMissingInFilename), s1)
                    | Some transaction_id =>
                        if negb (str_in transaction_id text)
                        then (Return (false, TransactionIdNotInText), s1)
                        else ledger_check e transaction_id s1
                    end
              end
          end
    end.
Proof.
  unfold validate_receipt, ledger_check.
  unfold bind at 1. unfold emit at 1. fold (with_trace s [ValidateReceipt]).
  cbv zeta. set (s1 := with_trace s [ValidateReceipt]).
  unfold bind at 1.
  destruct (dict_get tariff tariff_prices) as [price|]; [|reflexivity].
  cbn [lookup_or_KeyError ret].
  destruct (amount_mismatch price text); [reflexivity|].
  destruct (recipient_mismatch cfg text); [reflexivity|].
  destruct (find_receipt_time time_patterns text) as [rt|]; [|reflexivity].
  destruct (timedelta_minutes (RECEIPT_MAX_AGE_MINUTES cfg)) as [max_age|]; [|reflexivity].
  destruct (max_age <? micros (py_now e) - micros rt); [reflexivity|].
  destruct (transaction_id_of filename) as [tid|]; [|reflexivity].
  destruct (negb (str_in tid text)); [reflexivity|].
  unfold bind.
  destruct (execute_db e (select_receipt tid) true false false s1) as [[used|x] s2];
    cbn [fst snd]; [|reflexivity].
  destruct (truthy used); reflexivity.
Qed.

(** The ledger lookup always gives a verdict, and it is one of two. *)
Lemma ledger_check_verdict (transaction_id : str) (s1 : state) :
  verdict (ledger_check e transaction_id s1) = Return (false, TransactionAlreadyUsed)
  \/ verdict (ledger_check e transaction_id s1) = Return (true, Accepted).
Proof.
  unfold ledger_check, verdict.
  destruct (execute_db_returns e (select_receipt transaction_id) true false false s1)
    as [r Hr].
  rewrite Hr. cbn [fst]. destruct (truthy r); auto.
Qed.

Lemma passes_first_three_chain (s : state) :
  passes_first_three cfg e text tariff ->
  validate_receipt cfg e filename text tariff s =
    let s1 := with_trace s [ValidateReceipt] in
    match transaction_id_of filename with
    | None => (Return (false, TransactionIdMissingInFilename), s1)
    | Some transaction_id =>
        if negb (str_in transaction_id text)
        then (Return (false, TransactionIdNotInText), s1)
        else ledger_check e transaction_id s1
    end.
Proof.
  intros [(price & Hp & Ha & Hr) (rt & max_age & Ht & Hd & Hle)].
  rewrite validate_receipt_chain. cbv zeta.
  rewrite Hp, Ha, Hr, Ht, Hd.
  replace (max_age <? micros (py_now e) - micros rt) with false
    by (symmetry; apply Z.ltb_ge; exact Hle).
  reflexivity.
Qed.

End RuleChain.

(** ** The rules of [validate_receipt] *)

Section Rules.

Variables (cfg : config) (e : env).
Variables (filename text tariff : str).
Variable s : state.

Local Abbreviation v := (verdict (validate_receipt cfg e filename text tariff s)).

(** C4: the rules are evaluated in the order amount, recipient, time,
    transaction id, and the first one that fails gives the reason; so a
    receipt of a priced tariff whose text has a correct amount rendering
    but not the configured recipient fails with the recipient reason, not
    with the amount reason. *)
Theorem validate_rule_order (price : Z) :
  dict_get tariff tariff_prices = Some price ->
  (amount_mismatch price text = true ->
     v = Return (false, AmountMismatch price))
  /\ (amount_mismatch price text = false ->
      recipient_mismatch cfg text = true ->
        v = Return (false, RecipientMismatch))
  /\ (amount_mismatch price text = false ->
      recipient_mismatch cfg text = false ->
      find_receipt_time time_patterns text = None ->
        v = Return (false, TimeUnparsable))
  /\ (forall receipt_time max_age,
        amount_mismatch price text = false ->
        recipient_mismatch cfg text = false ->
        find_receipt_time time_patterns text = Some receipt_time ->
        timedelta_minutes (RECEIPT_MAX_AGE_MINUTES cfg) = Some max_age ->
        max_age < micros (py_now e) - micros receipt_time ->
          v = Return (false, TimeTooOld (RECEIPT_MAX_AGE_MINUTES cfg)))
  /\ (passes_first_three cfg e text tariff ->
        v = Return (false, TransactionIdMissingInFilename)
        \/ v = Return (false, TransactionIdNotInText)
        \/ v = Return (false, TransactionAlreadyUsed)
        \/ v = Return (true, Accepted))
  /\ (0 < price ->
      (exists p, In p (amount_patterns (str_of_int price)) /\ substring p text) ->
      ~ substring (recipient_name cfg) text ->
        v = Return (false, RecipientMismatch)
        /\ v <> Return (false, AmountMismatch price)).
Proof.
  intros Hp. unfold verdict.
  repeat apply conj.
  - intros Ha. now rewrite validate_receipt_chain, Hp, Ha.
  - intros Ha Hr. now rewrite validate_receipt_chain, Hp, Ha, Hr.
  - intros Ha Hr Ht. now rewrite validate_receipt_chain, Hp, Ha, Hr, Ht.
  - intros rt max_age Ha Hr Ht Hd Hlt.
    rewrite validate_receipt_chain, Hp, Ha, Hr, Ht, Hd.
    apply Z.ltb_lt in Hlt. now rewrite Hlt.
  - intros H3. rewrite (passes_first_three_chain cfg e filename text tariff s H3).
    cbv zeta. destruct (transaction_id_of filename) as [tid|]; [|now left].
    destruct (negb (str_in tid text)); [now right; left|].
    destruct (ledger_check_verdict e tid (with_trace s [ValidateReceipt])) as [H|H];
      unfold verdict in H; rewrite H; auto.
  - intros Hpos (p & Hin & Hsub) Hrec.
    assert (Ha : amount_mismatch price text = false).
    { unfold amount_mismatch. apply andb_false_iff. right.
      apply negb_false_iff, existsb_exists. exists p. split; [exact Hin|].
      now apply str_in_spec. }
    assert (Hr : recipient_mismatch cfg text = true).
    { unfold recipient_mismatch. apply negb_true_iff.
      destruct (str_in (recipient_name cfg) text) eqn:E; [|reflexivity].
      apply str_in_spec in E. contradiction. }
    rewrite validate_receipt_chain, Hp, Ha, Hr. cbn [fst]. split; congruence.
Qed.

(** C5: the transaction id comes from the file name alone.  The runs
    listed by the scan are the maximal digit runs in scan order, all of
    them and nothing else; with none
    the reason is transaction-id-missing-in-filename; otherwise the id is
    the first of the longest runs, "98765" for "receipt_12_98765.pdf",
    and the reason is transaction-id-not-in-text when the text does not
    contain it. *)
Theorem transaction_id_rule :
  passes_first_three cfg e text tariff ->
  maximal_runs filename (findall_digits filename)
  /\ (forall runs, maximal_runs filename runs -> runs = findall_digits filename)
  /\ (findall_digits filename = [] ->
        v = Return (false, TransactionIdMissingInFilename))
  /\ (findall_digits filename <> [] ->
        exists tid,
          transaction_id_of filename = Some tid
          /\ first_longest tid (findall_digits filename)
          /\ (~ substring tid text -> v = Return (false, TransactionIdNotInText))
          /\ (substring tid text ->
                v = verdict (ledger_check e tid (with_trace s [ValidateReceipt]))))
  /\ findall_digits (py "receipt_12_98765.pdf") = [py "12"; py "98765"]
  /\ transaction_id_of (py "receipt_12_98765.pdf") = Some (py "98765").
Proof.
  intros H3. unfold verdict.
  rewrite (passes_first_three_chain cfg e filename text tariff s H3). cbv zeta.
  split; [apply findall_digits_maximal_runs|].
  split; [intros runs Hruns; apply (maximal_runs_unique filename); auto;
          apply findall_digits_maximal_runs|].
  split; [|split; [|split; reflexivity]].
  - intros Hnone. apply transaction_id_of_none in Hnone. now rewrite Hnone.
  - intros Hsome.
    destruct (transaction_id_of filename) as [tid|] eqn:Htid.
    + exists tid. split; [reflexivity|].
      split; [now apply transaction_id_of_first_longest|].
      split; intros Hsub.
      * destruct (str_in tid text) eqn:E; [|reflexivity].
        apply str_in_spec in E. contradiction.
      * apply str_in_spec in Hsub. now rewrite Hsub.
    + apply transaction_id_of_none in Htid. contradiction.
Qed.

(** A match has the shape of its pattern, position by position; so
    [strptime] is only given texts of the shape it is defined on. *)
Lemma match_here_shape (p : list cclass) (t m : str) :
  match_here p t = Some m -> Forall2 (fun k c => cmatch k c = true) p m.
Proof.
  revert t m; induction p as [|k p IH]; intros t m H.
  - injection H as <-. constructor.
  - destruct t as [|c t]; [discriminate|]. cbn [match_here] in H.
    destruct (cmatch k c) eqn:Hk; [|discriminate].
    destruct (match_here p t) as [w|] eqn:E; [|discriminate].
    injection H as <-. constructor; [exact Hk | now apply (IH t)].
Qed.

Lemma re_search_shape (p : list cclass) (t m : str) :
  re_search p t = Some m -> Forall2 (fun k c => cmatch k c = true) p m.
Proof.
  induction t as [|c t IH]; cbn [re_search];
    destruct (match_here p _) as [w|] eqn:E; intros H; try discriminate;
    try (injection H as <-; now apply match_here_shape in E).
  now apply IH.
Qed.

(** [re.search] returns the leftmost match: the pattern matches where
    the returned text starts and at no earlier position. *)
Lemma re_search_leftmost (p : list cclass) (t m : str) :
  re_search p t = Some m ->
  exists before after,
    t = before ++ m ++ after
    /\ match_here p (m ++ after) = Some m
    /\ forall b1 b2, before = b1 ++ b2 -> b2 <> [] ->
         match_here p (b2 ++ m ++ after) = None.
Proof.
  assert (Hhere : forall q u w, match_here q u = Some w -> exists a, u = w ++ a).
  { induction q as [|k q IH]; intros u w H.
    - injection H as <-. now exists u.
    - destruct u as [|c u]; [discriminate|]. cbn [match_here] in H.
      destruct (cmatch k c); [|discriminate].
      destruct (match_here q u) as [w'|] eqn:E; [|discriminate].
      injection H as <-. destruct (IH _ _ E) as [a ->]. now exists a. }
  revert m; induction t as [|c t IH]; intros m H.
  - cbn [re_search] in H. destruct (match_here p []) as [w|] eqn:E; [|discriminate].
    injection H as <-. destruct (Hhere _ _ _ E) as [a Ha].
    exists [], a. split; [exact Ha|]. split; [now rewrite <- Ha|].
    intros b1 b2 Hb. destruct b1; destruct b2; try discriminate. congruence.
  - cbn [re_search] in H. destruct (match_here p (c :: t)) as [w|] eqn:E.
    + injection H as <-. destruct (Hhere _ _ _ E) as [a Ha].
      exists [], a. split; [exact Ha|]. split; [now rewrite <- Ha|].
      intros b1 b2 Hb. destruct b1; destruct b2; try discriminate. congruence.
    + destruct (IH _ H) as (b & a & Ht & Hm & Hmin).
      exists (c :: b), a. split; [now rewrite Ht|]. split; [exact Hm|].
      intros b1 b2 Hb Hne. destruct b1 as [|x b1].
      * cbn [app] in Hb. subst b2. cbn [app]. now rewrite <- Ht.
      * injection Hb as -> Hb. now apply (Hmin b1 b2).
Qed.

(** C6, amended: the two notations are tried in the fixed order; of each
    only the leftmost match is read, and a notation with no match or whose
    leftmost match is not a date and time is passed over.  With no time
    read the reason is time-unparsable (so also when neither notation
    matches); with one, and a maximum age from 0 up to what [timedelta]
    can hold, the reason is time-too-old exactly when now minus the
    receipt time exceeds the maximum age, and a receipt time later than
    now is not refused by this rule. *)
Theorem timestamp_rule :
  passes_amount_and_recipient cfg text tariff ->
  0 <= RECEIPT_MAX_AGE_MINUTES cfg < 1440000000000 ->
  find_receipt_time time_patterns text =
    (let second :=
       match re_search pattern_Ymd text with
       | Some m => strptime m Fmt_Ymd
       | None => None
       end in
     match re_search pattern_dmY text with
     | Some m =>
         match strptime m Fmt_dmY with
         | Some t => Some t
         | None => second
         end
     | None => second
     end)
  /\ (re_search pattern_dmY text = None -> re_search pattern_Ymd text = None ->
        v = Return (false, TimeUnparsable))
  /\ (find_receipt_time time_patterns text = None ->
        v = Return (false, TimeUnparsable))
  /\ (forall receipt_time,
        find_receipt_time time_patterns text = Some receipt_time ->
        (v = Return (false, TimeTooOld (RECEIPT_MAX_AGE_MINUTES cfg))
         <-> RECEIPT_MAX_AGE_MINUTES cfg * 60 * 1000000
             < micros (py_now e) - micros receipt_time)
        /\ v <> Return (false, TimeUnparsable)
        /\ (micros (py_now e) < micros receipt_time ->
              v <> Return (false, TimeTooOld (RECEIPT_MAX_AGE_MINUTES cfg)))).
Proof.
  intros (price & Hp & Ha & Hr) Hrange.
  assert (Hfind : find_receipt_time time_patterns text =
    (let second :=
       match re_search pattern_Ymd text with
       | Some m => strptime m Fmt_Ymd
       | None => None
       end in
     match re_search pattern_dmY text with
     | Some m =>
         match strptime m Fmt_dmY with
         | Some t => Some t
         | None => second
         end
     | None => second
     end)).
  { cbv zeta. unfold time_patterns. cbn [find_receipt_time].
    destruct (re_search pattern_dmY text) as [m1|];
      [destruct (strptime m1 Fmt_dmY)|]; try reflexivity;
      destruct (re_search pattern_Ymd text) as [m2|]; try reflexivity;
      destruct (strptime m2 Fmt_Ymd); reflexivity. }
  assert (Hnone : find_receipt_time time_patterns text = None ->
                  v = Return (false, TimeUnparsable)).
  { intros Ht. unfold verdict. now rewrite validate_receipt_chain, Hp, Ha, Hr, Ht. }
  assert (Hd : timedelta_minutes (RECEIPT_MAX_AGE_MINUTES cfg)
               = Some (RECEIPT_MAX_AGE_MINUTES cfg * 60 * 1000000)).
  { unfold timedelta_minutes.
    assert (0 <= RECEIPT_MAX_AGE_MINUTES cfg / 1440 <= 999999999).
    { split; [apply Z.div_pos; lia|].
      apply Z.lt_succ_r, Z.div_lt_upper_bound; lia. }
    replace (-999999999 <=? RECEIPT_MAX_AGE_MINUTES cfg / 1440) with true
      by (symmetry; apply Z.leb_le; lia).
    replace (RECEIPT_MAX_AGE_MINUTES cfg / 1440 <=? 999999999) with true
      by (symmetry; apply Z.leb_le; lia).
    reflexivity. }
  split; [exact Hfind|]. split; [|split; [exact Hnone|]].
  - intros H1 H2. apply Hnone. rewrite Hfind. cbv zeta. now rewrite H1, H2.
  - intros rt Ht.
    assert (Hv : v =
      if RECEIPT_MAX_AGE_MINUTES cfg * 60 * 1000000 <? micros (py_now e) - micros rt
      then Return (false, TimeTooOld (RECEIPT_MAX_AGE_MINUTES cfg))
      else verdict (
        match transaction_id_of filename with
        | None => (Return (false, TransactionIdMissingInFilename),
                   with_trace s [ValidateReceipt])
        | Some tid =>
            if negb (str_in tid text)
            then (Return (false, TransactionIdNotInText), with_trace s [ValidateReceipt])
            else ledger_check e tid (with_trace s [ValidateReceipt])
        end)).
    { unfold verdict. rewrite validate_receipt_chain, Hp, Ha, Hr, Ht, Hd. cbv zeta.
      now destruct (_ <? _). }
    assert (Hlater : forall r,
      r = TimeTooOld (RECEIPT_MAX_AGE_MINUTES cfg) \/ r = TimeUnparsable ->
      verdict (
        match transaction_id_of filename with
        | None => (Return (false, TransactionIdMissingInFilename),
                   with_trace s [ValidateReceipt])
        | Some tid =>
            if negb (str_in tid text)
            then (Return (false, TransactionIdNotInText), with_trace s [ValidateReceipt])
            else ledger_check e tid (with_trace s [ValidateReceipt])
        end) <> Return (false, r)).
    { intros r Hr'.
      destruct (transaction_id_of filename) as [tid|];
        [|unfold verdict; cbn [fst]; destruct Hr'; congruence].
      destruct (negb (str_in tid text));
        [unfold verdict; cbn [fst]; destruct Hr'; congruence|].
      destruct (ledger_check_verdict e tid (with_trace s [ValidateReceipt])) as [H|H];
        rewrite H; destruct Hr'; congruence. }
    rewrite Hv.
    destruct (RECEIPT_MAX_AGE_MINUTES cfg * 60 * 1000000
              <? micros (py_now e) - micros rt) eqn:E.
    + apply Z.ltb_lt in E. split; [tauto|]. split; [congruence|]. intros; lia.
    + apply Z.ltb_ge in E. split; [|split].
      * split; [|lia]. intros H. exfalso. revert H. apply Hlater. now left.
      * apply Hlater. now right.
      * intros _. apply Hlater. now left.
Qed.

End Rules.

(** ** The rule chain on the sample receipts *)

Lemma sample_passes_amount_and_recipient :
  passes_amount_and_recipient sample_cfg good_text (py "1 час").
Proof. exists 490. repeat split; vm_compute; reflexivity. Defined.

Lemma sample_passes_first_three :
  passes_first_three sample_cfg (sample_env good_text) good_text (py "1 час").
Proof.
  split; [exact sample_passes_amount_and_recipient|].
  exists (mk_datetime 2024 3 5 10 10 0 0), 1500000000.
  split; [vm_compute; reflexivity|].
  split; [vm_compute; reflexivity | vm_compute; discriminate].
Defined.

Lemma validate_rule_order_witness :
  dict_get (py "1 час") tariff_prices = Some 490
  /\ verdict (validate_receipt sample_cfg (sample_env wrong_recipient_text) good_file
                wrong_recipient_text (py "1 час") fresh)
     = Return (false, RecipientMismatch).
Proof.
  split; [reflexivity|].
  apply (validate_rule_order sample_cfg (sample_env wrong_recipient_text) good_file
           wrong_recipient_text (py "1 час") fresh 490 eq_refl).
  - lia.
  - exists (py "490 KZT"). split; [vm_compute; tauto|].
    apply str_in_spec. vm_compute. reflexivity.
  - intros H. apply str_in_spec in H. vm_compute in H. discriminate.
Defined.

Lemma transaction_id_rule_witness :
  passes_first_three sample_cfg (sample_env good_text) good_text (py "1 час")
  /\ maximal_runs good_file (findall_digits good_file).
Proof.
  split; [exact sample_passes_first_three|].
  apply (transaction_id_rule sample_cfg (sample_env good_text) good_file good_text
           (py "1 час") fresh sample_passes_first_three).
Defined.

Lemma timestamp_rule_witness :
  passes_amount_and_recipient sample_cfg good_text (py "1 час")
  /\ 0 <= RECEIPT_MAX_AGE_MINUTES sample_cfg < 1440000000000
  /\ verdict (validate_receipt sample_cfg (sample_env good_text) good_file good_text
                (py "1 час") fresh)
     <> Return (false, TimeUnparsable).
Proof.
  assert (Hrange : 0 <= RECEIPT_MAX_AGE_MINUTES sample_cfg < 1440000000000)
    by (vm_compute; split; [discriminate | reflexivity]).
  split; [exact sample_passes_amount_and_recipient|].
  split; [exact Hrange|].
  destruct (timestamp_rule sample_cfg (sample_env good_text) good_file good_text
              (py "1 час") fresh sample_passes_amount_and_recipient Hrange)
    as (_ & _ & _ & Hread).
  apply (Hread (mk_datetime 2024 3 5 10 10 0 0)).
  vm_compute. reflexivity.
Defined.

(** C6 as stated fails: the first notation has a match in both texts, yet
    the first is refused as time-unparsable, and in the second the time is
    read from the second notation. *)
Lemma timestamp_first_match_counterexample :
  re_search pattern_dmY not_a_date_text = Some (py "99.99.9999 99:99")
  /\ verdict (validate_receipt sample_cfg (sample_env not_a_date_text) good_file
                not_a_date_text (py "1 час") fresh)
     = Return (false, TimeUnparsable)
  /\ re_search pattern_dmY two_notations_text = Some (py "99.99.9999 99:99")
  /\ re_search pattern_Ymd two_notations_text = Some (py "2024-03-05T10:10")
  /\ find_receipt_time time_patterns two_notations_text
     = Some (mk_datetime 2024 3 5 10 10 0 0)
  /\ verdict (validate_receipt sample_cfg (sample_env two_notations_text) good_file
                two_notations_text (py "1 час") fresh)
     = Return (true, Accepted).
Proof. repeat split; vm_compute; reflexivity. Qed.

(** ** Store failures *)

Section StoreFailure.

Variable e : env.

Lemma fetched_one_none (f2 f3 : bool) (A : Type) (p : A -> bool) (l : list A) :
  is_None (fetched true f2 f3 (firstn 1 (map (fun _ => one) (List.filter p l))))
  = negb (existsb p l).
Proof.
  induction l as [|x l IH]; [reflexivity|].
  cbn [List.filter existsb]. destruct (p x); [reflexivity | exact IH].
Qed.

Lemma is_user_blocked_ok (user_id : Z) (s : state) :
  faults s = [] ->
  is_user_blocked e user_id s =
    (Return (blocked_in (db s) user_id), with_trace s [Query (select_blocked user_id)]).
Proof.
  intros Hf. unfold is_user_blocked, bind.
  rewrite execute_db_ok by exact Hf. cbn [run fst snd]. unfold ret, with_trace.
  rewrite fetched_one_none, negb_involutive, Hf. reflexivity.
Qed.

Lemma is_new_user_ok (user_id : Z) (s : state) :
  faults s = [] ->
  is_new_user e user_id s =
    (Return (negb (has_codes (db s) user_id)), with_trace s [Query (select_codes user_id)]).
Proof.
  intros Hf. unfold is_new_user, bind.
  rewrite execute_db_ok by exact Hf. cbn [run fst snd]. unfold ret, with_trace.
  rewrite fetched_one_none, Hf. reflexivity.
Qed.

(** C8: an error of a store call is caught (the call returns), logged, and
    turned into [None], which is also what a lookup that finds no record
    returns; so when the query of [is_user_blocked] fails, the user is
    reported as not blocked, whatever the store holds. *)
Theorem store_failure_is_swallowed
    (q : statement) (f1 f2 f3 : bool) (s : state) (rest : list bool) (user_id : Z) :
  faults s = true :: rest ->
  execute_db e q f1 f2 f3 s =
    (Return PyNone,
     mk_state (db s) (user_tariffs s) rest (trace s ++ [Query q; LogError]))
  /\ (forall s0, faults s0 = [] -> snd (run (db_now e) q (db s0)) = [] ->
        fst (execute_db e q true f2 f3 s0) = Return PyNone)
  /\ fst (is_user_blocked e user_id s) = Return false.
Proof.
  intros Hf. split; [now apply execute_db_fault|]. split.
  - intros s0 H0 Hrows. rewrite execute_db_ok by exact H0.
    cbn [fst]. now rewrite Hrows.
  - unfold is_user_blocked, bind.
    now rewrite (execute_db_fault e _ _ _ _ s rest Hf).
Qed.

End StoreFailure.

(** ** Uploads refused before validation *)

Section EarlyReturn.

Variables (cfg : config) (e : env) (m : message) (s : state).

(** The block check returns, writes nothing, and makes one query. *)
Lemma is_user_blocked_frame (user_id : Z) :
  exists b acts,
    is_user_blocked e user_id s =
      (Return b, mk_state (db s) (user_tariffs s) (tl (faults s)) (trace s ++ acts))
    /\ (acts = [Query (select_blocked user_id)]
        \/ acts = [Query (select_blocked user_id); LogError]).
Proof.
  destruct (faults s) as [|[] rest] eqn:Hf.
  - rewrite is_user_blocked_ok by exact Hf. unfold with_trace. rewrite Hf.
    eexists _, _. split; [reflexivity | now left].
  - unfold is_user_blocked, bind.
    rewrite (execute_db_fault e _ _ _ _ s rest Hf). cbn [ret tl].
    eexists _, _. split; [reflexivity | now right].
  - unfold is_user_blocked, bind, execute_db, bind, emit, next_fault, get_db, put_db, ret.
    cbn [db user_tariffs faults trace]. rewrite Hf.
    cbn [db user_tariffs faults trace run fst snd tl].
    eexists _, _. split; [reflexivity | now left].
Qed.

(** C10: an upload that is refused before validation (the user is blocked,
    or has chosen no tariff, or the document is not declared as
    application/pdf, or it is larger than the limit) makes the handler
    return without extracting text and without entering validation; the
    tables of the store (failure counters, ledger, codes) and the tariff
    selections are left as they were. *)
Theorem upload_refused_before_validation :
  fst (is_user_blocked e (from_user_id m) s) = Return true
  \/ user_tariffs s !! from_user_id m = None
  \/ doc_mime_type m <> py "application/pdf"
  \/ MAX_PDF_SIZE cfg < doc_file_size m ->
  fst (handle_payment_proof cfg e m s) = Return tt
  /\ db (snd (handle_payment_proof cfg e m s)) = db s
  /\ user_tariffs (snd (handle_payment_proof cfg e m s)) = user_tariffs s
  /\ exists acts,
       trace (snd (handle_payment_proof cfg e m s)) = trace s ++ acts
       /\ ~ In ExtractText acts
       /\ ~ In ValidateReceipt acts
       /\ (forall q, In (Query q) acts -> q = select_blocked (from_user_id m)).
Proof.
  intros Hcase.
  destruct (is_user_blocked_frame (from_user_id m)) as (b & acts & Hb & Hacts).
  rewrite Hb in Hcase. cbn [fst] in Hcase.
  assert (Hrun : exists r,
    handle_payment_proof cfg e m s =
      emit (Answer r)
        (mk_state (db s) (user_tariffs s) (tl (faults s)) (trace s ++ acts))).
  { unfold handle_payment_proof. unfold bind at 1. rewrite Hb. cbv beta iota.
    destruct b; [eexists; reflexivity|].
    unfold bind at 1. cbn [get_tariffs user_tariffs]. cbv beta iota.
    destruct (user_tariffs s !! from_user_id m) as [tariff|] eqn:Ht;
      [|eexists; reflexivity].
    unfold try_except.
    destruct (str_eqb (doc_mime_type m) (py "application/pdf")) eqn:Hmime;
      cbn [negb]; cbv beta iota; [|eexists; reflexivity].
    destruct (MAX_PDF_SIZE cfg <? doc_file_size m) eqn:Hsize; [eexists; reflexivity|].
    exfalso. destruct Hcase as [H|[H|[H|H]]]; try discriminate.
    - apply str_eqb_eq in Hmime. contradiction.
    - apply Z.ltb_ge in Hsize. lia. }
  destruct Hrun as [r ->]. cbn [emit fst snd db user_tariffs trace].
  repeat split. exists (acts ++ [Answer r]).
  split; [now rewrite app_assoc|].
  destruct Hacts as [-> | ->]; cbn [app In];
    (split; [|split]); try (intros q H); intuition congruence.
Qed.

End EarlyReturn.

(** ** Bookkeeping: ledger and failure counters *)

Section Bookkeeping.

Variable e : env.

Lemma emit_bind {B} (a : action) (k : M B) (s : state) :
  bind (emit a) (fun _ => k) s = k (with_trace s [a]).
Proof. reflexivity. Qed.

Lemma bind_return {A B} (m : M A) (k : A -> M B) (s s' : state) (a : A) :
  m s = (Return a, s') -> bind m k s = k a s'.
Proof. intros H. unfold bind. now rewrite H. Qed.

Lemma bind_raise {A B} (m : M A) (k : A -> M B) (s s' : state) (x : exn) :
  m s = (Raise x, s') -> bind m k s = (Raise x, s').
Proof. intros H. unfold bind. now rewrite H. Qed.

Lemma log_transaction_ok (transaction_id : str) (user_id : Z) (s : state) :
  faults s = [] ->
  log_transaction e transaction_id user_id s =
    (Return tt,
     mk_state
       (mk_database (codes (db s))
          (run_upsert_transaction (db_now e) transaction_id user_id
             (receipt_transactions (db s)))
          (suspicious_receipts (db s)) (payments (db s)))
       (user_tariffs s) []
       (trace s ++ [Query (upsert_transaction transaction_id user_id)])).
Proof.
  intros Hf. unfold log_transaction.
  erewrite bind_return by (apply execute_db_ok; exact Hf). reflexivity.
Qed.

Lemma same_key_bump (user_id : Z) (file : str) (r : suspicious_row) :
  same_suspicious_key user_id file (bump_count r) = same_suspicious_key user_id file r.
Proof. reflexivity. Qed.

Lemma filter_none {A} (p : A -> bool) (l : list A) :
  existsb p l = false <-> List.filter p l = [].
Proof.
  induction l as [|x l IH]; [easy|]. cbn [existsb List.filter].
  destruct (p x); [easy|]. exact IH.
Qed.

Lemma filter_bumped (user_id : Z) (file : str) (t : list suspicious_row) :
  List.filter (same_suspicious_key user_id file)
    (map (fun r => if same_suspicious_key user_id file r then bump_count r else r) t)
  = map bump_count (List.filter (same_suspicious_key user_id file) t).
Proof.
  induction t as [|r t IH]; [reflexivity|]. cbn [map List.filter].
  destruct (same_suspicious_key user_id file r) eqn:E.
  - rewrite same_key_bump, E. cbn [map]. now rewrite IH.
  - now rewrite E, IH.
Qed.

(** The records of a key after the failure of that key has been recorded. *)
Lemma filter_upsert_suspicious (user_id : Z) (username file : str)
    (t : list suspicious_row) :
  List.filter (same_suspicious_key user_id file)
              (run_upsert_suspicious user_id username file t)
  = match List.filter (same_suspicious_key user_id file) t with
    | [] => [new_suspicious user_id username file]
    | r :: l => map bump_count (r :: l)
    end.
Proof.
  unfold run_upsert_suspicious.
  assert (Hnew : same_suspicious_key user_id file (new_suspicious user_id username file)
                 = true).
  { unfold same_suspicious_key, new_suspicious. cbn [sr_user_id file_name].
    now rewrite Z.eqb_refl, str_eqb_refl. }
  destruct (existsb (same_suspicious_key user_id file) t) eqn:E.
  - rewrite filter_bumped.
    destruct (List.filter (same_suspicious_key user_id file) t) as [|r l] eqn:F;
      [|reflexivity].
    apply filter_none in F. congruence.
  - rewrite List.filter_app. cbn [List.filter]. rewrite Hnew.
    apply filter_none in E. now rewrite E.
Qed.

(** Recording a failure sets no block flag. *)
Lemma blocked_upsert_suspicious (user_id u : Z) (username file : str)
    (t : list suspicious_row) :
  existsb (fun r => (sr_user_id r =? u) && is_blocked r)
          (run_upsert_suspicious user_id username file t)
  = existsb (fun r => (sr_user_id r =? u) && is_blocked r) t.
Proof.
  unfold run_upsert_suspicious.
  destruct (existsb (same_suspicious_key user_id file) t).
  - induction t as [|r t IH]; [reflexivity|]. cbn [map existsb]. rewrite IH.
    now destruct (same_suspicious_key user_id file r).
  - rewrite existsb_app. cbn [existsb new_suspicious is_blocked].
    now rewrite andb_false_r, orb_false_r.
Qed.

(** [log_suspicious_receipt] when the store answers: the count of the key
    goes up by one, from 0 for a new key, and is returned. *)
Lemma log_suspicious_receipt_ok (user_id : Z) (username file : str) (s : state) :
  faults s = [] ->
  let d' := mk_database (codes (db s)) (receipt_transactions (db s))
              (run_upsert_suspicious user_id username file (suspicious_receipts (db s)))
              (payments (db s)) in
  log_suspicious_receipt e user_id username file s =
    (Return (count_of (db s) user_id file + 1),
     mk_state d' (user_tariffs s) []
       (trace s ++ [Query (upsert_suspicious user_id username file);
                    Query (select_receipt_count user_id file)]))
  /\ count_of d' user_id file = count_of (db s) user_id file + 1
  /\ (forall u, blocked_in d' u = blocked_in (db s) u).
Proof.
  intros Hf d'.
  assert (Hcount : count_of d' user_id file = count_of (db s) user_id file + 1).
  { unfold count_of, d'. cbn [suspicious_receipts].
    rewrite filter_upsert_suspicious.
    now destruct (List.filter (same_suspicious_key user_id file)
                              (suspicious_receipts (db s))). }
  split; [|split; [exact Hcount|]].
  - unfold log_suspicious_receipt.
    erewrite bind_return by (apply execute_db_ok; exact Hf).
    erewrite bind_return by (apply execute_db_ok; reflexivity).
    cbn [run fst snd db user_tariffs trace]. fold d'.
    rewrite <- Hcount. unfold count_of.
    destruct (List.filter (same_suspicious_key user_id file) (suspicious_receipts d'))
      as [|r l] eqn:F.
    + exfalso. unfold d' in F. cbn [suspicious_receipts] in F.
      rewrite filter_upsert_suspicious in F.
      destruct (List.filter _ (suspicious_receipts (db s))); discriminate.
    + cbn [map fetched truthy length Nat.eqb negb row_get String.eqb].
      unfold ret. now rewrite <- app_assoc.
  - intros u. unfold blocked_in, d'. cbn [suspicious_receipts].
    apply blocked_upsert_suspicious.
Qed.

End Bookkeeping.

(** ** The upload handler when the store answers *)

(** Running the elementary steps of a handler. *)
Ltac run_steps :=
  repeat progress
    (unfold emit, ret, raise, lookup_or_KeyError, with_trace;
     cbv beta iota; cbn [db user_tariffs trace faults fst snd]).

Section Uploads.

Variables (cfg : config) (e : env).

Lemma truthy_fetched_one {A} (p : A -> bool) (l : list A) (f2 f3 : bool) :
  truthy (fetched true f2 f3 (map (fun _ => one) (List.filter p l))) = existsb p l.
Proof.
  induction l as [|x l IH]; [reflexivity|].
  cbn [List.filter existsb]. destruct (p x); [reflexivity | exact IH].
Qed.

(** The ledger lookup when the store answers. *)
Lemma ledger_check_ok (transaction_id : str) (s : state) :
  faults s = [] ->
  ledger_check e transaction_id s =
    (Return (if in_ledger (db s) transaction_id
             then (false, TransactionAlreadyUsed) else (true, Accepted)),
     with_trace s [Query (select_receipt transaction_id)]).
Proof.
  intros Hf. unfold ledger_check. rewrite execute_db_ok by exact Hf.
  cbn [fst snd run]. rewrite truthy_fetched_one. unfold with_trace, in_ledger.
  now rewrite Hf.
Qed.

(** Validation writes nothing. *)
Lemma validate_receipt_frame (file text tariff : str) (s : state) :
  faults s = [] ->
  exists acts,
    snd (validate_receipt cfg e file text tariff s)
    = with_trace s (ValidateReceipt :: acts).
Proof.
  intros Hf. rewrite validate_receipt_chain. cbv zeta.
  destruct (dict_get tariff tariff_prices) as [price|]; [|now exists []].
  destruct (amount_mismatch price text); [now exists []|].
  destruct (recipient_mismatch cfg text); [now exists []|].
  destruct (find_receipt_time time_patterns text) as [rt|]; [|now exists []].
  destruct (timedelta_minutes (RECEIPT_MAX_AGE_MINUTES cfg)) as [max_age|];
    [|now exists []].
  destruct (max_age <? micros (py_now e) - micros rt); [now exists []|].
  destruct (transaction_id_of file) as [tid|]; [|now exists []].
  destruct (negb (str_in tid text)); [now exists []|].
  rewrite ledger_check_ok by exact Hf. cbn [snd].
  exists [Query (select_receipt tid)]. now rewrite with_trace_app.
Qed.

(** The verdict depends on the state through the ledger only. *)
Lemma validate_receipt_same_ledger (file text tariff : str) (s s' : state) :
  faults s = [] -> faults s' = [] ->
  receipt_transactions (db s) = receipt_transactions (db s') ->
  fst (validate_receipt cfg e file text tariff s)
  = fst (validate_receipt cfg e file text tariff s').
Proof.
  intros Hf Hf' Hl. rewrite !validate_receipt_chain. cbv zeta.
  destruct (dict_get tariff tariff_prices) as [price|]; [|reflexivity].
  destruct (amount_mismatch price text); [reflexivity|].
  destruct (recipient_mismatch cfg text); [reflexivity|].
  destruct (find_receipt_time time_patterns text) as [rt|]; [|reflexivity].
  destruct (timedelta_minutes (RECEIPT_MAX_AGE_MINUTES cfg)) as [max_age|];
    [|reflexivity].
  destruct (max_age <? micros (py_now e) - micros rt); [reflexivity|].
  destruct (transaction_id_of file) as [tid|]; [|reflexivity].
  destruct (negb (str_in tid text)); [reflexivity|].
  rewrite !ledger_check_ok by assumption. cbn [fst]. unfold in_ledger.
  cbn [with_trace db]. now rewrite Hl.
Qed.

(** A verdict is given only for a tariff of the price table. *)
Lemma validate_receipt_priced (file text tariff : str) (s : state) (v : bool * reason) :
  fst (validate_receipt cfg e file text tariff s) = Return v ->
  exists price, dict_get tariff tariff_prices = Some price.
Proof.
  rewrite validate_receipt_chain. cbv zeta.
  destruct (dict_get tariff tariff_prices) as [price|]; [now exists price|].
  discriminate.
Qed.

(** The verdict on a receipt that passes the first three rules and whose
    transaction id is in the text. *)
Lemma validate_receipt_ledger (file text tariff tid : str) (s : state) :
  faults s = [] ->
  passes_first_three cfg e text tariff ->
  transaction_id_of file = Some tid ->
  substring tid text ->
  fst (validate_receipt cfg e file text tariff s)
  = Return (if in_ledger (db s) tid
            then (false, TransactionAlreadyUsed) else (true, Accepted)).
Proof.
  intros Hf H3 Htid Hsub.
  rewrite (passes_first_three_chain cfg e file text tariff s H3). cbv zeta.
  rewrite Htid. apply str_in_spec in Hsub. rewrite Hsub. cbn [negb].
  now rewrite ledger_check_ok by exact Hf.
Qed.

Variable m : message.
Variable tariff : str.

Local Abbreviation user := (from_user_id m).
Local Abbreviation file := (doc_file_name m).
Local Abbreviation before_validation :=
  [Answer Processing; GetFile; DownloadFile; ExtractText; ValidateReceipt].

(** A refused receipt: the failure is recorded and the reply depends on
    the new count. *)
Lemma check_receipt_refused (s : state) (why : reason) :
  faults s = [] ->
  fst (validate_receipt cfg e file (pdf_text e) tariff
         (with_trace s [Answer Processing; GetFile; DownloadFile; ExtractText]))
    = Return (false, why) ->
  exists acts price,
    dict_get tariff tariff_prices = Some price
    /\ check_receipt cfg e m tariff s =
        (Return tt,
         mk_state
           (mk_database (codes (db s)) (receipt_transactions (db s))
              (run_upsert_suspicious user (username_of m) file
                 (suspicious_receipts (db s)))
              (payments (db s)))
           (user_tariffs s) []
           (trace s ++ before_validation ++ acts
            ++ [Query (upsert_suspicious user (username_of m) file);
                Query (select_receipt_count user file);
                Answer (if SUSPICIOUS_RECEIPT_LIMIT cfg <=? count_of (db s) user file + 1
                        then BlockedForSuspicious
                        else ValidationFailed why price);
                DeleteMessage])).
Proof.
  intros Hf Hv. unfold check_receipt. rewrite !emit_bind, !with_trace_app.
  cbn [app].
  set (s1 := with_trace s [Answer Processing; GetFile; DownloadFile; ExtractText]).
  fold s1 in Hv.
  destruct (validate_receipt_frame file (pdf_text e) tariff s1 Hf) as [acts Hs2].
  destruct (validate_receipt_priced _ _ _ _ _ Hv) as [price Hp].
  exists acts, price. split; [exact Hp|].
  destruct (validate_receipt cfg e file (pdf_text e) tariff s1) as [o s2] eqn:E.
  cbn [fst snd] in Hv, Hs2. subst o s2.
  erewrite bind_return by exact E. cbn [fst snd].
  destruct (log_suspicious_receipt_ok e user (username_of m) file
              (with_trace s1 (ValidateReceipt :: acts)) Hf) as (Hlog & _ & _).
  unfold bind at 1. unfold bind at 1. rewrite Hlog. cbv beta iota.
  subst s1. cbn [with_trace db user_tariffs trace faults].
  destruct (SUSPICIOUS_RECEIPT_LIMIT cfg <=? count_of (db s) user file + 1).
  - run_steps. rewrite <- !app_assoc. cbn [app]. reflexivity.
  - unfold bind at 1. rewrite Hp. run_steps.
    rewrite <- !app_assoc. cbn [app]. reflexivity.
Qed.

(** An accepted receipt: its transaction id is committed to the ledger. *)
Lemma check_receipt_accepted (s : state) (why : reason) (tid : str) :
  faults s = [] ->
  fst (validate_receipt cfg e file (pdf_text e) tariff
         (with_trace s [Answer Processing; GetFile; DownloadFile; ExtractText]))
    = Return (true, why) ->
  transaction_id_of file = Some tid ->
  exists acts,
    check_receipt cfg e m tariff s =
      (Return tt,
       mk_state
         (mk_database (codes (db s))
            (run_upsert_transaction (db_now e) tid user (receipt_transactions (db s)))
            (suspicious_receipts (db s)) (payments (db s)))
         (user_tariffs s) []
         (trace s ++ before_validation ++ acts
          ++ [Query (upsert_transaction tid user); Answer ReceiptAccepted;
              DeleteMessage])).
Proof.
  intros Hf Hv Htid. unfold check_receipt. rewrite !emit_bind, !with_trace_app.
  cbn [app].
  set (s1 := with_trace s [Answer Processing; GetFile; DownloadFile; ExtractText]).
  fold s1 in Hv.
  destruct (validate_receipt_frame file (pdf_text e) tariff s1 Hf) as [acts Hs2].
  exists acts.
  destruct (validate_receipt cfg e file (pdf_text e) tariff s1) as [o s2] eqn:E.
  cbn [fst snd] in Hv, Hs2. subst o s2.
  erewrite bind_return by exact E. cbn [fst snd]. rewrite Htid.
  unfold bind at 1. unfold bind at 1.
  rewrite log_transaction_ok by exact Hf. cbv beta iota.
  subst s1. run_steps.
  rewrite <- !app_assoc. cbn [app]. reflexivity.
Qed.

(** The handler up to the receipt steps, for a user who is not blocked, has
    chosen a tariff and sends a PDF within the size limit. *)
Lemma handle_payment_proof_checks (s : state) :
  faults s = [] ->
  blocked_in (db s) user = false ->
  user_tariffs s !! user = Some tariff ->
  well_formed_upload cfg m ->
  handle_payment_proof cfg e m s =
    try_except (check_receipt cfg e m tariff)
               (emit LogError ;; emit (Answer ProcessingError))%run
               (with_trace s [Query (select_blocked user)]).
Proof.
  intros Hf Hb Ht [Hmime Hsize]. unfold handle_payment_proof.
  erewrite bind_return by (apply is_user_blocked_ok; exact Hf).
  rewrite Hb. unfold bind at 1. cbn [get_tariffs with_trace user_tariffs].
  rewrite Ht, Hmime, str_eqb_refl. cbn [negb].
  replace (MAX_PDF_SIZE cfg <? doc_file_size m) with false
    by (symmetry; apply Z.ltb_ge; exact Hsize).
  reflexivity.
Qed.

Local Abbreviation on_error := (emit LogError ;; emit (Answer ProcessingError))%run.

(** Once past the checks, the handler extracts the text and enters
    validation, whatever happens next. *)
Lemma check_receipt_enters_validation (s : state) :
  faults s = [] ->
  exists acts,
    trace (snd (try_except (check_receipt cfg e m tariff) on_error s))
    = trace s ++ before_validation ++ acts.
Proof.
  intros Hf. unfold try_except, check_receipt.
  rewrite !emit_bind, !with_trace_app. cbn [app].
  set (s1 := with_trace s [Answer Processing; GetFile; DownloadFile; ExtractText]).
  destruct (validate_receipt_frame file (pdf_text e) tariff s1 Hf) as [acts Hs2].
  destruct (validate_receipt cfg e file (pdf_text e) tariff s1) as [[v|x] s2] eqn:E;
    cbn [snd] in Hs2; subst s2.
  - erewrite bind_return by exact E.
    destruct (fst v).
    + destruct (transaction_id_of file) as [tid|].
      * unfold bind at 1. unfold bind at 1.
        rewrite log_transaction_ok by exact Hf. subst s1. run_steps.
        eexists. rewrite <- !app_assoc. cbn [app]. reflexivity.
      * unfold bind. subst s1. run_steps.
        eexists. rewrite <- !app_assoc. cbn [app]. reflexivity.
    + destruct (log_suspicious_receipt_ok e user (username_of m) file
                  (with_trace s1 (ValidateReceipt :: acts)) Hf) as (Hlog & _ & _).
      unfold bind at 1. unfold bind at 1. rewrite Hlog. cbv beta iota.
      destruct (SUSPICIOUS_RECEIPT_LIMIT cfg <=? _).
      * subst s1. run_steps.
        eexists. rewrite <- !app_assoc. cbn [app]. reflexivity.
      * unfold bind.
        destruct (dict_get tariff tariff_prices); subst s1; run_steps;
          eexists; rewrite <- !app_assoc; cbn [app]; reflexivity.
  - erewrite bind_raise by exact E. unfold bind. subst s1. run_steps.
    eexists. rewrite <- !app_assoc. cbn [app]. reflexivity.
Qed.

End Uploads.

(** ** The ledger commit *)

Section Ledger.

Variables (cfg : config).

Lemma upsert_transaction_new (now : Z) (tid : str) (user_id : Z)
    (t : list transaction_row) :
  existsb (same_receipt tid) t = false ->
  run_upsert_transaction now tid user_id t = t ++ [mk_transaction tid user_id now].
Proof. intros H. unfold run_upsert_transaction. now rewrite H. Qed.

Lemma upsert_transaction_known (now : Z) (tid : str) (user_id : Z)
    (t : list transaction_row) :
  existsb (same_receipt tid) t = true ->
  Forall2 (fun old new =>
             receipt_id new = receipt_id old
             /\ tx_user_id new = tx_user_id old
             /\ used_at new = if same_receipt tid old then now else used_at old)
          t (run_upsert_transaction now tid user_id t).
Proof.
  intros H. unfold run_upsert_transaction. rewrite H. clear H.
  induction t as [|r t IH]; [constructor|]. cbn [map].
  constructor; [|exact IH].
  destruct (same_receipt tid r); auto.
Qed.

Lemma in_ledger_after_commit (now : Z) (tid : str) (user_id : Z)
    (t : list transaction_row) :
  existsb (same_receipt tid) (run_upsert_transaction now tid user_id t) = true.
Proof.
  unfold run_upsert_transaction.
  destruct (existsb (same_receipt tid) t) eqn:E.
  - clear -E. induction t as [|r t IH]; [discriminate|].
    cbn [existsb map] in *. destruct (same_receipt tid r) eqn:Er.
    + unfold same_receipt, touch in *. cbn [receipt_id]. now rewrite Er.
    + rewrite Er. cbn [orb] in *. now apply IH.
  - rewrite existsb_app. cbn [existsb]. unfold same_receipt at 2.
    cbn [receipt_id]. rewrite str_eqb_refl. apply orb_true_r.
Qed.

(** C7, amended: the commit never rejects.  With no record for the
    transaction id it appends one, owned by the committing user and stamped
    with the time of the commit; with a record for it, that record keeps
    its owner and only its consumption timestamp is set to the time of the
    commit.  The other records and tables stay as they were. *)
Theorem ledger_commit_upserts (e : env) (tid : str) (user_id : Z) (s : state) :
  faults s = [] ->
  fst (log_transaction e tid user_id s) = Return tt
  /\ codes (db (snd (log_transaction e tid user_id s))) = codes (db s)
  /\ suspicious_receipts (db (snd (log_transaction e tid user_id s)))
     = suspicious_receipts (db s)
  /\ (in_ledger (db s) tid = false ->
        receipt_transactions (db (snd (log_transaction e tid user_id s)))
        = receipt_transactions (db s) ++ [mk_transaction tid user_id (db_now e)])
  /\ (in_ledger (db s) tid = true ->
        Forall2 (fun old new =>
                   receipt_id new = receipt_id old
                   /\ tx_user_id new = tx_user_id old
                   /\ used_at new = if same_receipt tid old then db_now e
                                    else used_at old)
                (receipt_transactions (db s))
                (receipt_transactions (db (snd (log_transaction e tid user_id s))))).
Proof.
  intros Hf. rewrite log_transaction_ok by exact Hf.
  cbn [fst snd db codes suspicious_receipts receipt_transactions].
  repeat split.
  - now apply upsert_transaction_new.
  - now apply upsert_transaction_known.
Qed.

End Ledger.

(** C7 as stated fails: user 2 commits the id that user 1 holds; the record
    is stamped anew and still belongs to user 1. *)
Lemma ledger_commit_keeps_owner_counterexample :
  receipt_transactions
    (db (snd (log_transaction (sample_env []) (py "98765") 2
                (mk_state (mk_database [] [mk_transaction (py "98765") 1 100] [] [])
                          ∅ [] []))))
  = [mk_transaction (py "98765") 1 1709634030].
Proof. vm_compute. reflexivity. Qed.

Lemma ledger_commit_upserts_witness :
  faults fresh = []
  /\ receipt_transactions (db (snd (log_transaction (sample_env []) (py "98765") 2 fresh)))
     = [mk_transaction (py "98765") 2 1709634030].
Proof.
  split; [reflexivity|].
  destruct (ledger_commit_upserts (sample_env []) (py "98765") 2 fresh eq_refl)
    as (_ & _ & _ & Hnew & _).
  exact (Hnew eq_refl).
Defined.

(** ** Sequences of uploads *)

Section Sequences.

Variables (cfg : config).

(** One accepted upload. *)
Lemma upload_accepted_step (e : env) (m : message) (tariff tid : str) (s : state) :
  faults s = [] ->
  blocked_in (db s) (from_user_id m) = false ->
  user_tariffs s !! from_user_id m = Some tariff ->
  well_formed_upload cfg m ->
  passes_first_three cfg e (pdf_text e) tariff ->
  transaction_id_of (doc_file_name m) = Some tid ->
  substring tid (pdf_text e) ->
  in_ledger (db s) tid = false ->
  exists acts,
    handle_payment_proof cfg e m s =
      (Return tt,
       mk_state
         (mk_database (codes (db s))
            (receipt_transactions (db s)
             ++ [mk_transaction tid (from_user_id m) (db_now e)])
            (suspicious_receipts (db s)) (payments (db s)))
         (user_tariffs s) []
         (trace s ++ acts ++ [Answer ReceiptAccepted; DeleteMessage])).
Proof.
  intros Hf Hb Ht Hw H3 Htid Hsub Hnew.
  rewrite (handle_payment_proof_checks cfg e m tariff s Hf Hb Ht Hw).
  set (s0 := with_trace s [Query (select_blocked (from_user_id m))]).
  assert (Hv : fst (validate_receipt cfg e (doc_file_name m) (pdf_text e) tariff
                      (with_trace s0 [Answer Processing; GetFile; DownloadFile; ExtractText]))
               = Return (true, Accepted)).
  { rewrite (validate_receipt_ledger cfg e _ _ _ tid) by assumption.
    subst s0. cbn [with_trace db]. now rewrite Hnew. }
  destruct (check_receipt_accepted cfg e m tariff s0 Accepted tid Hf Hv Htid)
    as [acts Hrun].
  unfold try_except. rewrite Hrun. subst s0. cbn [with_trace db user_tariffs trace].
  rewrite upsert_transaction_new by exact Hnew.
  exists (Query (select_blocked (from_user_id m))
          :: [Answer Processing; GetFile; DownloadFile; ExtractText; ValidateReceipt]
          ++ acts ++ [Query (upsert_transaction tid (from_user_id m))]).
  do 2 f_equal. repeat (rewrite <- app_assoc || cbn [app]). reflexivity.
Qed.

(** One refused upload. *)
Lemma upload_refused_step (e : env) (m : message) (tariff : str) (s : state)
    (why : reason) :
  faults s = [] ->
  blocked_in (db s) (from_user_id m) = false ->
  user_tariffs s !! from_user_id m = Some tariff ->
  well_formed_upload cfg m ->
  (forall s1, faults s1 = [] ->
     receipt_transactions (db s1) = receipt_transactions (db s) ->
     fst (validate_receipt cfg e (doc_file_name m) (pdf_text e) tariff s1)
     = Return (false, why)) ->
  exists acts price,
    handle_payment_proof cfg e m s =
      (Return tt,
       mk_state
         (mk_database (codes (db s)) (receipt_transactions (db s))
            (run_upsert_suspicious (from_user_id m) (username_of m) (doc_file_name m)
               (suspicious_receipts (db s)))
            (payments (db s)))
         (user_tariffs s) []
         (trace s ++ acts
          ++ [Answer (if SUSPICIOUS_RECEIPT_LIMIT cfg
                         <=? count_of (db s) (from_user_id m) (doc_file_name m) + 1
                      then BlockedForSuspicious
                      else ValidationFailed why price);
              DeleteMessage])).
Proof.
  intros Hf Hb Ht Hw Hv.
  rewrite (handle_payment_proof_checks cfg e m tariff s Hf Hb Ht Hw).
  set (s0 := with_trace s [Query (select_blocked (from_user_id m))]).
  destruct (check_receipt_refused cfg e m tariff s0 why Hf
              (Hv (with_trace s0 [Answer Processing; GetFile; DownloadFile; ExtractText])
                  Hf eq_refl))
    as (acts & price & Hp & Hrun).
  unfold try_except. rewrite Hrun. subst s0. cbn [with_trace db user_tariffs trace].
  exists (Query (select_blocked (from_user_id m))
          :: [Answer Processing; GetFile; DownloadFile; ExtractText; ValidateReceipt]
          ++ acts
          ++ [Query (upsert_suspicious (from_user_id m) (username_of m) (doc_file_name m));
              Query (select_receipt_count (from_user_id m) (doc_file_name m))]),
         price.
  do 2 f_equal. repeat (rewrite <- app_assoc || cbn [app]). reflexivity.
Qed.

End Sequences.

Section SameTransactionTwice.

Variables (cfg : config) (e1 e2 : env) (m1 m2 : message).
Variables (tariff1 tariff2 tid : str) (s : state).

Local Abbreviation first := (handle_payment_proof cfg e1 m1 s).
Local Abbreviation second := (handle_payment_proof cfg e2 m2 (snd first)).

(** C2: two receipts that carry the same transaction id, each of which
    would pass on its own, are submitted one after the other.  The first is
    accepted and its id committed to the ledger; validation of the second
    then returns transaction-already-used, and the second upload is
    answered as a failure and leaves the ledger as it was. *)
Theorem same_transaction_twice :
  faults s = [] ->
  blocked_in (db s) (from_user_id m1) = false ->
  blocked_in (db s) (from_user_id m2) = false ->
  user_tariffs s !! from_user_id m1 = Some tariff1 ->
  user_tariffs s !! from_user_id m2 = Some tariff2 ->
  well_formed_upload cfg m1 ->
  well_formed_upload cfg m2 ->
  transaction_id_of (doc_file_name m1) = Some tid ->
  transaction_id_of (doc_file_name m2) = Some tid ->
  passes_first_three cfg e1 (pdf_text e1) tariff1 ->
  passes_first_three cfg e2 (pdf_text e2) tariff2 ->
  substring tid (pdf_text e1) ->
  substring tid (pdf_text e2) ->
  in_ledger (db s) tid = false ->
  (fst first = Return tt
   /\ (exists acts,
         trace (snd first) = trace s ++ acts ++ [Answer ReceiptAccepted; DeleteMessage])
   /\ receipt_transactions (db (snd first))
      = receipt_transactions (db s)
        ++ [mk_transaction tid (from_user_id m1) (db_now e1)])
  /\ fst (validate_receipt cfg e2 (doc_file_name m2) (pdf_text e2) tariff2 (snd first))
     = Return (false, TransactionAlreadyUsed)
  /\ (fst second = Return tt
      /\ receipt_transactions (db (snd second)) = receipt_transactions (db (snd first))
      /\ exists acts price,
           trace (snd second)
           = trace (snd first) ++ acts
             ++ [Answer (if SUSPICIOUS_RECEIPT_LIMIT cfg
                            <=? count_of (db (snd first)) (from_user_id m2)
                                  (doc_file_name m2) + 1
                         then BlockedForSuspicious
                         else ValidationFailed TransactionAlreadyUsed price);
                 DeleteMessage]).
Proof.
  intros Hf Hb1 Hb2 Ht1 Ht2 Hw1 Hw2 Hid1 Hid2 Hp1 Hp2 Hsub1 Hsub2 Hnew.
  destruct (upload_accepted_step cfg e1 m1 tariff1 tid s
              Hf Hb1 Ht1 Hw1 Hp1 Hid1 Hsub1 Hnew) as [acts1 Hfirst].
  rewrite Hfirst. cbn [fst snd db trace receipt_transactions].
  set (s1 := mk_state _ _ _ _).
  assert (Hused : forall s', faults s' = [] ->
            receipt_transactions (db s') = receipt_transactions (db s1) ->
            fst (validate_receipt cfg e2 (doc_file_name m2) (pdf_text e2) tariff2 s')
            = Return (false, TransactionAlreadyUsed)).
  { intros s' Hf' Hl.
    rewrite (validate_receipt_ledger cfg e2 _ _ _ tid) by assumption.
    unfold in_ledger. rewrite Hl. subst s1. cbn [db receipt_transactions].
    rewrite existsb_app. cbn [existsb]. unfold same_receipt at 2.
    cbn [receipt_id]. now rewrite str_eqb_refl, orb_true_r. }
  split; [split; [reflexivity | split; [now exists acts1 | reflexivity]]|].
  split; [now apply Hused|].
  destruct (upload_refused_step cfg e2 m2 tariff2 s1 TransactionAlreadyUsed
              eq_refl Hb2 Ht2 Hw2 Hused) as (acts2 & price & Hsecond).
  rewrite Hsecond. cbn [fst snd db trace receipt_transactions].
  split; [reflexivity|]. split; [reflexivity|]. now exists acts2, price.
Qed.

End SameTransactionTwice.

Section ThreeFailures.

Variables (cfg : config) (e1 e2 e3 e4 : env) (m m4 : message).
Variables (tariff : str) (s : state).

Local Abbreviation user := (from_user_id m).
Local Abbreviation file := (doc_file_name m).
Local Abbreviation s1 := (snd (handle_payment_proof cfg e1 m s)).
Local Abbreviation s2 := (snd (handle_payment_proof cfg e2 m s1)).
Local Abbreviation s3 := (snd (handle_payment_proof cfg e3 m s2)).
Local Abbreviation s4 := (snd (handle_payment_proof cfg e4 m4 s3)).

(** C1, what the code does: three refused uploads of one file by one user
    under a limit of 3 bring the recorded count to 1, 2 and 3, and the third
    is answered with the blocked message; but no record gets the block
    flag, [is_user_blocked] still answers false, and a fourth upload of the
    user, under any file name, goes through text extraction and into
    validation. *)
Theorem three_failures_set_no_block :
  SUSPICIOUS_RECEIPT_LIMIT cfg = 3 ->
  faults s = [] ->
  blocked_in (db s) user = false ->
  count_of (db s) user file = 0 ->
  user_tariffs s !! user = Some tariff ->
  well_formed_upload cfg m ->
  refused_on cfg e1 file tariff (receipt_transactions (db s)) ->
  refused_on cfg e2 file tariff (receipt_transactions (db s)) ->
  refused_on cfg e3 file tariff (receipt_transactions (db s)) ->
  from_user_id m4 = user ->
  well_formed_upload cfg m4 ->
  (count_of (db s1) user file = 1
   /\ count_of (db s2) user file = 2
   /\ count_of (db s3) user file = 3)
  /\ (exists acts why price,
        trace s1 = trace s ++ acts ++ [Answer (ValidationFailed why price); DeleteMessage])
  /\ (exists acts why price,
        trace s2 = trace s1 ++ acts ++ [Answer (ValidationFailed why price); DeleteMessage])
  /\ (exists acts,
        trace s3 = trace s2 ++ acts ++ [Answer BlockedForSuspicious; DeleteMessage])
  /\ blocked_in (db s3) user = false
  /\ fst (is_user_blocked e4 user s3) = Return false
  /\ exists acts,
       trace s4 = trace s3
                  ++ [Query (select_blocked user); Answer Processing; GetFile;
                      DownloadFile; ExtractText; ValidateReceipt] ++ acts.
Proof.
  intros Hlimit Hf Hb Hc Ht Hw Hr1 Hr2 Hr3 Hu4 Hw4.
  (* one refused upload, from any state with the same ledger *)
  assert (Hstep : forall e s0,
    refused_on cfg e file tariff (receipt_transactions (db s)) ->
    faults s0 = [] -> blocked_in (db s0) user = false ->
    user_tariffs s0 !! user = Some tariff ->
    receipt_transactions (db s0) = receipt_transactions (db s) ->
    let s' := snd (handle_payment_proof cfg e m s0) in
    faults s' = [] /\ blocked_in (db s') user = false
    /\ user_tariffs s' !! user = Some tariff
    /\ receipt_transactions (db s') = receipt_transactions (db s)
    /\ count_of (db s') user file = count_of (db s0) user file + 1
    /\ exists acts why price,
         trace s' = trace s0 ++ acts
           ++ [Answer (if 3 <=? count_of (db s0) user file + 1
                       then BlockedForSuspicious else ValidationFailed why price);
               DeleteMessage]).
  { intros e s0 Hr Hf0 Hb0 Ht0 Hl0 s'.
    destruct (Hr (with_trace s0 [Query (select_blocked user); Answer Processing;
                                 GetFile; DownloadFile; ExtractText]) Hf0 Hl0)
      as [why Hwhy].
    assert (Hall : forall s1', faults s1' = [] ->
              receipt_transactions (db s1') = receipt_transactions (db s0) ->
              fst (validate_receipt cfg e file (pdf_text e) tariff s1')
              = Return (false, why)).
    { intros s1' Hf1 Hl1. rewrite <- Hwhy.
      apply validate_receipt_same_ledger; auto. }
    destruct (upload_refused_step cfg e m tariff s0 why Hf0 Hb0 Ht0 Hw Hall)
      as (acts & price & Hrun).
    destruct (log_suspicious_receipt_ok e user (username_of m) file s0 Hf0)
      as (_ & Hcount & Hblocked).
    subst s'. rewrite Hrun. cbn [snd faults db user_tariffs trace receipt_transactions].
    cbv zeta in Hcount, Hblocked.
    repeat split; auto.
    - now rewrite Hblocked.
    - exists acts, why, price. now rewrite Hlimit. }
  destruct (Hstep e1 s Hr1 Hf Hb Ht eq_refl) as (Hf1 & Hb1 & Ht1 & Hl1 & Hc1 & Htr1).
  destruct (Hstep e2 s1 Hr2 Hf1 Hb1 Ht1 Hl1) as (Hf2 & Hb2 & Ht2 & Hl2 & Hc2 & Htr2).
  destruct (Hstep e3 s2 Hr3 Hf2 Hb2 Ht2 Hl2) as (Hf3 & Hb3 & Ht3 & Hl3 & Hc3 & Htr3).
  rewrite Hc in Hc1. rewrite Hc1 in Hc2. rewrite Hc2 in Hc3.
  rewrite Hc in Htr1. rewrite Hc1 in Htr2. rewrite Hc2 in Htr3.
  change (0 + 1 + 1 + 1) with 3 in Hc3, Htr3.
  change (0 + 1 + 1) with 2 in Hc2, Htr2.
  change (0 + 1) with 1 in Hc1, Htr1.
  change (3 <=? 1) with false in Htr1.
  change (3 <=? 2) with false in Htr2.
  change (3 <=? 3) with true in Htr3.
  cbv beta iota in Htr1, Htr2, Htr3.
  split; [auto|]. split; [exact Htr1|]. split; [exact Htr2|].
  split; [destruct Htr3 as (acts & _ & _ & H); now exists acts|].
  split; [exact Hb3|].
  split; [rewrite is_user_blocked_ok by exact Hf3; cbn [fst]; now rewrite Hb3|].
  rewrite <- Hu4 in Hb3, Ht3.
  rewrite (handle_payment_proof_checks cfg e4 m4 tariff s3 Hf3 Hb3 Ht3 Hw4).
  destruct (check_receipt_enters_validation cfg e4 m4 tariff
              (with_trace s3 [Query (select_blocked (from_user_id m4))]) Hf3)
    as [acts Hacts].
  rewrite Hacts. cbn [with_trace trace]. exists acts.
  rewrite <- Hu4, <- !app_assoc. reflexivity.
Qed.

End ThreeFailures.

(** ** Access codes and sessions *)

Section Codes.

Lemma generate_code_ok (e : env) (user_id : Z) (tariff : str) (minutes : Z) (s : state) :
  faults s = [] ->
  dict_get tariff TARIFFS = Some minutes ->
  generate_code e user_id tariff s =
    (Return (token_hex_4 e, token_hex_8 e),
     mk_state
       (mk_database (codes (db s) ++ [issued_row e user_id minutes])
          (receipt_transactions (db s)) (suspicious_receipts (db s)) (payments (db s)))
       (user_tariffs s) []
       (trace s ++ [Query (insert_code (token_hex_4 e) user_id (token_hex_8 e)
                             minutes minutes)])).
Proof.
  intros Hf Hd. unfold generate_code. rewrite Hd. cbv zeta.
  unfold bind at 1. cbn [lookup_or_KeyError ret].
  erewrite bind_return by (apply execute_db_ok; exact Hf). reflexivity.
Qed.

Lemma insert_desc_In (c x : code_row) (l : list code_row) :
  In x (insert_desc c l) <-> x = c \/ In x l.
Proof.
  induction l as [|y l IH]; cbn [insert_desc In]; [intuition|].
  destruct (expires_at y <? expires_at c); cbn [In]; rewrite ?IH; intuition.
Qed.

(** Ordering the sessions keeps exactly the rows it is given. *)
Lemma order_by_expires_desc_In (x : code_row) (l : list code_row) :
  In x (order_by_expires_desc l) <-> In x l.
Proof.
  unfold order_by_expires_desc. induction l as [|c l IH]; [reflexivity|].
  cbn [fold_right In]. rewrite insert_desc_In, IH. intuition.
Qed.

Lemma line_of_session_row (now : Z) (c : code_row) (s : state) :
  line_of (session_row now c) s = (Return (session_line_of now c), s).
Proof.
  unfold line_of, session_row, session_line_of, status_of.
  cbn [row_get String.eqb Ascii.eqb Bool.eqb].
  destruct (now <? expires_at c); reflexivity.
Qed.

Lemma lines_of_session_rows (now : Z) (l : list code_row) (s : state) :
  lines_of (map (session_row now) l) s = (Return (map (session_line_of now) l), s).
Proof.
  induction l as [|c l IH]; [reflexivity|]. cbn [map lines_of].
  erewrite bind_return by apply line_of_session_row.
  erewrite bind_return by exact IH. reflexivity.
Qed.

(** The sessions listing of a user who has a row in [codes]. *)
Lemma handle_my_sessions_ok (now_e : env) (user_id : Z) (c : code_row) (s : state) :
  faults s = [] ->
  In c (codes (db s)) -> code_user_id c = user_id ->
  handle_my_sessions now_e user_id s =
    (Return tt,
     with_trace s
       [Query (select_sessions user_id);
        Answer (Sessions
          (map (session_line_of (db_now now_e))
             (order_by_expires_desc
                (List.filter (fun c => code_user_id c =? user_id) (codes (db s))))))]).
Proof.
  intros Hf Hin Hu. unfold handle_my_sessions.
  erewrite bind_return by (apply execute_db_ok; exact Hf).
  cbn [run fst snd fetched].
  assert (Hrows : In c (order_by_expires_desc
            (List.filter (fun c => code_user_id c =? user_id) (codes (db s))))).
  { apply order_by_expires_desc_In, filter_In. split; [exact Hin|].
    now apply Z.eqb_eq. }
  assert (Htruthy : truthy (PyRows (map (session_row (db_now now_e))
            (order_by_expires_desc
               (List.filter (fun c => code_user_id c =? user_id) (codes (db s))))))
          = true).
  { destruct (order_by_expires_desc _); [contradiction | reflexivity]. }
  rewrite Htruthy. cbn [negb].
  erewrite bind_return by apply lines_of_session_rows.
  unfold emit, with_trace. cbn [db user_tariffs faults trace].
  rewrite Hf, <- app_assoc. reflexivity.
Qed.

Variables (e now_e : env) (user_id : Z) (s : state).

Local Abbreviation issue := (generate_code e user_id (py "2 часа") s).
Local Abbreviation T := (db_now e).
Local Abbreviation now := (db_now now_e).

(** C9: a code issued at store time [T] under the 120-minute tariff is
    written with expiry [T] plus 120 minutes.  In every later state that
    holds the row, the sessions listing (at store time [now]) has the line
    of that code, marked active exactly when [now] is before [T] plus 120
    minutes, so expired from the boundary on; the code is shown only while
    active. *)
Theorem session_active_until_expiry :
  faults s = [] ->
  fst issue = Return (token_hex_4 e, token_hex_8 e)
  /\ codes (db (snd issue)) = codes (db s) ++ [issued_row e user_id 120]
  /\ expires_at (issued_row e user_id 120) = T + 120 * 60
  /\ forall later : state,
       faults later = [] ->
       In (issued_row e user_id 120) (codes (db later)) ->
       exists lines,
         handle_my_sessions now_e user_id later =
           (Return tt,
            with_trace later [Query (select_sessions user_id); Answer (Sessions lines)])
         /\ In (session_line_of now (issued_row e user_id 120)) lines
         /\ (forall l, In l lines -> line_active l = true <-> now < line_until l)
         /\ (line_active (session_line_of now (issued_row e user_id 120)) = true
             <-> now < T + 120 * 60)
         /\ (line_active (session_line_of now (issued_row e user_id 120)) = false
             <-> T + 120 * 60 <= now).
Proof.
  intros Hf.
  rewrite (generate_code_ok e user_id (py "2 часа") 120 s Hf eq_refl).
  cbn [fst snd db codes]. repeat (split; [reflexivity|]).
  intros later Hfl Hin.
  exists (map (session_line_of now)
            (order_by_expires_desc
               (List.filter (fun c => code_user_id c =? user_id) (codes (db later))))).
  split; [|split; [|split; [|split]]].
  - now apply (handle_my_sessions_ok now_e user_id (issued_row e user_id 120)).
  - apply in_map, order_by_expires_desc_In, filter_In. split; [exact Hin|].
    cbn [issued_row code_user_id]. apply Z.eqb_refl.
  - intros l Hl. apply in_map_iff in Hl as (c & <- & _).
    cbn [session_line_of line_active line_until]. apply Z.ltb_lt.
  - cbn [session_line_of line_active issued_row expires_at]. apply Z.ltb_lt.
  - cbn [session_line_of line_active issued_row expires_at]. apply Z.ltb_ge.
Qed.

End Codes.

Section FreeTariff.

Variables (e : env) (user_id : Z) (s : state).

Local Abbreviation by_button := (process_tariff e user_id (py "tariff_2 минуты") s).
Local Abbreviation by_command := (cmd_check_payment e user_id s).
Local Abbreviation insert_free :=
  (Query (insert_code (token_hex_4 e) user_id (token_hex_8 e) 2 2)).
Local Abbreviation with_free_code :=
  (mk_database (codes (db s) ++ [issued_row e user_id 2])
     (receipt_transactions (db s)) (suspicious_receipts (db s)) (payments (db s))).

(** The button of the free tariff, when the store answers. *)
Lemma process_tariff_free_ok :
  faults s = [] ->
  by_button =
    (Return tt,
     mk_state with_free_code (<[user_id := py "2 минуты"]> (user_tariffs s)) []
       (trace s ++ [CallbackAnswer; insert_free;
                    EditText (FreeCode (token_hex_4 e) (py "2 минуты") 2);
                    NotifyWebsite user_id (token_hex_8 e)])).
Proof.
  intros Hf. unfold process_tariff. rewrite emit_bind.
  change (remove_all (py "tariff_") 0 (py "tariff_2 минуты")) with (py "2 минуты").
  cbv zeta. unfold get_tariffs, put_tariffs.
  unfold bind at 1. cbv beta iota. unfold bind at 1. cbv beta iota.
  rewrite str_eqb_refl. unfold with_trace. cbn [db user_tariffs faults trace].
  erewrite bind_return
    by (apply (generate_code_ok e user_id (py "2 минуты") 2); [exact Hf | reflexivity]).
  cbn [fst snd]. change (dict_get (py "2 минуты") TARIFFS) with (Some 2).
  unfold bind. run_steps.
  repeat (rewrite <- app_assoc || (progress cbn [app])). reflexivity.
Qed.

(** [/checkpayment] with the free tariff selected, when the store answers. *)
Lemma cmd_check_payment_free_ok :
  faults s = [] ->
  user_tariffs s !! user_id = Some (py "2 минуты") ->
  by_command =
    (Return tt,
     mk_state with_free_code (user_tariffs s) []
       (trace s ++ [insert_free;
                    Answer (AccessCode (token_hex_4 e) (py "2 минуты") 2)])).
Proof.
  intros Hf Ht. unfold cmd_check_payment. unfold get_tariffs.
  unfold bind at 1. cbv beta iota. rewrite Ht, str_eqb_refl.
  erewrite bind_return
    by (apply (generate_code_ok e user_id (py "2 минуты") 2); [exact Hf | reflexivity]).
  cbn [fst snd]. change (dict_get (py "2 минуты") TARIFFS) with (Some 2).
  unfold bind. run_steps.
  repeat (rewrite <- app_assoc || (progress cbn [app])). reflexivity.
Qed.

(** C3, what the code does: for a user who already has a row in [codes]
    (so [is_new_user] is false), both the tariff button of the free tariff
    and [/checkpayment] with the free tariff selected write a new
    two-minute code, and neither queries [codes] before doing so. *)
Theorem free_code_issued_to_returning_user :
  faults s = [] ->
  has_codes (db s) user_id = true ->
  fst (is_new_user e user_id s) = Return false
  /\ (codes (db (snd by_button)) = codes (db s) ++ [issued_row e user_id 2]
      /\ trace (snd by_button)
         = trace s ++ [CallbackAnswer; insert_free;
                       EditText (FreeCode (token_hex_4 e) (py "2 минуты") 2);
                       NotifyWebsite user_id (token_hex_8 e)])
  /\ (user_tariffs s !! user_id = Some (py "2 минуты") ->
      codes (db (snd by_command)) = codes (db s) ++ [issued_row e user_id 2]
      /\ trace (snd by_command)
         = trace s ++ [insert_free;
                       Answer (AccessCode (token_hex_4 e) (py "2 минуты") 2)]).
Proof.
  intros Hf Hc. split; [|split].
  - rewrite is_new_user_ok by exact Hf. cbn [fst]. now rewrite Hc.
  - rewrite process_tariff_free_ok by exact Hf. split; reflexivity.
  - intros Ht. rewrite cmd_check_payment_free_ok by assumption. split; reflexivity.
Qed.

End FreeTariff.

(** ** The handlers on the sample inputs *)

Lemma free_code_issued_to_returning_user_witness :
  faults returning_user = []
  /\ has_codes (db returning_user) 7 = true
  /\ length (codes (db (snd (cmd_check_payment (sample_env []) 7 returning_user)))) = 2%nat.
Proof.
  split; [reflexivity|]. split; [reflexivity|].
  destruct (free_code_issued_to_returning_user (sample_env []) 7 returning_user
              eq_refl eq_refl) as (_ & _ & Hcmd).
  destruct (Hcmd eq_refl) as [Hcodes _]. rewrite Hcodes. reflexivity.
Defined.

(** A user with no code takes the free tariff by the button, then sends
    [/checkpayment]: two free codes are written. *)
Example free_code_twice :
  codes (db (snd (cmd_check_payment (sample_env []) 7
                    (snd (process_tariff (sample_env []) 7 (py "tariff_2 минуты") fresh)))))
  = [mk_code (py "a1b2c3d4") 7 (py "00112233aabbccdd") 2 1709634150;
     mk_code (py "a1b2c3d4") 7 (py "00112233aabbccdd") 2 1709634150].
Proof. vm_compute. reflexivity. Qed.

Lemma store_failure_is_swallowed_witness :
  faults blocked_during_outage = [true]
  /\ blocked_in (db blocked_during_outage) 7 = true
  /\ fst (is_user_blocked (sample_env []) 7 blocked_during_outage) = Return false.
Proof.
  split; [reflexivity|]. split; [reflexivity|].
  apply (store_failure_is_swallowed (sample_env []) (select_blocked 7) true false false
           blocked_during_outage [] 7 eq_refl).
Defined.

Lemma upload_refused_before_validation_witness :
  user_tariffs fresh !! 7 = None
  /\ db (snd (handle_payment_proof sample_cfg (sample_env good_text)
                (upload 7 good_file) fresh)) = db fresh.
Proof.
  split; [reflexivity|].
  apply (upload_refused_before_validation sample_cfg (sample_env good_text)
           (upload 7 good_file) fresh).
  right. left. reflexivity.
Defined.

Lemma session_active_until_expiry_witness :
  faults fresh = []
  /\ codes (db (snd (generate_code (sample_env []) 7 (py "2 часа") fresh)))
     = [issued_row (sample_env []) 7 120].
Proof.
  split; [reflexivity|].
  destruct (session_active_until_expiry (sample_env []) (sample_env []) 7 fresh eq_refl)
    as (_ & Hcodes & _).
  exact Hcodes.
Defined.

Lemma sample_well_formed (user_id : Z) (file : str) :
  well_formed_upload sample_cfg (upload user_id file).
Proof. split; [reflexivity | vm_compute; discriminate]. Defined.

Lemma same_transaction_twice_witness :
  in_ledger (db two_users) (py "98765") = false
  /\ fst (validate_receipt sample_cfg (sample_env good_text)
            (doc_file_name (upload 8 good_file)) (pdf_text (sample_env good_text))
            (py "1 час")
            (snd (handle_payment_proof sample_cfg (sample_env good_text)
                    (upload 7 good_file) two_users)))
     = Return (false, TransactionAlreadyUsed).
Proof.
  split; [reflexivity|].
  assert (Hsub : substring (py "98765") good_text)
    by (apply str_in_spec; vm_compute; reflexivity).
  assert (H7 : user_tariffs two_users !! from_user_id (upload 7 good_file)
               = Some (py "1 час")) by (vm_compute; reflexivity).
  assert (H8 : user_tariffs two_users !! from_user_id (upload 8 good_file)
               = Some (py "1 час")) by (vm_compute; reflexivity).
  assert (Hid : transaction_id_of (doc_file_name (upload 7 good_file))
                = Some (py "98765")) by (vm_compute; reflexivity).
  destruct (same_transaction_twice sample_cfg (sample_env good_text) (sample_env good_text)
              (upload 7 good_file) (upload 8 good_file) (py "1 час") (py "1 час")
              (py "98765") two_users
              eq_refl eq_refl eq_refl H7 H8
              (sample_well_formed 7 good_file) (sample_well_formed 8 good_file)
              Hid Hid sample_passes_first_three sample_passes_first_three
              Hsub Hsub eq_refl) as (_ & Hused & _).
  exact Hused.
Defined.

Lemma empty_text_refused (file : str) (ledger : list transaction_row) :
  refused_on sample_cfg (sample_env []) file (py "1 час") ledger.
Proof.
  intros s _ _. exists (AmountMismatch 490).
  rewrite validate_receipt_chain. reflexivity.
Defined.

Lemma three_failures_set_no_block_witness :
  SUSPICIOUS_RECEIPT_LIMIT sample_cfg = 3
  /\ count_of (db (chosen 7 (py "1 час"))) 7 good_file = 0
  /\ blocked_in
       (db (snd (handle_payment_proof sample_cfg (sample_env []) (upload 7 good_file)
          (snd (handle_payment_proof sample_cfg (sample_env []) (upload 7 good_file)
             (snd (handle_payment_proof sample_cfg (sample_env []) (upload 7 good_file)
                (chosen 7 (py "1 час")))))))))
       7 = false.
Proof.
  split; [reflexivity|]. split; [reflexivity|].
  apply (three_failures_set_no_block sample_cfg
           (sample_env []) (sample_env []) (sample_env []) (sample_env good_text)
           (upload 7 good_file) (upload 7 (py "other_555.pdf")) (py "1 час")
           (chosen 7 (py "1 час"))
           eq_refl eq_refl eq_refl eq_refl eq_refl (sample_well_formed 7 good_file)
           (empty_text_refused good_file []) (empty_text_refused good_file [])
           (empty_text_refused good_file [])
           eq_refl (sample_well_formed 7 (py "other_555.pdf"))).
Defined.

(** Three unreadable uploads of one file, then a well-formed receipt under
    another file name: the counts are 1, 2, 3, the user is told of the
    block, and the fourth upload is validated and accepted. *)
Example fourth_upload_is_accepted :
  let refuse := handle_payment_proof sample_cfg (sample_env []) (upload 7 good_file) in
  let s3 := snd (refuse (snd (refuse (snd (refuse (chosen 7 (py "1 час"))))))) in
  let s4 := snd (handle_payment_proof sample_cfg (sample_env good_text)
                   (upload 7 (py "other_98765.pdf")) s3) in
  suspicious_receipts (db s3)
    = [mk_suspicious 7 (py "user") good_file 3 false]
  /\ In (Answer BlockedForSuspicious) (trace s3)
  /\ ~ In (Answer AccessBlocked) (trace s4)
  /\ In (Answer ReceiptAccepted) (trace s4)
  /\ receipt_transactions (db s4) = [mk_transaction (py "98765") 7 1709634030].
Proof.
  vm_compute. repeat split; try tauto.
  intros H. repeat (destruct H as [H|H]; [discriminate|]). exact H.
Qed.

(** * What the handlers keep *)

Section Keeping.

Variables (user_id : Z) (R : state -> state -> Prop).
Hypothesis HR : step_closed user_id R.

Lemma keeps_ret {A} (a : A) : keeps R (ret a).
Proof. intros s. apply (sc_refl _ _ HR). Qed.

Lemma keeps_raise {A} (x : exn) : keeps R (@raise A x).
Proof. intros s. apply (sc_refl _ _ HR). Qed.

Lemma keeps_emit (a : action) : keeps R (emit a).
Proof. intros s. apply (sc_trace _ _ HR). Qed.

Lemma keeps_get_tariffs : keeps R get_tariffs.
Proof. intros s. apply (sc_refl _ _ HR). Qed.

Lemma keeps_lookup {V} (o : option V) : keeps R (lookup_or_KeyError o).
Proof. destruct o; [apply keeps_ret | apply keeps_raise]. Qed.

Lemma keeps_bind {A B} (m : M A) (k : A -> M B) :
  keeps R m -> (forall a, keeps R (k a)) -> keeps R (bind m k).
Proof.
  intros Hm Hk s. unfold bind. specialize (Hm s).
  destruct (m s) as [[a|x] s1]; cbn [snd] in *; [|exact Hm].
  exact (sc_trans _ _ HR _ _ _ Hm (Hk a s1)).
Qed.

Lemma keeps_try_except {A} (m h : M A) :
  keeps R m -> keeps R h -> keeps R (try_except m h).
Proof.
  intros Hm Hh s. unfold try_except. specialize (Hm s).
  destruct (m s) as [[a|x] s1]; cbn [snd] in *; [exact Hm|].
  exact (sc_trans _ _ HR _ _ _ Hm (Hh s1)).
Qed.

(** Setting or clearing the selection of the user the handler runs for. *)
Lemma keeps_select {B} (tariff : str) (k : M B) :
  keeps R k ->
  keeps R (bind get_tariffs
             (fun t => bind (put_tariffs (<[user_id := tariff]> t)) (fun _ => k))).
Proof.
  intros Hk s. unfold bind, get_tariffs, put_tariffs.
  exact (sc_trans _ _ HR _ _ _ (sc_select _ _ HR s tariff) (Hk _)).
Qed.

Lemma keeps_clear {B} (k : M B) :
  keeps R k ->
  keeps R (bind get_tariffs
             (fun t => bind (put_tariffs (delete user_id t)) (fun _ => k))).
Proof.
  intros Hk s. unfold bind, get_tariffs, put_tariffs.
  exact (sc_trans _ _ HR _ _ _ (sc_clear _ _ HR s) (Hk _)).
Qed.

Lemma keeps_execute_db (e : env) (q : statement) (f1 f2 f3 : bool) :
  keeps R (execute_db e q f1 f2 f3).
Proof.
  intros [d t f tr]. unfold execute_db, bind, emit, next_fault, get_db, put_db, ret.
  cbn [db user_tariffs faults trace].
  pose proof (sc_trace _ _ HR (mk_state d t f tr) (Query q)) as H1.
  cbn [db user_tariffs faults trace] in H1.
  refine (sc_trans _ _ HR _ _ _ H1 _).
  destruct f as [|[] rest]; cbn [db user_tariffs faults trace snd].
  - pose proof (sc_run _ _ HR (mk_state d t [] (tr ++ [Query q])) (db_now e) q) as H2.
    cbn [db user_tariffs faults trace] in H2.
    now destruct (run (db_now e) q d) as [d' rows].
  - pose proof (sc_faults _ _ HR (mk_state d t (true :: rest) (tr ++ [Query q])) rest)
      as H2.
    pose proof (sc_trace _ _ HR (mk_state d t rest (tr ++ [Query q])) LogError) as H3.
    cbn [db user_tariffs faults trace] in H2, H3.
    exact (sc_trans _ _ HR _ _ _ H2 H3).
  - pose proof (sc_faults _ _ HR (mk_state d t (false :: rest) (tr ++ [Query q])) rest)
      as H2.
    pose proof (sc_run _ _ HR (mk_state d t rest (tr ++ [Query q])) (db_now e) q) as H3.
    cbn [db user_tariffs faults trace] in H2, H3.
    refine (sc_trans _ _ HR _ _ _ H2 _).
    now destruct (run (db_now e) q d) as [d' rows].
Qed.

End Keeping.

(** Decomposes a goal [keeps R m] along the structure of [m]. *)
Ltac keeps_step HR :=
  first
    [ apply (keeps_ret _ _ HR)
    | apply (keeps_raise _ _ HR)
    | apply (keeps_emit _ _ HR)
    | apply (keeps_lookup _ _ HR)
    | apply (keeps_execute_db _ _ HR)
    | apply (keeps_get_tariffs _ _ HR)
    | apply (keeps_bind _ _ HR); [|intros ?]
    | apply (keeps_try_except _ _ HR)
    | match goal with
      | |- keeps _ (if ?c then _ else _) => destruct c
      | |- keeps _ (match ?x with _ => _ end) => destruct x
      | |- keeps _ (let (_, _) := ?x in _) => destruct x
      end ].

Ltac keeps_all HR := repeat keeps_step HR.

Section KeepingHandlers.

Variables (user_id : Z) (R : state -> state -> Prop).
Hypothesis HR : step_closed user_id R.
Variables (cfg : config) (e : env).

Lemma keeps_validate_receipt (file text tariff : str) :
  keeps R (validate_receipt cfg e file text tariff).
Proof. unfold validate_receipt. keeps_all HR. Qed.

Lemma keeps_log_suspicious_receipt (u : Z) (username file : str) :
  keeps R (log_suspicious_receipt e u username file).
Proof. unfold log_suspicious_receipt. keeps_all HR. Qed.

Lemma keeps_log_transaction (tid : str) (u : Z) :
  keeps R (log_transaction e tid u).
Proof. unfold log_transaction. keeps_all HR. Qed.

Lemma keeps_generate_code (u : Z) (tariff : str) :
  keeps R (generate_code e u tariff).
Proof. unfold generate_code. cbv zeta. keeps_all HR. Qed.

Lemma keeps_is_user_blocked (u : Z) : keeps R (is_user_blocked e u).
Proof. unfold is_user_blocked. keeps_all HR. Qed.

Lemma keeps_show_tariffs (u : Z) : keeps R (show_tariffs e u).
Proof. unfold show_tariffs, get_tariff_keyboard, is_new_user. keeps_all HR. Qed.

Lemma keeps_lines_of (rs : list row) : keeps R (lines_of rs).
Proof.
  induction rs as [|r rs IH]; cbn [lines_of]; [apply (keeps_ret _ _ HR)|].
  apply (keeps_bind _ _ HR); [unfold line_of; keeps_all HR|].
  intros l. apply (keeps_bind _ _ HR); [exact IH|]. intros ls. apply (keeps_ret _ _ HR).
Qed.

Lemma keeps_handle_my_sessions (u : Z) : keeps R (handle_my_sessions e u).
Proof.
  unfold handle_my_sessions.
  apply (keeps_bind _ _ HR); [apply (keeps_execute_db _ _ HR)|]. intros sessions.
  destruct (negb (truthy sessions)); [apply (keeps_emit _ _ HR)|].
  destruct sessions; try apply (keeps_raise _ _ HR).
  apply (keeps_bind _ _ HR); [apply keeps_lines_of|]. intros ls.
  apply (keeps_emit _ _ HR).
Qed.

Lemma keeps_check_receipt (m : message) (tariff : str) :
  keeps R (check_receipt cfg e m tariff).
Proof.
  unfold check_receipt. cbv zeta.
  do 4 (apply (keeps_bind _ _ HR); [apply (keeps_emit _ _ HR)|intros _]).
  apply (keeps_bind _ _ HR); [apply keeps_validate_receipt|]. intros v.
  apply (keeps_bind _ _ HR); [|intros _; apply (keeps_emit _ _ HR)].
  destruct (fst v).
  - destruct (transaction_id_of (doc_file_name m)); [|apply (keeps_raise _ _ HR)].
    apply (keeps_bind _ _ HR); [apply keeps_log_transaction|].
    intros _. apply (keeps_emit _ _ HR).
  - apply (keeps_bind _ _ HR); [apply keeps_log_suspicious_receipt|]. intros count.
    keeps_all HR.
Qed.

Lemma keeps_handle_payment_proof (m : message) :
  keeps R (handle_payment_proof cfg e m).
Proof.
  unfold handle_payment_proof. cbv zeta.
  apply (keeps_bind _ _ HR); [apply keeps_is_user_blocked|]. intros blocked.
  destruct blocked; [apply (keeps_emit _ _ HR)|].
  apply (keeps_bind _ _ HR); [apply (keeps_get_tariffs _ _ HR)|]. intros t.
  destruct (t !! from_user_id m); [|apply (keeps_emit _ _ HR)].
  apply (keeps_try_except _ _ HR); [|keeps_all HR].
  destruct (negb _); [apply (keeps_emit _ _ HR)|].
  destruct (_ <? _); [apply (keeps_emit _ _ HR)|].
  apply keeps_check_receipt.
Qed.

Lemma keeps_process_tariff (data : str) :
  keeps R (process_tariff e user_id data).
Proof.
  unfold process_tariff. cbv zeta.
  apply (keeps_bind _ _ HR); [apply (keeps_emit _ _ HR)|]. intros _.
  apply (keeps_select _ _ HR).
  destruct (str_eqb _ _).
  - apply (keeps_bind _ _ HR); [apply keeps_generate_code|]. intros p. keeps_all HR.
  - keeps_all HR.
Qed.

Lemma keeps_cmd_check_payment : keeps R (cmd_check_payment e user_id).
Proof.
  unfold cmd_check_payment.
  apply (keeps_bind _ _ HR); [apply (keeps_get_tariffs _ _ HR)|]. intros t.
  destruct (t !! user_id) as [tariff|]; [|apply (keeps_emit _ _ HR)].
  destruct (str_eqb _ _).
  - apply (keeps_bind _ _ HR); [apply keeps_generate_code|]. intros p. keeps_all HR.
  - apply (keeps_bind _ _ HR); [apply (keeps_execute_db _ _ HR)|]. intros has.
    destruct (negb _); [apply (keeps_emit _ _ HR)|].
    apply (keeps_bind _ _ HR); [apply keeps_generate_code|]. intros p.
    apply (keeps_bind _ _ HR); [apply (keeps_lookup _ _ HR)|]. intros amt.
    apply (keeps_bind _ _ HR).
    { destruct (0 <? amt); [|apply (keeps_ret _ _ HR)].
      unfold log_payment. keeps_all HR. }
    intros _.
    apply (keeps_bind _ _ HR); [apply (keeps_lookup _ _ HR)|]. intros minutes.
    apply (keeps_bind _ _ HR); [apply (keeps_emit _ _ HR)|]. intros _.
    apply (keeps_clear _ _ HR). apply (keeps_emit _ _ HR).
Qed.

End KeepingHandlers.

(** Every handler keeps what the elementary changes for its user keep. *)
Lemma dispatch_keeps (cfg : config) (e : env) (ev : event)
    (R : state -> state -> Prop) :
  step_closed (event_user ev) R -> keeps R (dispatch cfg e ev).
Proof.
  intros HR. destruct ev; cbn [dispatch event_user] in *.
  - now apply (keeps_handle_payment_proof (from_user_id m)).
  - now apply keeps_process_tariff.
  - now apply keeps_cmd_check_payment.
  - now apply (keeps_handle_my_sessions user_id).
  - now apply (keeps_show_tariffs user_id).
Qed.

(** So does every sequence of events, for what the changes of every user
    keep. *)
Lemma run_events_keeps (cfg : config) (R : state -> state -> Prop) :
  (forall u, step_closed u R) ->
  forall evs s, R s (run_events cfg evs s).
Proof.
  intros HR evs. induction evs as [|[e ev] evs IH]; intros s; cbn [run_events].
  - apply (sc_refl _ _ (HR 0)).
  - exact (sc_trans _ _ (HR 0) _ _ _
             (dispatch_keeps cfg e ev R (HR _) s) (IH _)).
Qed.

(** ** Relations between the store before and after *)

Section StoreRelations.

Lemma on_db_closed (Rd : database -> database -> Prop) :
  (forall d, Rd d d) ->
  (forall a b c, Rd a b -> Rd b c -> Rd a c) ->
  (forall now q d, Rd d (fst (run now q d))) ->
  forall u, step_closed u (on_db Rd).
Proof.
  intros Hrefl Htrans Hrun u. unfold on_db.
  split; cbn [db]; intros; eauto.
Qed.

(** A statement leaves the block flags of every user as they were. *)
Lemma run_blocked (now : Z) (q : statement) (d : database) (u : Z) :
  blocked_in (fst (run now q d)) u = blocked_in d u.
Proof.
  destruct q; cbn [run fst]; try reflexivity.
  unfold blocked_in. cbn [suspicious_receipts]. apply blocked_upsert_suspicious.
Qed.

Lemma upsert_transaction_owners (now : Z) (tid : str) (u : Z) (t : list transaction_row) :
  exists k, map id_and_owner (run_upsert_transaction now tid u t)
            = map id_and_owner t ++ k.
Proof.
  unfold run_upsert_transaction. destruct (existsb (same_receipt tid) t).
  - exists []. rewrite app_nil_r, map_map. apply map_ext.
    intros r. now destruct (same_receipt tid r).
  - eexists. now rewrite map_app.
Qed.

(** A statement keeps every ledger record with its id and owner, in place;
    it can only append. *)
Lemma run_ledger (now : Z) (q : statement) (d : database) :
  exists k, map id_and_owner (receipt_transactions (fst (run now q d)))
            = map id_and_owner (receipt_transactions d) ++ k.
Proof.
  destruct q; cbn [run fst receipt_transactions];
    try (exists []; now rewrite app_nil_r).
  apply upsert_transaction_owners.
Qed.

(** A statement keeps the rows of [codes] and [payments]; it can only
    append. *)
Lemma run_codes (now : Z) (q : statement) (d : database) :
  (exists k, codes (fst (run now q d)) = codes d ++ k)
  /\ (exists k, payments (fst (run now q d)) = payments d ++ k).
Proof.
  destruct q; cbn [run fst codes payments]; split;
    try (exists []; now rewrite app_nil_r); eexists; reflexivity.
Qed.

Lemma key_eq_dec (u u' : Z) (f f' : str) (r : suspicious_row) :
  same_suspicious_key u f r = true -> same_suspicious_key u' f' r = true ->
  u = u' /\ f = f'.
Proof.
  unfold same_suspicious_key. rewrite !andb_true_iff, !Z.eqb_eq, !str_eqb_eq.
  intros [<- <-] [<- <-]. now split.
Qed.

(** The upsert of one key leaves the records of every other key as they
    are. *)
Lemma filter_other_key (u u' : Z) (name f f' : str) (t : list suspicious_row) :
  same_suspicious_key u f (new_suspicious u' name f') = false ->
  List.filter (same_suspicious_key u f) (run_upsert_suspicious u' name f' t)
  = List.filter (same_suspicious_key u f) t.
Proof.
  intros Hnew. unfold run_upsert_suspicious.
  destruct (existsb (same_suspicious_key u' f') t).
  - induction t as [|r t IH]; [reflexivity|]. cbn [map List.filter].
    destruct (same_suspicious_key u' f' r) eqn:E'.
    + rewrite same_key_bump.
      destruct (same_suspicious_key u f r) eqn:E; [|exact IH].
      exfalso. destruct (key_eq_dec u u' f f' r E E') as [-> ->].
      unfold same_suspicious_key, new_suspicious in Hnew.
      cbn [sr_user_id file_name] in Hnew.
      now rewrite Z.eqb_refl, str_eqb_refl in Hnew.
    + destruct (same_suspicious_key u f r); [now rewrite IH | exact IH].
  - rewrite List.filter_app. cbn [List.filter]. rewrite Hnew. now rewrite app_nil_r.
Qed.

Lemma count_after_upsert (u u' : Z) (name f f' : str) (t : list suspicious_row) :
  match List.filter (same_suspicious_key u f) t with
  | [] => 0 | r :: _ => receipt_count r end
  <= match List.filter (same_suspicious_key u f)
                       (run_upsert_suspicious u' name f' t) with
     | [] => 0 | r :: _ => receipt_count r end
  \/ (List.filter (same_suspicious_key u f) t = []
      /\ List.filter (same_suspicious_key u f) (run_upsert_suspicious u' name f' t)
         = [new_suspicious u' name f']).
Proof.
  destruct (same_suspicious_key u f (new_suspicious u' name f')) eqn:Hnew.
  - (* the same key *)
    assert (Hk : u = u' /\ f = f').
    { apply (key_eq_dec u u' f f' (new_suspicious u' name f') Hnew).
      unfold same_suspicious_key, new_suspicious. cbn [sr_user_id file_name].
      now rewrite Z.eqb_refl, str_eqb_refl. }
    destruct Hk as [<- <-]. rewrite filter_upsert_suspicious.
    destruct (List.filter (same_suspicious_key u f) t) as [|r l]; [now right|].
    left. cbn [map bump_count receipt_count]. lia.
  - (* another key *)
    left. rewrite (filter_other_key u u' name f f' t Hnew). lia.
Qed.

(** A statement lowers no failure count. *)
Lemma run_counts (now : Z) (q : statement) (d : database) (u : Z) (f : str) :
  count_of d u f <= count_of (fst (run now q d)) u f.
Proof.
  destruct q; cbn [run fst]; try reflexivity.
  unfold count_of in *. cbn [suspicious_receipts].
  destruct (count_after_upsert u user_id username f file (suspicious_receipts d))
    as [H | [H1 H2]]; [exact H|].
  rewrite H1, H2. cbn [new_suspicious receipt_count]. lia.
Qed.

Lemma not_in_ledger (tid : str) (t : list transaction_row) :
  existsb (same_receipt tid) t = false -> ~ In tid (map receipt_id t).
Proof.
  intros H Hin. apply in_map_iff in Hin as (r & <- & Hr).
  assert (existsb (same_receipt (receipt_id r)) t = true).
  { apply existsb_exists. exists r. split; [exact Hr|].
    unfold same_receipt. apply str_eqb_refl. }
  congruence.
Qed.

(** A statement makes no second record for a transaction id. *)
Lemma run_unique_ids (now : Z) (q : statement) (d : database) :
  unique_ids d -> unique_ids (fst (run now q d)).
Proof.
  unfold unique_ids. destruct q; cbn [run fst receipt_transactions]; auto.
  intros Hu. unfold run_upsert_transaction.
  destruct (existsb (same_receipt receipt) (receipt_transactions d)) eqn:E.
  - rewrite map_map.
    erewrite map_ext; [exact Hu|]. intros r. now destruct (same_receipt receipt r).
  - rewrite map_app. cbn [map receipt_id].
    apply NoDup_app. split; [exact Hu|]. split.
    + intros x Hx Hin. apply list_elem_of_In in Hx, Hin. cbn [In] in Hin.
      destruct Hin as [<-|[]]. now apply (not_in_ledger receipt) in E.
    + apply NoDup_singleton.
Qed.

Lemma not_in_keys (u : Z) (f : str) (t : list suspicious_row) :
  existsb (same_suspicious_key u f) t = false -> ~ In (u, f) (map key_of t).
Proof.
  intros H Hin. apply in_map_iff in Hin as (r & Hk & Hr).
  assert (existsb (same_suspicious_key u f) t = true).
  { apply existsb_exists. exists r. split; [exact Hr|].
    unfold key_of in Hk. injection Hk as <- <-.
    unfold same_suspicious_key. now rewrite Z.eqb_refl, str_eqb_refl. }
  congruence.
Qed.

(** A statement makes no second failure record for a (user, file) key. *)
Lemma run_unique_keys (now : Z) (q : statement) (d : database) :
  unique_keys d -> unique_keys (fst (run now q d)).
Proof.
  unfold unique_keys.
  destruct q; cbn [run fst suspicious_receipts]; auto.
  intros Hu. unfold run_upsert_suspicious.
  destruct (existsb (same_suspicious_key user_id file) (suspicious_receipts d)) eqn:E.
  - rewrite map_map.
    erewrite map_ext; [exact Hu|].
    intros r. now destruct (same_suspicious_key user_id file r).
  - rewrite map_app. cbn [map]. unfold key_of at 2. cbn [new_suspicious sr_user_id file_name].
    apply NoDup_app. split; [exact Hu|]. split.
    + intros x Hx Hin. apply list_elem_of_In in Hx, Hin. cbn [In] in Hin.
      destruct Hin as [<-|[]]. now apply (not_in_keys user_id file) in E.
    + apply NoDup_singleton.
Qed.

End StoreRelations.

(** ** What no sequence of events changes *)

Section EventSequences.

Variable cfg : config.

(** X1: whatever events arrive and whatever store calls fail, the block
    flag of every user stays as it was: the handlers neither set nor clear
    it. *)
Theorem block_flags_never_change (evs : list (env * event)) (s : state) (u : Z) :
  blocked_in (db (run_events cfg evs s)) u = blocked_in (db s) u.
Proof.
  revert u.
  apply (run_events_keeps cfg
           (on_db (fun d d' => forall u, blocked_in d' u = blocked_in d u))).
  apply on_db_closed.
  - reflexivity.
  - intros a b c Hab Hbc u. now rewrite Hbc, Hab.
  - intros now q d u. apply run_blocked.
Qed.

Lemma in_ledger_ids (d : database) (tid : str) :
  in_ledger d tid
  = existsb (fun p => str_eqb (fst p) tid) (map id_and_owner (receipt_transactions d)).
Proof.
  unfold in_ledger. induction (receipt_transactions d) as [|r l IH]; [reflexivity|].
  cbn [existsb map]. now rewrite IH.
Qed.

(** X2: whatever events arrive, every ledger record stays in place with
    its transaction id and its owner; records are only appended.  So a
    transaction id that is in the ledger stays in it. *)
Theorem ledger_records_stay (evs : list (env * event)) (s : state) :
  (exists k,
     map id_and_owner (receipt_transactions (db (run_events cfg evs s)))
     = map id_and_owner (receipt_transactions (db s)) ++ k)
  /\ (forall tid, in_ledger (db s) tid = true ->
        in_ledger (db (run_events cfg evs s)) tid = true).
Proof.
  assert (H : exists k,
     map id_and_owner (receipt_transactions (db (run_events cfg evs s)))
     = map id_and_owner (receipt_transactions (db s)) ++ k).
  { apply (run_events_keeps cfg
             (on_db (fun d d' => exists k,
                map id_and_owner (receipt_transactions d')
                = map id_and_owner (receipt_transactions d) ++ k))).
    apply on_db_closed.
    - intros d. exists []. now rewrite app_nil_r.
    - intros a b c [k1 H1] [k2 H2]. exists (k1 ++ k2). now rewrite H2, H1, app_assoc.
    - intros now q d. apply run_ledger. }
  split; [exact H|].
  intros tid Hin. destruct H as [k Hk].
  rewrite in_ledger_ids, Hk, existsb_app. rewrite in_ledger_ids in Hin.
  now rewrite Hin.
Qed.

(** X3: whatever events arrive, the rows of [codes] and of [payments] stay
    as they are, in place; rows are only appended. *)
Theorem codes_and_payments_append_only (evs : list (env * event)) (s : state) :
  (exists k, codes (db (run_events cfg evs s)) = codes (db s) ++ k)
  /\ (exists k, payments (db (run_events cfg evs s)) = payments (db s) ++ k).
Proof.
  apply (run_events_keeps cfg
           (on_db (fun d d' =>
              (exists k, codes d' = codes d ++ k)
              /\ (exists k, payments d' = payments d ++ k)))).
  apply on_db_closed.
  - intros d. split; exists []; now rewrite app_nil_r.
  - intros a b c [[k1 H1] [l1 G1]] [[k2 H2] [l2 G2]]. split.
    + exists (k1 ++ k2). now rewrite H2, H1, app_assoc.
    + exists (l1 ++ l2). now rewrite G2, G1, app_assoc.
  - intros now q d. apply run_codes.
Qed.

(** X4: whatever events arrive, the failure count recorded for a (user,
    file) pair never goes down. *)
Theorem failure_counts_never_decrease
    (evs : list (env * event)) (s : state) (u : Z) (file : str) :
  count_of (db s) u file <= count_of (db (run_events cfg evs s)) u file.
Proof.
  revert u file.
  apply (run_events_keeps cfg
           (on_db (fun d d' => forall u file, count_of d u file <= count_of d' u file))).
  apply on_db_closed.
  - intros d u file. lia.
  - intros a b c Hab Hbc u file. specialize (Hab u file). specialize (Hbc u file). lia.
  - intros now q d u file. apply run_counts.
Qed.

(** X5: if no two ledger records share a transaction id and no two failure
    records share a (user, file) key, this is still so after any sequence
    of events. *)
Theorem unique_records_kept (evs : list (env * event)) (s : state) :
  unique_ids (db s) -> unique_keys (db s) ->
  unique_ids (db (run_events cfg evs s)) /\ unique_keys (db (run_events cfg evs s)).
Proof.
  intros Hi Hk.
  apply (run_events_keeps cfg
           (on_db (fun d d' =>
              unique_ids d /\ unique_keys d -> unique_ids d' /\ unique_keys d')));
    [|now split].
  apply on_db_closed.
  - auto.
  - auto.
  - intros now q d [H1 H2]. split; [now apply run_unique_ids | now apply run_unique_keys].
Qed.

(** X6: the handler an event of one user is routed to leaves the tariff
    selection of every other user as it was. *)
Theorem other_selections_untouched (e : env) (ev : event) (s : state) (u : Z) :
  u <> event_user ev ->
  user_tariffs (snd (dispatch cfg e ev s)) !! u = user_tariffs s !! u.
Proof.
  intros Hu. revert u Hu.
  apply (dispatch_keeps cfg e ev
           (fun s s' => forall u, u <> event_user ev ->
              user_tariffs s' !! u = user_tariffs s !! u)).
  split; cbn [user_tariffs]; try reflexivity.
  - intros a b c Hab Hbc u Hu. now rewrite Hbc, Hab.
  - intros s0 tariff u Hu. apply lookup_insert_ne. congruence.
  - intros s0 u Hu. apply lookup_delete_ne. congruence.
Qed.

End EventSequences.

Lemma unique_records_kept_witness :
  unique_ids (db fresh) /\ unique_keys (db fresh)
  /\ unique_ids
       (db (run_events sample_cfg
              [(sample_env good_text, Document (upload 7 good_file));
               (sample_env good_text, Document (upload 8 good_file))]
              two_users)).
Proof.
  assert (Hi : unique_ids (db two_users)) by constructor.
  assert (Hk : unique_keys (db two_users)) by constructor.
  split; [constructor|]. split; [constructor|].
  apply (unique_records_kept sample_cfg _ two_users Hi Hk).
Defined.

Lemma other_selections_untouched_witness :
  8 <> event_user (CheckPayment 7)
  /\ user_tariffs (snd (dispatch sample_cfg (sample_env []) (CheckPayment 7) two_users)) !! 8
     = user_tariffs two_users !! 8.
Proof.
  assert (H : 8 <> event_user (CheckPayment 7)) by (cbn; lia).
  split; [exact H|].
  apply (other_selections_untouched sample_cfg (sample_env []) (CheckPayment 7)
           two_users 8 H).
Defined.

Lemma ledger_records_stay_witness :
  in_ledger (db (mk_state (mk_database [] [mk_transaction (py "98765") 7 1709634000] [] [])
                          {[ 7 := py "1 час" ]} [] []))
            (py "98765") = true
  /\ in_ledger
       (db (run_events sample_cfg
              [(sample_env [], CheckPayment 7);
               (sample_env good_text, Document (upload 7 good_file))]
              (mk_state (mk_database [] [mk_transaction (py "98765") 7 1709634000] [] [])
                        {[ 7 := py "1 час" ]} [] [])))
       (py "98765") = true.
Proof.
  assert (H : in_ledger
                (db (mk_state
                       (mk_database [] [mk_transaction (py "98765") 7 1709634000] [] [])
                       {[ 7 := py "1 час" ]} [] []))
                (py "98765") = true) by (vm_compute; reflexivity).
  split; [exact H|].
  exact (proj2 (ledger_records_stay sample_cfg
                  [(sample_env [], CheckPayment 7);
                   (sample_env good_text, Document (upload 7 good_file))]
                  (mk_state
                     (mk_database [] [mk_transaction (py "98765") 7 1709634000] [] [])
                     {[ 7 := py "1 час" ]} [] []))
           (py "98765") H).
Defined.

(** * Exceptions and unknown tariffs *)

Section AnyFaults.

Variable e : env.

(** A store call, whatever the fault schedule. *)
Lemma execute_db_eq (q : statement) (f1 f2 f3 : bool) (s : state) :
  execute_db e q f1 f2 f3 s =
    match faults s with
    | true :: rest =>
        (Return PyNone,
         mk_state (db s) (user_tariffs s) rest (trace s ++ [Query q; LogError]))
    | fs =>
        (Return (fetched f1 f2 f3 (snd (run (db_now e) q (db s)))),
         mk_state (fst (run (db_now e) q (db s))) (user_tariffs s) (tl fs)
                  (trace s ++ [Query q]))
    end.
Proof.
  destruct (faults s) as [|[] rest] eqn:Hf.
  - now apply execute_db_ok.
  - now apply execute_db_fault.
  - unfold execute_db, bind, emit, next_fault, get_db, put_db, ret.
    cbn [db user_tariffs faults trace]. rewrite Hf.
    cbn [db user_tariffs faults trace tl].
    now destruct (run (db_now e) q (db s)).
Qed.

Lemma returns_ret {A} (a : A) : returns (ret a).
Proof. intros s. now exists a. Qed.


Lemma returns_bind {A B} (m : M A) (k : A -> M B) :
  returns m -> (forall a, returns (k a)) -> returns (bind m k).
Proof.
  intros Hm Hk s. unfold bind. destruct (Hm s) as [a Ha].
  destruct (m s) as [o s1]. cbn [fst] in Ha. subst o. apply Hk.
Qed.


Lemma returns_execute_db (q : statement) (f1 f2 f3 : bool) :
  returns (execute_db e q f1 f2 f3).
Proof. intros s. apply execute_db_returns. Qed.


Lemma returns_is_new_user (u : Z) : returns (is_new_user e u).
Proof.
  unfold is_new_user. apply returns_bind; [apply returns_execute_db|].
  intros r. apply returns_ret.
Qed.

(** The price table and the duration table have the same tariffs. *)
Lemma same_tariffs (tariff : str) :
  dict_get tariff tariff_prices = None <-> dict_get tariff TARIFFS = None.
Proof.
  unfold tariff_prices, TARIFFS. cbn [dict_get].
  repeat destruct (str_eqb _ tariff); split; congruence.
Qed.

Lemma generate_code_eq (u : Z) (tariff : str) (minutes : Z) (s : state) :
  dict_get tariff TARIFFS = Some minutes ->
  generate_code e u tariff s =
    (Return (token_hex_4 e, token_hex_8 e),
     snd (execute_db e (insert_code (token_hex_4 e) u (token_hex_8 e) minutes minutes)
            false false true s)).
Proof.
  intros Hd. unfold generate_code. rewrite Hd. cbv zeta.
  unfold bind at 1. cbn [lookup_or_KeyError ret]. unfold bind.
  destruct (execute_db_returns e
              (insert_code (token_hex_4 e) u (token_hex_8 e) minutes minutes)
              false false true s) as [r Hr].
  destruct (execute_db _ _ _ _ _ s) as [o s1]. cbn [fst] in Hr. now subst o.
Qed.


End AnyFaults.

Section NeverRaises.

Variables (cfg : config) (e : env).


End NeverRaises.

Section TariffChoice.

Variables (e : env) (user_id : Z).

(** [process_tariff], whatever the fault schedule. *)
Lemma process_tariff_eq (data : str) (s : state) :
  process_tariff e user_id data s =
    (let tariff := tariff_of_callback data in
     let s1 := mk_state (db s) (<[user_id := tariff]> (user_tariffs s)) (faults s)
                        (trace s ++ [CallbackAnswer]) in
     if str_eqb tariff (py "2 минуты") then
       (Return tt,
        with_trace
          (snd (execute_db e
                  (insert_code (token_hex_4 e) user_id (token_hex_8 e) 2 2)
                  false false true s1))
          [EditText (FreeCode (token_hex_4 e) tariff 2);
           NotifyWebsite user_id (token_hex_8 e)])
     else
       match dict_get tariff tariff_prices with
       | Some price =>
           (Return tt, with_trace s1 [EditText (PaymentDetails tariff price)])
       | None => (Raise KeyError, s1)
       end).
Proof.
  unfold process_tariff, tariff_of_callback. rewrite emit_bind. cbv zeta.
  unfold get_tariffs, put_tariffs.
  unfold bind at 1. cbv beta iota. unfold bind at 1. cbv beta iota.
  unfold with_trace at 1 2 3 4. cbn [db user_tariffs faults trace].
  destruct (str_eqb (remove_all (py "tariff_") 0 data) (py "2 минуты")) eqn:E.
  - apply str_eqb_eq in E. rewrite E.
    erewrite bind_return by (now apply (generate_code_eq e user_id (py "2 минуты") 2)).
    cbn [fst snd]. change (dict_get (py "2 минуты") TARIFFS) with (Some 2).
    unfold bind. run_steps. now rewrite <- app_assoc.
  - destruct (dict_get (remove_all (py "tariff_") 0 data) tariff_prices) as [price|];
      unfold bind; run_steps; reflexivity.
Qed.

(** X8: the tariff callback stores the tariff named by the callback data as
    the selection of the user in every case.  For a tariff outside the price
    table it then raises [KeyError] with the store untouched; for a tariff
    of the table it returns, and for a priced one it makes no store call
    and shows the payment details. *)
Theorem tariff_choice_outcome (data : str) (s : state) :
  user_tariffs (snd (process_tariff e user_id data s)) !! user_id
    = Some (tariff_of_callback data)
  /\ (dict_get (tariff_of_callback data) tariff_prices = None ->
        fst (process_tariff e user_id data s) = Raise KeyError
        /\ db (snd (process_tariff e user_id data s)) = db s
        /\ trace (snd (process_tariff e user_id data s)) = trace s ++ [CallbackAnswer])
  /\ (forall price,
        dict_get (tariff_of_callback data) tariff_prices = Some price ->
        fst (process_tariff e user_id data s) = Return tt
        /\ (tariff_of_callback data <> py "2 минуты" ->
              db (snd (process_tariff e user_id data s)) = db s
              /\ trace (snd (process_tariff e user_id data s))
                 = trace s ++ [CallbackAnswer;
                               EditText (PaymentDetails (tariff_of_callback data) price)])).
Proof.
  rewrite process_tariff_eq. cbv zeta.
  destruct (str_eqb (tariff_of_callback data) (py "2 минуты")) eqn:E.
  - apply str_eqb_eq in E. rewrite E. rewrite execute_db_eq.
    cbn [db user_tariffs faults trace].
    split.
    + destruct (faults s) as [|[] rest];
        cbn [snd with_trace user_tariffs]; apply lookup_insert_eq.
    + split; [discriminate|]. intros price _. split; [reflexivity|]. congruence.
  - apply str_eqb_neq in E.
    destruct (dict_get (tariff_of_callback data) tariff_prices) as [price|].
    + cbn [fst snd with_trace db user_tariffs trace].
      split; [apply lookup_insert_eq|]. split; [discriminate|].
      intros p Hp. injection Hp as <-. split; [reflexivity|]. intros _.
      split; [reflexivity|]. now rewrite <- app_assoc.
    + cbn [fst snd db user_tariffs trace].
      split; [apply lookup_insert_eq|]. split; [auto|]. discriminate.
Qed.

End TariffChoice.

Section UnknownTariff.

Variables (cfg : config) (e : env) (m : message) (tariff : str) (s : state).

(** X9: an upload by a user whose selected tariff is outside the price
    table (and who is not blocked, with a PDF within the size limit) goes
    through text extraction, fails in validation with [KeyError], and is
    answered with the error reply; no failure is recorded and the store is
    as before. *)
Theorem upload_with_unknown_tariff :
  user_tariffs s !! from_user_id m = Some tariff ->
  dict_get tariff tariff_prices = None ->
  fst (is_user_blocked e (from_user_id m) s) = Return false ->
  well_formed_upload cfg m ->
  fst (handle_payment_proof cfg e m s) = Return tt
  /\ db (snd (handle_payment_proof cfg e m s)) = db s
  /\ exists acts,
       trace (snd (handle_payment_proof cfg e m s))
       = trace s ++ acts
         ++ [Answer Processing; GetFile; DownloadFile; ExtractText; ValidateReceipt;
             LogError; Answer ProcessingError]
       /\ forall q, In (Query q) acts -> q = select_blocked (from_user_id m).
Proof.
  intros Ht Hd Hb [Hmime Hsize].
  destruct (is_user_blocked_frame e s (from_user_id m)) as (b & acts & Hrun & Hacts).
  rewrite Hrun in Hb. cbn [fst] in Hb. injection Hb as ->.
  assert (Heq : handle_payment_proof cfg e m s =
    (Return tt,
     mk_state (db s) (user_tariffs s) (tl (faults s))
       (trace s ++ acts
        ++ [Answer Processing; GetFile; DownloadFile; ExtractText; ValidateReceipt;
            LogError; Answer ProcessingError]))).
  { unfold handle_payment_proof. cbv zeta.
    erewrite bind_return by exact Hrun. cbv beta iota.
    unfold bind at 1. cbn [get_tariffs user_tariffs]. cbv beta iota.
    rewrite Ht, Hmime, str_eqb_refl. cbn [negb].
    replace (MAX_PDF_SIZE cfg <? doc_file_size m) with false
      by (symmetry; apply Z.ltb_ge; exact Hsize).
    unfold try_except, check_receipt. cbv zeta.
    rewrite !emit_bind, !with_trace_app. cbn [app].
    erewrite bind_raise.
    2:{ rewrite validate_receipt_chain. cbv zeta. rewrite Hd. reflexivity. }
    unfold bind. run_steps.
    repeat (rewrite <- app_assoc || (progress cbn [app])). reflexivity. }
  rewrite Heq. cbn [fst snd db trace]. split; [reflexivity|]. split; [reflexivity|].
  exists acts. split; [reflexivity|].
  intros q Hq. destruct Hacts as [-> | ->]; cbn [In] in Hq; intuition congruence.
Qed.

End UnknownTariff.

Section CallbackData.

Lemma remove_all_skip (old pre t : str) :
  remove_all old (length pre) (pre ++ t) = remove_all old 0 t.
Proof. induction pre as [|c pre IH]; [reflexivity | exact IH]. Qed.

Lemma remove_all_absent (old t : str) :
  old <> [] -> str_in old t = false -> remove_all old 0 t = t.
Proof.
  intros Hold. induction t as [|c t IH]; [reflexivity|].
  cbn [str_in]. intros H. apply orb_false_iff in H as [Hs Hin].
  cbn [remove_all]. destruct old as [|x old']; [contradiction|].
  rewrite Hs. now rewrite IH.
Qed.

Lemma remove_all_prefix (old t : str) :
  old <> [] -> remove_all old 0 (old ++ t) = remove_all old 0 t.
Proof.
  intros Hold. destruct old as [|x old']; [contradiction|].
  assert (Hs : startswith (x :: old') ((x :: old') ++ t) = true)
    by (apply startswith_spec; now exists t).
  cbn [app remove_all] in *. rewrite Hs. apply remove_all_skip.
Qed.

(** X10: removing the prefix from callback data made of the prefix and a
    name that does not contain it gives the name back: what
    [process_tariff] stores for the callback data ["tariff_" + name] is
    [name]. *)
Theorem callback_names_its_tariff (name : str) :
  str_in (py "tariff_") name = false ->
  tariff_of_callback (py "tariff_" ++ name) = name.
Proof.
  intros H. unfold tariff_of_callback.
  assert (Hne : py "tariff_" <> []) by (vm_compute; discriminate).
  rewrite remove_all_prefix by exact Hne.
  now apply remove_all_absent.
Qed.

(** X11: every button of the tariff keyboard, whoever it is shown to and
    whatever the store does, carries callback data that [process_tariff]
    handles without raising, storing a tariff of both tables. *)
Theorem every_button_is_handled
    (e e' : env) (user_id : Z) (s s' : state) (keyboard : list str) (data : str) :
  fst (get_tariff_keyboard e user_id s) = Return keyboard ->
  In data keyboard ->
  fst (process_tariff e' user_id data s') = Return tt
  /\ dict_get (tariff_of_callback data) tariff_prices <> None
  /\ dict_get (tariff_of_callback data) TARIFFS <> None.
Proof.
  intros Hkb Hin.
  assert (Hdata : data = py "tariff_2 минуты" \/ data = py "tariff_1 час"
                  \/ data = py "tariff_2 часа").
  { unfold get_tariff_keyboard in Hkb.
    destruct (returns_is_new_user e user_id s) as [new Hnew].
    unfold bind in Hkb. destruct (is_new_user e user_id s) as [o s1].
    cbn [fst] in Hnew. subst o. cbn [ret fst] in Hkb. injection Hkb as <-.
    destruct new; cbn [app In] in Hin.
    - destruct Hin as [H|[H|[H|[]]]]; subst data;
        [left | right; left | right; right]; reflexivity.
    - destruct Hin as [H|[H|[]]]; subst data; [right; left | right; right]; reflexivity. }
  destruct Hdata as [-> | [-> | ->]];
    (split; [rewrite process_tariff_eq; reflexivity|]); split; vm_compute; discriminate.
Qed.

End CallbackData.

Lemma upload_with_unknown_tariff_witness :
  dict_get (py "1 день") tariff_prices = None
  /\ db (snd (handle_payment_proof sample_cfg (sample_env good_text)
                (upload 7 good_file) (chosen 7 (py "1 день"))))
     = db (chosen 7 (py "1 день")).
Proof.
  split; [reflexivity|].
  assert (Ht : user_tariffs (chosen 7 (py "1 день")) !! from_user_id (upload 7 good_file)
               = Some (py "1 день")) by (vm_compute; reflexivity).
  apply (upload_with_unknown_tariff sample_cfg (sample_env good_text)
           (upload 7 good_file) (py "1 день") (chosen 7 (py "1 день"))
           Ht eq_refl eq_refl (sample_well_formed 7 good_file)).
Defined.

Lemma callback_names_its_tariff_witness :
  str_in (py "tariff_") (py "1 час") = false
  /\ tariff_of_callback (py "tariff_" ++ py "1 час") = py "1 час".
Proof.
  split; [reflexivity|].
  apply (callback_names_its_tariff (py "1 час")). reflexivity.
Defined.

Lemma every_button_is_handled_witness :
  fst (get_tariff_keyboard (sample_env []) 7 fresh)
    = Return [py "tariff_2 минуты"; py "tariff_1 час"; py "tariff_2 часа"]
  /\ fst (process_tariff (sample_env []) 7 (py "tariff_1 час") fresh) = Return tt.
Proof.
  assert (Hkb : fst (get_tariff_keyboard (sample_env []) 7 fresh)
    = Return [py "tariff_2 минуты"; py "tariff_1 час"; py "tariff_2 часа"])
    by (vm_compute; reflexivity).
  split; [exact Hkb|].
  apply (every_button_is_handled (sample_env []) (sample_env []) 7 fresh fresh _
           (py "tariff_1 час") Hkb).
  cbn [In]. auto.
Defined.

Lemma tariff_choice_outcome_witness :
  dict_get (tariff_of_callback (py "tariff_1 час")) tariff_prices = Some 490
  /\ fst (process_tariff (sample_env []) 7 (py "tariff_1 час") fresh) = Return tt.
Proof.
  assert (H : dict_get (tariff_of_callback (py "tariff_1 час")) tariff_prices = Some 490)
    by (vm_compute; reflexivity).
  split; [exact H|].
  exact (proj1 (proj2 (proj2 (tariff_choice_outcome (sample_env []) 7
                                (py "tariff_1 час") fresh))
                  490 H)).
Defined.

(** ** The tariff menu and the issue of codes *)

Section Menu.

Variable e : env.

(** The query of [is_new_user], whatever the fault schedule. *)
Lemma is_new_user_eq (user_id : Z) (s : state) :
  is_new_user e user_id s =
    match faults s with
    | true :: rest =>
        (Return true,
         mk_state (db s) (user_tariffs s) rest
                  (trace s ++ [Query (select_codes user_id); LogError]))
    | fs =>
        (Return (negb (has_codes (db s) user_id)),
         mk_state (db s) (user_tariffs s) (tl fs)
                  (trace s ++ [Query (select_codes user_id)]))
    end.
Proof.
  unfold is_new_user, bind. rewrite execute_db_eq.
  destruct (faults s) as [|[] rest]; cbn [run fst snd]; unfold ret;
    rewrite ?fetched_one_none; reflexivity.
Qed.

Lemma get_tariff_keyboard_eq (user_id : Z) (s : state) :
  get_tariff_keyboard e user_id s =
    (Return ((if fst (is_new_user e user_id s) is Return true then [free_button] else [])
             ++ paid_buttons),
     snd (is_new_user e user_id s)).
Proof.
  unfold get_tariff_keyboard, bind, free_button, paid_buttons. rewrite is_new_user_eq.
  destruct (faults s) as [|[] rest]; cbn [fst snd]; unfold ret;
    try destruct (negb _); reflexivity.
Qed.

(** X12: the tariff menu always offers the two paid tariffs.  When its
    query is answered it offers the free tariff exactly to a user with no
    row in [codes]; when the query fails it offers the free tariff to
    everyone.  It writes nothing. *)
Theorem free_tariff_offer (user_id : Z) (s : state) :
  (next_call_fails s = false ->
     fst (get_tariff_keyboard e user_id s)
     = Return ((if has_codes (db s) user_id then [] else [free_button]) ++ paid_buttons))
  /\ (next_call_fails s = true ->
     fst (get_tariff_keyboard e user_id s) = Return (free_button :: paid_buttons))
  /\ db (snd (get_tariff_keyboard e user_id s)) = db s
  /\ user_tariffs (snd (get_tariff_keyboard e user_id s)) = user_tariffs s.
Proof.
  rewrite get_tariff_keyboard_eq, is_new_user_eq. unfold next_call_fails.
  destruct (faults s) as [|[] rest]; cbn [hd fst snd db user_tariffs];
    (split; [|split; [|split; reflexivity]]); try discriminate; intros _;
    try reflexivity; now destruct (has_codes (db s) user_id).
Qed.

End Menu.

Section Issue.

Variables (cfg : config) (e : env) (user_id : Z).

Lemma has_codes_app (d : database) (u : Z) (k : list code_row) (d' : database) :
  codes d' = codes d ++ k -> has_codes d u = true -> has_codes d' u = true.
Proof.
  unfold has_codes. intros -> H. rewrite existsb_app, H. reflexivity.
Qed.

(** A user who has a row in [codes] has one after any sequence of events. *)
Lemma has_codes_stays (evs : list (env * event)) (s : state) (u : Z) :
  has_codes (db s) u = true -> has_codes (db (run_events cfg evs s)) u = true.
Proof.
  intros H.
  assert (Hk : exists k, codes (db (run_events cfg evs s)) = codes (db s) ++ k).
  { apply (run_events_keeps cfg
             (on_db (fun d d' => exists k, codes d' = codes d ++ k))).
    apply on_db_closed.
    - intros d. exists []. now rewrite app_nil_r.
    - intros a b c [k1 H1] [k2 H2]. exists (k1 ++ k2). now rewrite H2, H1, app_assoc.
    - intros now q d. apply run_codes. }
  destruct Hk as [k Hk]. exact (has_codes_app _ _ _ _ Hk H).
Qed.

(** The code that [generate_code] returns, whatever the fault schedule. *)
Lemma generate_code_store (tariff : str) (minutes : Z) (s : state) :
  dict_get tariff TARIFFS = Some minutes ->
  db (snd (generate_code e user_id tariff s))
  = if next_call_fails s then db s
    else mk_database (codes (db s) ++ [issued_row e user_id minutes])
           (receipt_transactions (db s)) (suspicious_receipts (db s)) (payments (db s)).
Proof.
  intros Hd. rewrite (generate_code_eq e user_id tariff minutes s Hd).
  cbn [snd]. rewrite execute_db_eq. unfold next_call_fails.
  destruct (faults s) as [|[] rest]; reflexivity.
Qed.

(** X13: once a code has been issued to a user and written, whatever
    events follow and whatever store calls fail in them, the tariff menu
    does not offer the free tariff to that user when its query is
    answered. *)
Theorem free_offer_ends_with_first_code
    (tariff : str) (s : state) (evs : list (env * event)) (e' : env) :
  dict_get tariff TARIFFS <> None ->
  next_call_fails s = false ->
  next_call_fails (run_events cfg evs (snd (generate_code e user_id tariff s))) = false ->
  fst (get_tariff_keyboard e' user_id
         (run_events cfg evs (snd (generate_code e user_id tariff s))))
  = Return paid_buttons.
Proof.
  intros Hd Hs Hs'.
  destruct (dict_get tariff TARIFFS) as [minutes|] eqn:Hm; [clear Hd | congruence].
  assert (Hc : has_codes (db (snd (generate_code e user_id tariff s))) user_id = true).
  { rewrite (generate_code_store tariff minutes s Hm), Hs.
    unfold has_codes. cbn [codes]. rewrite existsb_app. cbn [existsb issued_row code_user_id].
    rewrite Z.eqb_refl. now rewrite orb_true_r. }
  apply (has_codes_stays evs) in Hc.
  rewrite get_tariff_keyboard_eq, is_new_user_eq.
  unfold next_call_fails in Hs'.
  destruct (faults _) as [|[] rest]; cbn [hd] in Hs'; try discriminate;
    cbn [fst]; now rewrite Hc.
Qed.

(** X14: when the INSERT of [generate_code] fails, the code and the session
    are returned all the same and no row is written: the free-tariff
    button then shows the user a code that the store does not hold, and
    reports the session to the website. *)
Theorem code_shown_but_not_stored (tariff : str) (minutes : Z) (s : state) :
  next_call_fails s = true ->
  dict_get tariff TARIFFS = Some minutes ->
  fst (generate_code e user_id tariff s) = Return (token_hex_4 e, token_hex_8 e)
  /\ db (snd (generate_code e user_id tariff s)) = db s
  /\ fst (process_tariff e user_id free_button s) = Return tt
  /\ db (snd (process_tariff e user_id free_button s)) = db s
  /\ trace (snd (process_tariff e user_id free_button s))
     = trace s ++ [CallbackAnswer;
                   Query (insert_code (token_hex_4 e) user_id (token_hex_8 e) 2 2);
                   LogError;
                   EditText (FreeCode (token_hex_4 e) (py "2 минуты") 2);
                   NotifyWebsite user_id (token_hex_8 e)].
Proof.
  intros Hs Hd.
  split; [now rewrite (generate_code_eq e user_id tariff minutes s Hd)|].
  split; [now rewrite (generate_code_store tariff minutes s Hd), Hs|].
  rewrite process_tariff_eq. cbv zeta.
  change (tariff_of_callback free_button) with (py "2 минуты").
  rewrite str_eqb_refl, execute_db_eq. cbn [db user_tariffs faults trace].
  unfold next_call_fails in Hs.
  destruct (faults s) as [|[] rest]; cbn [hd] in Hs; try discriminate.
  cbn [fst snd with_trace db trace]. split; [reflexivity|]. split; [reflexivity|].
  repeat (rewrite <- app_assoc || (progress cbn [app])). reflexivity.
Qed.

End Issue.

Lemma free_tariff_offer_witness :
  next_call_fails returning_user = false
  /\ fst (get_tariff_keyboard (sample_env []) 7 returning_user)
     = Return ((if has_codes (db returning_user) 7 then [] else [free_button])
               ++ paid_buttons).
Proof.
  assert (H : next_call_fails returning_user = false) by reflexivity.
  split; [exact H|].
  exact (proj1 (free_tariff_offer (sample_env []) 7 returning_user) H).
Defined.

Lemma free_offer_ends_with_first_code_witness :
  fst (get_tariff_keyboard (sample_env []) 7
         (run_events sample_cfg [(sample_env [], MySessions 7)]
            (snd (generate_code (sample_env []) 7 (py "1 час") fresh))))
  = Return paid_buttons.
Proof.
  assert (Hd : dict_get (py "1 час") TARIFFS <> None) by (vm_compute; discriminate).
  assert (Hs : next_call_fails fresh = false) by reflexivity.
  assert (Hs' : next_call_fails
                  (run_events sample_cfg [(sample_env [], MySessions 7)]
                     (snd (generate_code (sample_env []) 7 (py "1 час") fresh))) = false)
    by (vm_compute; reflexivity).
  exact (free_offer_ends_with_first_code sample_cfg (sample_env []) 7 (py "1 час") fresh
           [(sample_env [], MySessions 7)] (sample_env []) Hd Hs Hs').
Defined.

Lemma code_shown_but_not_stored_witness :
  next_call_fails blocked_during_outage = true
  /\ db (snd (process_tariff (sample_env []) 7 free_button blocked_during_outage))
     = db blocked_during_outage.
Proof.
  assert (Hs : next_call_fails blocked_during_outage = true) by reflexivity.
  assert (Hd : dict_get (py "2 минуты") TARIFFS = Some 2) by (vm_compute; reflexivity).
  split; [exact Hs|].
  exact (proj1 (proj2 (proj2 (proj2
           (code_shown_but_not_stored (sample_env []) 7 (py "2 минуты") 2
              blocked_during_outage Hs Hd))))).
Defined.

(** ** Codes for paid tariffs *)

Section Payment.

Variables (e : env) (user_id : Z).

(** Every tariff of the price table other than the free one has a price
    above zero. *)
Lemma paid_price_positive (tariff : str) (price : Z) :
  dict_get tariff tariff_prices = Some price ->
  tariff <> py "2 минуты" ->
  0 < price.
Proof.
  unfold tariff_prices. cbn [dict_get]. intros H Hpaid.
  destruct (str_eqb (py "2 минуты") tariff) eqn:E0.
  { apply str_eqb_eq in E0. congruence. }
  destruct (str_eqb (py "1 час") tariff); [injection H as <-; lia|].
  destruct (str_eqb (py "2 часа") tariff); [injection H as <-; lia|].
  discriminate.
Qed.

(** [/checkpayment] with a paid tariff selected, when the store answers. *)
Lemma cmd_check_payment_paid_ok (tariff : str) (price minutes : Z) (s : state) :
  faults s = [] ->
  user_tariffs s !! user_id = Some tariff ->
  tariff <> py "2 минуты" ->
  dict_get tariff tariff_prices = Some price ->
  dict_get tariff TARIFFS = Some minutes ->
  cmd_check_payment e user_id s =
    if recent_receipt (db s) (db_now e) user_id then
      (Return tt,
       mk_state
         (mk_database (codes (db s) ++ [issued_row e user_id minutes])
            (receipt_transactions (db s)) (suspicious_receipts (db s))
            (payments (db s) ++ [mk_payment user_id price tariff]))
         (delete user_id (user_tariffs s)) []
         (trace s
          ++ [Query (select_recent_receipt user_id);
              Query (insert_code (token_hex_4 e) user_id (token_hex_8 e) minutes minutes);
              Query (insert_payment user_id price tariff);
              Answer (AccessCode (token_hex_4 e) tariff minutes);
              NotifyWebsite user_id (token_hex_8 e)]))
    else
      (Return tt,
       mk_state (db s) (user_tariffs s) []
         (trace s ++ [Query (select_recent_receipt user_id); Answer ReceiptNotFound])).
Proof.
  intros Hf Hsel Hpaid Hprice Hminutes.
  pose proof (paid_price_positive tariff price Hprice Hpaid) as Hpos.
  unfold cmd_check_payment. unfold get_tariffs, put_tariffs.
  unfold bind at 1. cbv beta iota. rewrite Hsel.
  replace (str_eqb tariff (py "2 минуты")) with false
    by (symmetry; now apply str_eqb_neq).
  erewrite bind_return by (apply execute_db_ok; exact Hf).
  cbn [run fst snd]. rewrite truthy_fetched_one. fold (recent_receipt (db s) (db_now e) user_id).
  destruct (recent_receipt (db s) (db_now e) user_id); cbn [negb].
  - erewrite bind_return
      by (apply (generate_code_ok e user_id tariff minutes); [reflexivity | exact Hminutes]).
    rewrite Hprice. unfold bind at 1. cbn [lookup_or_KeyError ret].
    replace (0 <? price) with true by (symmetry; apply Z.ltb_lt; exact Hpos).
    unfold log_payment.
    unfold bind at 1. unfold bind at 1.
    rewrite execute_db_ok by reflexivity.
    cbn [run fst snd db user_tariffs trace codes receipt_transactions
         suspicious_receipts payments].
    unfold ret at 1. rewrite Hminutes.
    unfold bind. run_steps.
    repeat (rewrite <- app_assoc || (progress cbn [app])). reflexivity.
  - unfold emit. cbn [db user_tariffs faults trace].
    now rewrite <- app_assoc.
Qed.

(** X15: [/checkpayment] with a paid tariff selected, when the store
    answers.  Without a ledger record of the user stamped within the last
    hour the reply is receipt-not-found and nothing changes.  With one, a
    code row for the duration of the tariff and a payment row with the
    price of the tariff are appended, the ledger is left as it is, the
    code is sent and the selection of the user is cleared. *)
Theorem paid_code_needs_recent_receipt (tariff : str) (price minutes : Z) (s : state) :
  faults s = [] ->
  user_tariffs s !! user_id = Some tariff ->
  tariff <> py "2 минуты" ->
  dict_get tariff tariff_prices = Some price ->
  dict_get tariff TARIFFS = Some minutes ->
  fst (cmd_check_payment e user_id s) = Return tt
  /\ (recent_receipt (db s) (db_now e) user_id = false ->
        db (snd (cmd_check_payment e user_id s)) = db s
        /\ user_tariffs (snd (cmd_check_payment e user_id s)) = user_tariffs s
        /\ trace (snd (cmd_check_payment e user_id s))
           = trace s ++ [Query (select_recent_receipt user_id); Answer ReceiptNotFound])
  /\ (recent_receipt (db s) (db_now e) user_id = true ->
        codes (db (snd (cmd_check_payment e user_id s)))
        = codes (db s) ++ [issued_row e user_id minutes]
        /\ payments (db (snd (cmd_check_payment e user_id s)))
           = payments (db s) ++ [mk_payment user_id price tariff]
        /\ receipt_transactions (db (snd (cmd_check_payment e user_id s)))
           = receipt_transactions (db s)
        /\ user_tariffs (snd (cmd_check_payment e user_id s)) !! user_id = None
        /\ In (Answer (AccessCode (token_hex_4 e) tariff minutes))
              (trace (snd (cmd_check_payment e user_id s)))).
Proof.
  intros Hf Hsel Hpaid Hprice Hminutes.
  rewrite (cmd_check_payment_paid_ok tariff price minutes s Hf Hsel Hpaid Hprice Hminutes).
  destruct (recent_receipt (db s) (db_now e) user_id);
    cbn [fst snd db user_tariffs trace codes payments receipt_transactions].
  - split; [reflexivity|]. split; [discriminate|]. intros _.
    repeat (split; [reflexivity|]). split; [apply lookup_delete_eq|].
    apply in_or_app. right. cbn [In]. auto.
  - split; [reflexivity|]. split; [|discriminate]. intros _. now destruct (db s).
Qed.

(** X17: when the receipt query of [/checkpayment] fails, a user with a
    paid tariff selected is told that no receipt was found, whatever the
    ledger holds; nothing is written and the selection stays. *)
Theorem store_outage_hides_receipt (tariff : str) (s : state) :
  next_call_fails s = true ->
  user_tariffs s !! user_id = Some tariff ->
  tariff <> py "2 минуты" ->
  fst (cmd_check_payment e user_id s) = Return tt
  /\ db (snd (cmd_check_payment e user_id s)) = db s
  /\ user_tariffs (snd (cmd_check_payment e user_id s)) = user_tariffs s
  /\ trace (snd (cmd_check_payment e user_id s))
     = trace s ++ [Query (select_recent_receipt user_id); LogError;
                   Answer ReceiptNotFound].
Proof.
  intros Hs Hsel Hpaid.
  assert (Heq : cmd_check_payment e user_id s =
    (Return tt,
     mk_state (db s) (user_tariffs s) (tl (faults s))
       (trace s ++ [Query (select_recent_receipt user_id); LogError;
                    Answer ReceiptNotFound]))).
  { unfold cmd_check_payment. unfold get_tariffs.
    unfold bind at 1. cbv beta iota. rewrite Hsel.
    replace (str_eqb tariff (py "2 минуты")) with false
      by (symmetry; now apply str_eqb_neq).
    unfold bind. rewrite execute_db_eq. unfold next_call_fails in Hs.
    destruct (faults s) as [|[] rest]; cbn [hd] in Hs; try discriminate.
    cbn [truthy negb tl]. unfold emit. cbn [fst snd db user_tariffs faults trace].
    now rewrite <- app_assoc. }
  rewrite Heq. cbn [fst snd db user_tariffs trace]. auto.
Qed.

End Payment.

Section ReceiptReuse.

Variables (cfg : config) (e1 e2 e3 : env) (m : message).
Variables (tariff tid data : str) (price minutes : Z) (s : state).

Local Abbreviation user := (from_user_id m).
Local Abbreviation after :=
  (run_events cfg [(e1, Document m); (e2, TariffCallback user data); (e3, CheckPayment user)] s).

(** X16: a receipt accepted under one tariff serves any paid tariff.  After
    an accepted upload, the user picks a paid tariff (the same or another
    one) and sends [/checkpayment] less than an hour of store time after
    the upload: a code for the duration of the tariff picked last is
    written and sent, with a payment row of its price, and the ledger
    record of the receipt is left as it was. *)
Theorem receipt_serves_any_paid_tariff :
  faults s = [] ->
  blocked_in (db s) user = false ->
  user_tariffs s !! user = Some tariff ->
  well_formed_upload cfg m ->
  passes_first_three cfg e1 (pdf_text e1) tariff ->
  transaction_id_of (doc_file_name m) = Some tid ->
  substring tid (pdf_text e1) ->
  in_ledger (db s) tid = false ->
  tariff_of_callback data <> py "2 минуты" ->
  dict_get (tariff_of_callback data) tariff_prices = Some price ->
  dict_get (tariff_of_callback data) TARIFFS = Some minutes ->
  db_now e3 - 3600 < db_now e1 ->
  codes (db after) = codes (db s) ++ [issued_row e3 user minutes]
  /\ payments (db after)
     = payments (db s) ++ [mk_payment user price (tariff_of_callback data)]
  /\ receipt_transactions (db after)
     = receipt_transactions (db s) ++ [mk_transaction tid user (db_now e1)]
  /\ In (Answer (AccessCode (token_hex_4 e3) (tariff_of_callback data) minutes))
        (trace after).
Proof.
  intros Hf Hb Hsel Hw H3 Htid Hsub Hnew Hpaid Hprice Hminutes Hhour.
  cbn [run_events dispatch].
  destruct (upload_accepted_step cfg e1 m tariff tid s Hf Hb Hsel Hw H3 Htid Hsub Hnew)
    as [acts ->].
  cbn [snd]. rewrite process_tariff_eq. cbv zeta.
  replace (str_eqb (tariff_of_callback data) (py "2 минуты")) with false
    by (symmetry; now apply str_eqb_neq).
  rewrite Hprice. unfold with_trace. cbn [snd db user_tariffs faults trace].
  match goal with
  | |- context [cmd_check_payment e3 user ?s2] =>
      assert (Hrecent : recent_receipt (db s2) (db_now e3) user = true)
  end.
  { unfold recent_receipt. cbn [db receipt_transactions].
    rewrite existsb_app. cbn [existsb tx_user_id used_at].
    rewrite Z.eqb_refl.
    replace (db_now e3 - 3600 <? db_now e1) with true
      by (symmetry; apply Z.ltb_lt; exact Hhour).
    cbn [andb orb]. now rewrite orb_true_r. }
  rewrite (cmd_check_payment_paid_ok e3 user (tariff_of_callback data) price minutes)
    by (try reflexivity; try assumption; cbn [user_tariffs]; apply lookup_insert_eq).
  rewrite Hrecent.
  cbn [snd db codes payments receipt_transactions trace].
  repeat (split; [reflexivity|]).
  apply in_or_app. right. cbn [In]. auto.
Qed.

End ReceiptReuse.

Lemma paid_code_needs_recent_receipt_witness :
  recent_receipt (db (chosen 7 (py "1 час"))) (db_now (sample_env [])) 7 = false
  /\ trace (snd (cmd_check_payment (sample_env []) 7 (chosen 7 (py "1 час"))))
     = trace (chosen 7 (py "1 час"))
       ++ [Query (select_recent_receipt 7); Answer ReceiptNotFound].
Proof.
  assert (Hf : faults (chosen 7 (py "1 час")) = []) by reflexivity.
  assert (Hsel : user_tariffs (chosen 7 (py "1 час")) !! 7 = Some (py "1 час"))
    by (vm_compute; reflexivity).
  assert (Hpaid : py "1 час" <> py "2 минуты") by (vm_compute; discriminate).
  assert (Hprice : dict_get (py "1 час") tariff_prices = Some 490)
    by (vm_compute; reflexivity).
  assert (Hminutes : dict_get (py "1 час") TARIFFS = Some 60)
    by (vm_compute; reflexivity).
  assert (Hnone : recent_receipt (db (chosen 7 (py "1 час"))) (db_now (sample_env [])) 7
                  = false) by reflexivity.
  split; [exact Hnone|].
  exact (proj2 (proj2 (proj1 (proj2
           (paid_code_needs_recent_receipt (sample_env []) 7 (py "1 час") 490 60
              (chosen 7 (py "1 час")) Hf Hsel Hpaid Hprice Hminutes)) Hnone))).
Defined.

Lemma store_outage_hides_receipt_witness :
  fst (cmd_check_payment (sample_env []) 7
         (mk_state
            (mk_database [] [mk_transaction (py "98765") 7 1709634000] [] [])
            {[ 7 := py "1 час" ]} [true] []))
  = Return tt
  /\ trace (snd (cmd_check_payment (sample_env []) 7
         (mk_state
            (mk_database [] [mk_transaction (py "98765") 7 1709634000] [] [])
            {[ 7 := py "1 час" ]} [true] [])))
     = [Query (select_recent_receipt 7); LogError; Answer ReceiptNotFound].
Proof.
  pose (s := mk_state
            (mk_database [] [mk_transaction (py "98765") 7 1709634000] [] [])
            {[ 7 := py "1 час" ]} [true] []).
  assert (Hs : next_call_fails s = true) by reflexivity.
  assert (Hsel : user_tariffs s !! 7 = Some (py "1 час")) by (vm_compute; reflexivity).
  assert (Hpaid : py "1 час" <> py "2 минуты") by (vm_compute; discriminate).
  pose proof (store_outage_hides_receipt (sample_env []) 7 (py "1 час") s Hs Hsel Hpaid)
    as (H1 & _ & _ & H4).
  split; [exact H1 | exact H4].
Defined.

Lemma receipt_serves_any_paid_tariff_witness :
  codes (db (run_events sample_cfg
               [(sample_env good_text, Document (upload 7 good_file));
                (sample_env [], TariffCallback 7 (py "tariff_2 часа"));
                (sample_env [], CheckPayment 7)]
               (chosen 7 (py "1 час"))))
  = codes (db (chosen 7 (py "1 час"))) ++ [issued_row (sample_env []) 7 120].
Proof.
  assert (Hsub : substring (py "98765") (pdf_text (sample_env good_text)))
    by (apply str_in_spec; vm_compute; reflexivity).
  assert (Hsel : user_tariffs (chosen 7 (py "1 час")) !! from_user_id (upload 7 good_file)
                 = Some (py "1 час")) by (vm_compute; reflexivity).
  assert (Hid : transaction_id_of (doc_file_name (upload 7 good_file))
                = Some (py "98765")) by (vm_compute; reflexivity).
  assert (Hpaid : tariff_of_callback (py "tariff_2 часа") <> py "2 минуты")
    by (vm_compute; discriminate).
  assert (Hprice : dict_get (tariff_of_callback (py "tariff_2 часа")) tariff_prices
                   = Some 790) by (vm_compute; reflexivity).
  assert (Hminutes : dict_get (tariff_of_callback (py "tariff_2 часа")) TARIFFS
                     = Some 120) by (vm_compute; reflexivity).
  assert (Hhour : db_now (sample_env []) - 3600 < db_now (sample_env good_text))
    by (vm_compute; reflexivity).
  exact (proj1
           (receipt_serves_any_paid_tariff sample_cfg (sample_env good_text)
              (sample_env []) (sample_env []) (upload 7 good_file)
              (py "1 час") (py "98765") (py "tariff_2 часа") 790 120
              (chosen 7 (py "1 час"))
              eq_refl eq_refl Hsel (sample_well_formed 7 good_file)
              sample_passes_first_three Hid Hsub eq_refl
              Hpaid Hprice Hminutes Hhour)).
Defined.

(** ** When a receipt is accepted *)

Section Acceptance.

Variables (cfg : config) (e : env).

(** The verdict of the ledger lookup, whatever the fault schedule: a lookup
    that fails lets the receipt through. *)
Lemma ledger_check_eq (transaction_id : str) (s : state) :
  fst (ledger_check e transaction_id s) =
    Return (if next_call_fails s then (true, Accepted)
            else if in_ledger (db s) transaction_id then (false, TransactionAlreadyUsed)
            else (true, Accepted)).
Proof.
  unfold ledger_check, next_call_fails. rewrite execute_db_eq.
  destruct (faults s) as [|[] rest]; cbn [fst snd run hd]; try reflexivity;
    rewrite truthy_fetched_one; fold (in_ledger (db s) transaction_id);
    now destruct (in_ledger (db s) transaction_id).
Qed.

(** X18: a receipt is accepted exactly when it passes the amount, recipient
    and time rules, the file name has a transaction id, the text contains
    it, and either the ledger has no record of that id or the ledger
    lookup fails; so during a store outage a transaction id that was
    already used is accepted again.  The reason of an acceptance is always
    the accepted one. *)
Theorem acceptance_characterised (file text tariff : str) (s : state) :
  (fst (validate_receipt cfg e file text tariff s) = Return (true, Accepted)
   <-> passes_first_three cfg e text tariff
       /\ exists tid,
            transaction_id_of file = Some tid
            /\ substring tid text
            /\ (in_ledger (db s) tid = false \/ next_call_fails s = true))
  /\ (forall why,
        fst (validate_receipt cfg e file text tariff s) = Return (true, why) ->
        why = Accepted).
Proof.
  assert (Hsame : next_call_fails (with_trace s [ValidateReceipt]) = next_call_fails s)
    by reflexivity.
  assert (Hfwd : forall why,
            fst (validate_receipt cfg e file text tariff s) = Return (true, why) ->
            why = Accepted
            /\ passes_first_three cfg e text tariff
            /\ exists tid,
                 transaction_id_of file = Some tid
                 /\ substring tid text
                 /\ (in_ledger (db s) tid = false \/ next_call_fails s = true)).
  { intros why. rewrite validate_receipt_chain. cbv zeta.
    destruct (dict_get tariff tariff_prices) as [price|] eqn:Hp;
      [|cbn [fst]; discriminate].
    destruct (amount_mismatch price text) eqn:Ha; [cbn [fst]; discriminate|].
    destruct (recipient_mismatch cfg text) eqn:Hr; [cbn [fst]; discriminate|].
    destruct (find_receipt_time time_patterns text) as [rt|] eqn:Ht;
      [|cbn [fst]; discriminate].
    destruct (timedelta_minutes (RECEIPT_MAX_AGE_MINUTES cfg)) as [max_age|] eqn:Hd;
      [|cbn [fst]; discriminate].
    destruct (max_age <? micros (py_now e) - micros rt) eqn:Hage;
      [cbn [fst]; discriminate|].
    destruct (transaction_id_of file) as [tid|] eqn:Htid; [|cbn [fst]; discriminate].
    destruct (str_in tid text) eqn:Hin; cbn [negb]; [|cbn [fst]; discriminate].
    apply Z.ltb_ge in Hage. apply str_in_spec in Hin.
    assert (H3 : passes_first_three cfg e text tariff).
    { split; [exists price; auto | exists rt, max_age; auto]. }
    rewrite ledger_check_eq, Hsame. change (db (with_trace s [ValidateReceipt])) with (db s).
    destruct (next_call_fails s).
    - intros H. injection H as <-. split; [reflexivity|]. split; [exact H3|].
      exists tid. auto.
    - destruct (in_ledger (db s) tid) eqn:Hl; [discriminate|].
      intros H. injection H as <-. split; [reflexivity|]. split; [exact H3|].
      exists tid. split; [reflexivity|]. split; [exact Hin|]. left. exact Hl. }
  split; [split|].
  - intros H. apply Hfwd in H. tauto.
  - intros [H3 (tid & Htid & Hsub & Hl)].
    rewrite (passes_first_three_chain cfg e file text tariff s H3). cbv zeta.
    apply str_in_spec in Hsub. rewrite Htid, Hsub. cbn [negb].
    rewrite ledger_check_eq, Hsame.
    destruct Hl as [Hl | Hn].
    + destruct (next_call_fails s); [reflexivity|].
      replace (in_ledger (db (with_trace s [ValidateReceipt])) tid) with false; reflexivity
        || (symmetry; exact Hl).
    + now rewrite Hn.
  - intros why H. now apply Hfwd in H.
Qed.

(** X20: a document from which no text could be extracted is never
    accepted, whatever the tariff, the file name, the configuration and the
    store. *)
Theorem empty_extraction_never_accepted
    (document : option (list page)) (file tariff : str) (s : state) (why : reason) :
  extract_text_from_pdf_sync document = [] ->
  fst (validate_receipt cfg e file (extract_text_from_pdf_sync document) tariff s)
  <> Return (true, why).
Proof.
  intros ->. rewrite validate_receipt_chain. cbv zeta.
  destruct (dict_get tariff tariff_prices) as [price|]; [|discriminate].
  destruct (amount_mismatch price []) eqn:Ha; [discriminate|].
  destruct (recipient_mismatch cfg []); [discriminate|].
  change (find_receipt_time time_patterns []) with (@None datetime).
  discriminate.
Qed.

End Acceptance.

Section Extraction.

Lemma text_parts_In (t : str) (pages : list page) :
  In t (text_parts pages) <-> In (PageText t) pages /\ t <> [].
Proof.
  induction pages as [|p pages IH]; [cbn; tauto|].
  destruct p as [[|c u]| |]; cbn [text_parts In]; rewrite IH; clear IH.
  - split; [tauto|]. intros [[H | H] Hne]; [|tauto]. injection H as <-. congruence.
  - split.
    + intros [<- | [H Hne]]; [split; [now left | discriminate] | tauto].
    + intros [[H | H] Hne]; [injection H as <-; now left | tauto].
  - split; [tauto|]. intros [[H | H] Hne]; [discriminate | tauto].
  - split; [tauto|]. intros [[H | H] Hne]; [discriminate | tauto].
Qed.

Lemma text_parts_none (pages : list page) :
  text_parts pages = [] <-> forall p, In p pages -> has_text p = false.
Proof.
  induction pages as [|p pages IH]; [cbn; tauto|].
  destruct p as [[|c u]| |]; cbn [text_parts]; try rewrite IH; clear IH.
  - split; [intros H p [<- | Hp]; auto | intros H p Hp; apply H; now right].
  - split; [discriminate|]. intros H. specialize (H _ (or_introl eq_refl)). discriminate.
  - split; [intros H p [<- | Hp]; auto | intros H p Hp; apply H; now right].
  - split; [intros H p [<- | Hp]; auto | intros H p Hp; apply H; now right].
Qed.

Lemma join_substring (sep t : str) (parts : list str) :
  In t parts -> substring t (join sep parts).
Proof.
  induction parts as [|p rest IH]; [contradiction|].
  destruct rest as [|q rest].
  - intros [<- | []]. exists [], []. cbn [join app]. now rewrite app_nil_r.
  - change (join sep (p :: q :: rest)) with (p ++ sep ++ join sep (q :: rest)).
    intros [<- | Hin].
    + exists [], (sep ++ join sep (q :: rest)). reflexivity.
    + destruct (IH Hin) as (before & after & ->).
      exists (p ++ sep ++ before), after. now rewrite <- !app_assoc.
Qed.

Lemma join_empty (sep : str) (parts : list str) :
  Forall (fun p => p <> []) parts -> join sep parts = [] -> parts = [].
Proof.
  destruct parts as [|p rest]; [reflexivity|].
  intros Hne. inversion Hne as [|? ? Hp _]; subst.
  destruct rest as [|q rest]; cbn [join]; intros H; [congruence|].
  destruct p; [congruence | discriminate].
Qed.

(** X21: text extraction is all or nothing.  When the document opens and no
    page raises, the text of every page that has one occurs in the result;
    when the document does not open or some page raises, the result is
    empty, whatever the other pages hold.  The result is empty exactly in
    those two cases and when no page has a text. *)
Theorem extraction_all_or_nothing (document : option (list page)) :
  (forall pages t,
     document = Some pages -> existsb page_raises pages = false ->
     In (PageText t) pages -> t <> [] ->
     substring t (extract_text_from_pdf_sync document))
  /\ (extract_text_from_pdf_sync document = []
      <-> document = None
          \/ exists pages,
               document = Some pages
               /\ (existsb page_raises pages = true
                   \/ forall p, In p pages -> has_text p = false)).
Proof.
  split.
  - intros pages t -> Hok Hin Hne. unfold extract_text_from_pdf_sync. rewrite Hok.
    apply join_substring, text_parts_In. now split.
  - destruct document as [pages|]; cbn [extract_text_from_pdf_sync]; [|tauto].
    destruct (existsb page_raises pages) eqn:Hraise.
    + split; [|reflexivity]. intros _. right. exists pages. auto.
    + split.
      * intros H. right. exists pages. split; [reflexivity|]. right.
        apply text_parts_none. apply (join_empty [10%N]); [|exact H].
        apply List.Forall_forall. intros t Ht. now apply text_parts_In in Ht.
      * intros [H | (pages' & Hp & [H | H])]; [discriminate | congruence |].
        injection Hp as <-. apply text_parts_none in H. now rewrite H.
Qed.

End Extraction.

Section FailureCount.

Variables (e : env) (user_id : Z) (username file : str).

(** X19: when the count query of [log_suspicious_receipt] fails after its
    write went through, the function returns 1 although the count recorded
    for the user and file went up by one, whatever it was; so the caller
    compares 1 with the limit. *)
Theorem failed_count_query_reports_one (s : state) (rest : list bool) :
  faults s = false :: true :: rest ->
  fst (log_suspicious_receipt e user_id username file s) = Return 1
  /\ count_of (db (snd (log_suspicious_receipt e user_id username file s))) user_id file
     = count_of (db s) user_id file + 1.
Proof.
  intros Hf.
  assert (Heq : log_suspicious_receipt e user_id username file s =
    (Return 1,
     mk_state
       (mk_database (codes (db s)) (receipt_transactions (db s))
          (run_upsert_suspicious user_id username file (suspicious_receipts (db s)))
          (payments (db s)))
       (user_tariffs s) rest
       (trace s ++ [Query (upsert_suspicious user_id username file);
                    Query (select_receipt_count user_id file); LogError]))).
  { unfold log_suspicious_receipt.
    unfold bind at 1. rewrite execute_db_eq, Hf. cbn [run fst snd tl].
    unfold bind at 1. rewrite execute_db_eq. cbn [faults db user_tariffs trace].
    cbn [truthy]. unfold ret. now rewrite <- app_assoc. }
  rewrite Heq. cbn [fst snd db]. split; [reflexivity|].
  unfold count_of. cbn [suspicious_receipts]. rewrite filter_upsert_suspicious.
  now destruct (List.filter (same_suspicious_key user_id file)
                            (suspicious_receipts (db s))).
Qed.

End FailureCount.

Lemma acceptance_characterised_witness :
  fst (validate_receipt sample_cfg (sample_env good_text) good_file good_text (py "1 час")
         (mk_state
            (mk_database [] [mk_transaction (py "98765") 8 1709000000] [] [])
            ∅ [true] []))
  = Return (true, Accepted).
Proof.
  pose (s := mk_state
            (mk_database [] [mk_transaction (py "98765") 8 1709000000] [] [])
            ∅ [true] []).
  assert (Hsub : substring (py "98765") good_text)
    by (apply str_in_spec; vm_compute; reflexivity).
  assert (Hid : transaction_id_of good_file = Some (py "98765"))
    by (vm_compute; reflexivity).
  assert (Hout : in_ledger (db s) (py "98765") = false \/ next_call_fails s = true)
    by (right; reflexivity).
  apply (proj2 (proj1 (acceptance_characterised sample_cfg (sample_env good_text)
                         good_file good_text (py "1 час") s))).
  split; [exact sample_passes_first_three|].
  exists (py "98765"). auto.
Defined.

Lemma empty_extraction_never_accepted_witness :
  extract_text_from_pdf_sync (Some [PageText (py "490 KZT"); PageError]) = []
  /\ fst (validate_receipt sample_cfg (sample_env []) good_file
            (extract_text_from_pdf_sync (Some [PageText (py "490 KZT"); PageError]))
            (py "1 час") fresh)
     <> Return (true, Accepted).
Proof.
  assert (H : extract_text_from_pdf_sync (Some [PageText (py "490 KZT"); PageError]) = [])
    by reflexivity.
  split; [exact H|].
  exact (empty_extraction_never_accepted sample_cfg (sample_env [])
           (Some [PageText (py "490 KZT"); PageError]) good_file (py "1 час") fresh
           Accepted H).
Defined.

Lemma extraction_all_or_nothing_witness :
  substring (py "490 KZT")
    (extract_text_from_pdf_sync (Some [PageText (py "490 KZT"); PageNone; PageText (py "98765")])).
Proof.
  assert (Hne : py "490 KZT" <> []) by (vm_compute; discriminate).
  exact (proj1 (extraction_all_or_nothing
                  (Some [PageText (py "490 KZT"); PageNone; PageText (py "98765")]))
           [PageText (py "490 KZT"); PageNone; PageText (py "98765")] (py "490 KZT")
           eq_refl eq_refl (or_introl eq_refl) Hne).
Defined.

Lemma failed_count_query_reports_one_witness :
  count_of (db (snd (log_suspicious_receipt (sample_env []) 7 (py "user") (py "a.pdf")
                       (mk_state
                          (mk_database [] []
                             [mk_suspicious 7 (py "user") (py "a.pdf") 5 false] [])
                          ∅ [false; true] []))))
           7 (py "a.pdf")
  = count_of (db (mk_state
                    (mk_database [] []
                       [mk_suspicious 7 (py "user") (py "a.pdf") 5 false] [])
                    ∅ [false; true] []))
             7 (py "a.pdf") + 1
  /\ fst (log_suspicious_receipt (sample_env []) 7 (py "user") (py "a.pdf")
            (mk_state
               (mk_database [] []
                  [mk_suspicious 7 (py "user") (py "a.pdf") 5 false] [])
               ∅ [false; true] []))
     = Return 1.
Proof.
  pose proof (failed_count_query_reports_one (sample_env []) 7 (py "user") (py "a.pdf")
                (mk_state
                   (mk_database [] []
                      [mk_suspicious 7 (py "user") (py "a.pdf") 5 false] [])
                   ∅ [false; true] [])
                [] eq_refl) as [H1 H2].
  split; [exact H2 | exact H1].
Defined.

(** ** The sessions listing *)

Section Listing.

Variables (e : env) (user_id : Z).

Lemma insert_desc_perm (c : code_row) (l : list code_row) :
  Permutation (insert_desc c l) (c :: l).
Proof.
  induction l as [|x l IH]; [reflexivity|]. cbn [insert_desc].
  destruct (expires_at x <? expires_at c); [reflexivity|].
  rewrite IH. apply perm_swap.
Qed.

(** Ordering the sessions rearranges them; none is lost or repeated. *)
Lemma order_by_expires_desc_perm (l : list code_row) :
  Permutation (order_by_expires_desc l) l.
Proof.
  unfold order_by_expires_desc. induction l as [|c l IH]; [reflexivity|].
  cbn [fold_right]. rewrite insert_desc_perm. now apply perm_skip.
Qed.

Lemma insert_desc_descending (c : code_row) (l : list code_row) :
  descending expires_at l -> descending expires_at (insert_desc c l).
Proof.
  induction l as [|x l IH]; [cbn; auto|].
  intros [Hx Hl]. cbn [insert_desc].
  destruct (expires_at x <? expires_at c) eqn:E.
  - apply Z.ltb_lt in E. cbn [descending]. split; [|now split].
    constructor; [lia|]. apply List.Forall_forall. intros y Hy.
    rewrite List.Forall_forall in Hx. specialize (Hx y Hy). lia.
  - apply Z.ltb_ge in E. cbn [descending]. split; [|now apply IH].
    apply List.Forall_forall. intros y Hy. apply insert_desc_In in Hy.
    destruct Hy as [-> | Hy]; [exact E|].
    rewrite List.Forall_forall in Hx. now apply Hx.
Qed.

(** The fetched sessions are in descending order of expiry. *)
Lemma order_by_expires_desc_descending (l : list code_row) :
  descending expires_at (order_by_expires_desc l).
Proof.
  unfold order_by_expires_desc. induction l as [|c l IH]; [exact I|].
  cbn [fold_right]. now apply insert_desc_descending.
Qed.

(** The handler, whatever the fault schedule. *)
Lemma handle_my_sessions_eq (s : state) :
  handle_my_sessions e user_id s =
    match faults s with
    | true :: rest =>
        (Return tt,
         mk_state (db s) (user_tariffs s) rest
           (trace s ++ [Query (select_sessions user_id); LogError; Answer NoSessions]))
    | fs =>
        (Return tt,
         mk_state (db s) (user_tariffs s) (tl fs)
           (trace s
            ++ [Query (select_sessions user_id);
                Answer (listing (db_now e)
                          (order_by_expires_desc (sessions_of (db s) user_id)))]))
    end.
Proof.
  unfold handle_my_sessions, sessions_of. unfold bind at 1. rewrite execute_db_eq.
  destruct (faults s) as [|[] rest]; cbn [run fst snd fetched tl].
  - destruct (order_by_expires_desc _) as [|c l].
    + cbn [map truthy length Nat.eqb negb listing]. unfold emit.
      cbn [db user_tariffs faults trace]. now rewrite <- app_assoc.
    + change (truthy (PyRows (map (session_row (db_now e)) (c :: l)))) with true.
      cbn [negb]. erewrite bind_return by apply lines_of_session_rows.
      unfold emit, listing. cbn [db user_tariffs faults trace]. now rewrite <- app_assoc.
  - cbn [truthy negb]. unfold emit. cbn [db user_tariffs faults trace].
    now rewrite <- app_assoc.
  - destruct (order_by_expires_desc _) as [|c l].
    + cbn [map truthy length Nat.eqb negb listing]. unfold emit.
      cbn [db user_tariffs faults trace]. now rewrite <- app_assoc.
    + change (truthy (PyRows (map (session_row (db_now e)) (c :: l)))) with true.
      cbn [negb]. erewrite bind_return by apply lines_of_session_rows.
      unfold emit, listing. cbn [db user_tariffs faults trace]. now rewrite <- app_assoc.
Qed.

(** X22: the sessions listing only reads.  When its query is answered, the
    reply lists the rows of [codes] of the user, each once and no other,
    in descending order of expiry, or says that there are no sessions when
    the user has none; a line shows its code exactly when it is active.
    When the query fails the reply is the one for no sessions, whatever the
    user has. *)
Theorem sessions_listing_complete_and_ordered (s : state) :
  db (snd (handle_my_sessions e user_id s)) = db s
  /\ user_tariffs (snd (handle_my_sessions e user_id s)) = user_tariffs s
  /\ (next_call_fails s = true ->
        trace (snd (handle_my_sessions e user_id s))
        = trace s ++ [Query (select_sessions user_id); LogError; Answer NoSessions])
  /\ (next_call_fails s = false ->
        exists rows,
          Permutation rows (sessions_of (db s) user_id)
          /\ descending expires_at rows
          /\ trace (snd (handle_my_sessions e user_id s))
             = trace s ++ [Query (select_sessions user_id);
                           Answer (listing (db_now e) rows)]
          /\ forall c, In c rows ->
               (line_code (session_line_of (db_now e) c) = Some (code c)
                <-> db_now e < expires_at c)
               /\ (line_code (session_line_of (db_now e) c) = None
                   <-> expires_at c <= db_now e)).
Proof.
  rewrite handle_my_sessions_eq. unfold next_call_fails.
  assert (Hrows : exists rows,
            Permutation rows (sessions_of (db s) user_id)
            /\ descending expires_at rows
            /\ rows = order_by_expires_desc (sessions_of (db s) user_id)
            /\ forall c, In c rows ->
                 (line_code (session_line_of (db_now e) c) = Some (code c)
                  <-> db_now e < expires_at c)
                 /\ (line_code (session_line_of (db_now e) c) = None
                     <-> expires_at c <= db_now e)).
  { exists (order_by_expires_desc (sessions_of (db s) user_id)).
    split; [apply order_by_expires_desc_perm|].
    split; [apply order_by_expires_desc_descending|]. split; [reflexivity|].
    intros c _. unfold session_line_of. cbn [line_code].
    destruct (db_now e <? expires_at c) eqn:E;
      [apply Z.ltb_lt in E | apply Z.ltb_ge in E];
      (split; split; intros H; try reflexivity; try discriminate; try lia). }
  destruct Hrows as (rows & Hperm & Hdesc & Heq & Hcode).
  subst rows.
  destruct (faults s) as [|[] rest]; cbn [hd snd db user_tariffs trace];
    (split; [reflexivity|]); (split; [reflexivity|]);
    split; intros Hn; try discriminate Hn; try reflexivity;
    (eexists; split; [exact Hperm|]; split; [exact Hdesc|];
     split; [reflexivity | exact Hcode]).
Qed.

End Listing.

Lemma sessions_listing_complete_and_ordered_witness :
  next_call_fails returning_user = false
  /\ exists rows,
       Permutation rows (sessions_of (db returning_user) 7)
       /\ trace (snd (handle_my_sessions (sample_env []) 7 returning_user))
          = trace returning_user
            ++ [Query (select_sessions 7); Answer (listing (db_now (sample_env [])) rows)].
Proof.
  assert (H : next_call_fails returning_user = false) by reflexivity.
  split; [exact H|].
  destruct (proj2 (proj2 (proj2
              (sessions_listing_complete_and_ordered (sample_env []) 7 returning_user))) H)
    as (rows & Hperm & _ & Htrace & _).
  exists rows. split; [exact Hperm | exact Htrace].
Defined.

(** ** Failures are counted per file name *)

Section PerFile.

Variables (cfg : config) (e : env) (m : message) (tariff : str) (s : state).

Local Abbreviation user := (from_user_id m).
Local Abbreviation file := (doc_file_name m).
Local Abbreviation after := (snd (handle_payment_proof cfg e m s)).

(** X23: the failure count that decides on the blocked reply is the one of
    the (user, file name) pair.  A refused upload under a file name for
    which the user has no failure record is answered with the validation
    failure, not with the blocked reply, whenever the limit is above 1,
    whatever counts the user has under other file names; it sets the count
    of its own pair to 1 and leaves every other count as it was. *)
Theorem failures_counted_per_file_name :
  faults s = [] ->
  blocked_in (db s) user = false ->
  user_tariffs s !! user = Some tariff ->
  well_formed_upload cfg m ->
  refused_on cfg e file tariff (receipt_transactions (db s)) ->
  count_of (db s) user file = 0 ->
  1 < SUSPICIOUS_RECEIPT_LIMIT cfg ->
  (exists acts why price,
     trace after = trace s ++ acts ++ [Answer (ValidationFailed why price); DeleteMessage])
  /\ count_of (db after) user file = 1
  /\ (forall u f, (u, f) <> (user, file) ->
        count_of (db after) u f = count_of (db s) u f).
Proof.
  intros Hf Hb Ht Hw Hr Hc Hlimit.
  destruct (Hr (with_trace s [Query (select_blocked user); Answer Processing;
                              GetFile; DownloadFile; ExtractText]) Hf eq_refl)
    as [why Hwhy].
  assert (Hall : forall s1, faults s1 = [] ->
            receipt_transactions (db s1) = receipt_transactions (db s) ->
            fst (validate_receipt cfg e file (pdf_text e) tariff s1)
            = Return (false, why)).
  { intros s1 Hf1 Hl1. rewrite <- Hwhy. apply validate_receipt_same_ledger; auto. }
  destruct (upload_refused_step cfg e m tariff s why Hf Hb Ht Hw Hall)
    as (acts & price & Hrun).
  destruct (log_suspicious_receipt_ok e user (username_of m) file s Hf)
    as (_ & Hcount & _).
  cbv zeta in Hcount.
  rewrite Hrun. cbn [snd db trace].
  split; [|split].
  - exists acts, why, price. rewrite Hc. change (0 + 1) with 1.
    replace (SUSPICIOUS_RECEIPT_LIMIT cfg <=? 1) with false
      by (symmetry; apply Z.leb_gt; exact Hlimit).
    reflexivity.
  - rewrite Hcount, Hc. reflexivity.
  - intros u f Hne. unfold count_of. cbn [suspicious_receipts].
    rewrite filter_other_key; [reflexivity|].
    unfold same_suspicious_key, new_suspicious. cbn [sr_user_id file_name].
    destruct (user =? u) eqn:Eu; [|reflexivity].
    destruct (str_eqb file f) eqn:Ef; [|reflexivity].
    apply Z.eqb_eq in Eu. apply str_eqb_eq in Ef. congruence.
Qed.

End PerFile.

Lemma failures_counted_per_file_name_witness :
  count_of
    (db (snd (handle_payment_proof sample_cfg (sample_env []) (upload 7 (py "b.pdf"))
                (mk_state
                   (mk_database [] []
                      [mk_suspicious 7 (py "user") (py "a.pdf") 5 false] [])
                   {[ 7 := py "1 час" ]} [] []))))
    (from_user_id (upload 7 (py "b.pdf"))) (doc_file_name (upload 7 (py "b.pdf")))
  = 1.
Proof.
  pose (s := mk_state
               (mk_database [] []
                  [mk_suspicious 7 (py "user") (py "a.pdf") 5 false] [])
               {[ 7 := py "1 час" ]} [] []).
  assert (Ht : user_tariffs s !! from_user_id (upload 7 (py "b.pdf")) = Some (py "1 час"))
    by (vm_compute; reflexivity).
  assert (Hc : count_of (db s) (from_user_id (upload 7 (py "b.pdf")))
                 (doc_file_name (upload 7 (py "b.pdf"))) = 0)
    by (vm_compute; reflexivity).
  assert (Hlimit : 1 < SUSPICIOUS_RECEIPT_LIMIT sample_cfg) by (vm_compute; reflexivity).
  exact (proj1 (proj2
           (failures_counted_per_file_name sample_cfg (sample_env [])
              (upload 7 (py "b.pdf")) (py "1 час") s
              eq_refl eq_refl Ht (sample_well_formed 7 (py "b.pdf"))
              (empty_text_refused (py "b.pdf") (receipt_transactions (db s)))
              Hc Hlimit))).
Defined.
